(** * AIVA web chat: a shallow embedding of the chat and message-action
    route handlers, the service adapters and the dashboard's error mapping.

    Sources embedded here:
    - the chat router: POST /chat/message,
      POST /chat/:chatId/messages/:messageId/actions, POST /chat,
      GET /chat/:chatId/messages, DELETE /chat/:chatId, and its helpers
      [containsDataKeywords] and [getRegularAIResponse],
    - the Azure service initialisation (SQL, Blob Storage, App Configuration,
      OpenAI) together with the table schema it creates, and the database
      helpers [createMessage] and [getMessagesByChatId],
    - [extractFileContent] and [truncateContentForTokens] of
      [FileAnalysisService],
    - [apiRequest], [chatAPI.sendMessage] and [fileAPI.uploadFile] of the
      API client,
    - [sendMessage] (its guard, the request it builds and its catch block)
      and [handleMessageAction] (with the update of the action flags) of the
      dashboard component.

    Conventions of the model.
    - A JavaScript string is a [string]; a character stands for one code
      unit below 256.  A value that may be [undefined] is an [option]; the
      truthiness of a string is [truthy] (present and not empty).
    - The members [message], [chatId] and [workspaceId] of a request body
      are strings or absent.  [files] is any JSON value: absent or falsy, an
      array, or another truthy value, of which the handler reads the
      [length] only.  The elements of an array are objects whose members
      are strings or absent.
    - The database is a record of tables, a table a list of rows in insertion
      order.  The connection pool is at hand; a statement either is accepted
      and yields the next database or is rejected (primary key, UNIQUE,
      FOREIGN KEY, CHECK, INT overflow), in which case the driver throws.
      Column widths and collations are not modelled: strings are compared
      exactly.  [TOP 1] without ORDER BY takes the first row in insertion
      order.
    - [GETUTCDATE()] reads a clock that advances with every statement;
      [uuidv4()] is an oracle indexed by the number of calls so far.
    - Every write statement of the kinds of [Stmt] and every chat-completion
      call is recorded, in order, in the trace of the world.  The two writes
      of another kind (the archiving UPDATE of DELETE /chat/:chatId and the
      recounting UPDATE of [createMessage]) go through [statement], which
      changes the database and advances the clock and leaves the trace
      alone. *)

From Stdlib Require Import Ascii String ZArith QArith Lia.
From stdpp Require Import base strings list gmap pretty sorting.

Local Open Scope Z_scope.
Local Open Scope nat_scope.

(* ===================================================================== *)
(** ** JavaScript strings *)
(* ===================================================================== *)

Module JS.

(** A string is truthy when it is present and not empty. *)
Definition nonEmpty (s : string) : bool :=
  match s with EmptyString => false | String _ _ => true end.

Definition truthy (o : option string) : bool :=
  match o with Some s => nonEmpty s | None => false end.

(** [a || b] on strings that may be undefined. *)
Definition orElse (o : option string) (d : string) : string :=
  match o with
  | Some s => if nonEmpty s then s else d
  | None => d
  end.

(** WhiteSpace and LineTerminator code units below 256: TAB, LF, VT, FF, CR,
    SP and NBSP. *)
Definition isWhiteSpace (c : ascii) : bool :=
  let n := nat_of_ascii c in
  ((9 <=? n) && (n <=? 13)) || (n =? 32) || (n =? 160).

Fixpoint trimStart (s : string) : string :=
  match s with
  | EmptyString => EmptyString
  | String c s' => if isWhiteSpace c then trimStart s' else s
  end.

Fixpoint trimEnd (s : string) : string :=
  match s with
  | EmptyString => EmptyString
  | String c s' =>
      match trimEnd s' with
      | EmptyString => if isWhiteSpace c then EmptyString else String c EmptyString
      | t => String c t
      end
  end.

Definition trim (s : string) : string := trimEnd (trimStart s).

(** [s.includes(sub)] *)
Fixpoint includes (s sub : string) : bool :=
  String.prefix sub s ||
  match s with
  | EmptyString => false
  | String _ s' => includes s' sub
  end.

(** [s.startsWith(p)] *)
Definition startsWith (s p : string) : bool := String.prefix p s.

(** [s.endsWith("/")] and [s.slice(0, -1)] *)
Fixpoint endsWithChar (s : string) (c : ascii) : bool :=
  match s with
  | EmptyString => false
  | String a EmptyString => bool_decide (a = c)
  | String _ s' => endsWithChar s' c
  end.

Fixpoint dropLast (s : string) : string :=
  match s with
  | EmptyString => EmptyString
  | String _ EmptyString => EmptyString
  | String a s' => String a (dropLast s')
  end.

(** [s.split(sep)] for a one-character separator; never the empty list. *)
Fixpoint split (sep : ascii) (s : string) : list string :=
  match s with
  | EmptyString => [EmptyString]
  | String c s' =>
      if bool_decide (c = sep) then EmptyString :: split sep s'
      else match split sep s' with
           | h :: t => String c h :: t
           | [] => [String c EmptyString]
           end
  end.

(** [arr.join(sep)] *)
Fixpoint join (sep : string) (l : list string) : string :=
  match l with
  | [] => EmptyString
  | [x] => x
  | x :: rest => x +:+ sep +:+ join sep rest
  end.

(** [s.substring(0, n)] *)
Definition substring0 (n : nat) (s : string) : string := String.substring 0 n s.

Definition isHexDigit (c : ascii) : bool :=
  let n := nat_of_ascii c in
  ((48 <=? n) && (n <=? 57)) || ((97 <=? n) && (n <=? 102)) ||
  ((65 <=? n) && (n <=? 70)).

(** Consume exactly [n] hexadecimal digits. *)
Fixpoint hexRun (n : nat) (s : string) : option string :=
  match n with
  | 0 => Some s
  | S n' =>
      match s with
      | String c s' => if isHexDigit c then hexRun n' s' else None
      | EmptyString => None
      end
  end.

(** [n] hexadecimal digits followed by a dash. *)
Definition hexDash (n : nat) (s : string) : option string :=
  match hexRun n s with
  | Some (String "-"%char r) => Some r
  | _ => None
  end.

(** [/^[0-9a-f]{8}-[0-9a-f]{4}-[0-9a-f]{4}-[0-9a-f]{4}-[0-9a-f]{12}$/i.test(s)] *)
Definition uuidRegex_test (s : string) : bool :=
  match hexDash 8 s with
  | Some r1 =>
      match hexDash 4 r1 with
      | Some r2 =>
          match hexDash 4 r2 with
          | Some r3 =>
              match hexDash 4 r3 with
              | Some r4 =>
                  match hexRun 12 r4 with
                  | Some EmptyString => true
                  | _ => false
                  end
              | None => false
              end
          | None => false
          end
      | None => false
      end
  | None => false
  end.

End JS.

(* ===================================================================== *)
(** ** The relational schema ([createTables]) *)
(* ===================================================================== *)

(** Rows carry the columns the handlers read or write; a DATETIME2 is a
    reading of the clock. *)

Record UserRow := mkUser {
  u_id : string;
  u_firstName : string;
  u_lastName : string;
  u_email : string;
  u_role : string;
  u_isActive : bool;
  u_createdAt : nat;
  u_updatedAt : nat
}.

Record WorkspaceRow := mkWorkspace {
  w_id : string;
  w_name : string;
  w_description : string;
  w_color : string;
  w_ownerId : string;
  w_createdAt : nat;
  w_updatedAt : nat
}.

Record ChatRow := mkChat {
  c_id : string;
  c_title : string;
  c_description : string;
  c_userId : string;
  c_workspaceId : option string;
  c_messageCount : Z;
  c_isArchived : bool;
  c_lastMessageAt : option nat;
  c_createdAt : nat;
  c_updatedAt : nat
}.

Record MessageRow := mkMessage {
  m_id : string;
  m_chatId : string;
  m_userId : string;
  m_content : string;
  m_role : string;
  m_createdAt : nat
}.

Record ActionRow := mkAction {
  a_id : string;
  a_messageId : string;
  a_userId : string;
  a_actionType : string;
  a_createdAt : nat
}.

Record Database := mkDb {
  Users : list UserRow;
  Workspaces : list WorkspaceRow;
  Chats : list ChatRow;
  Messages : list MessageRow;
  MessageActions : list ActionRow
}.

(** The write statements the two handlers issue, with their bound inputs. *)
Inductive Stmt :=
  | InsertUser (id firstName lastName email role : string)
  | UpdateUserId (id email : string)
  | InsertWorkspace (id name description color ownerId : string)
  | InsertChat (id userId workspaceId title description : string)
  | InsertMessage (id chatId userId content role : string)
  | UpdateChatCounters (chatId : string)
  | InsertAction (id messageId userId actionType : string)
  | DeleteAction (messageId userId actionType : string).

Module Sql.

(** The largest value of an INT column. *)
Definition int_max : Z := 2147483647.

Definition userRoles : list string := ["admin"; "user"].
Definition messageRoles : list string := ["user"; "assistant"; "system"].
Definition actionTypes : list string := ["like"; "dislike"; "bookmark"; "star"].

Definition isNil {A} (l : list A) : bool :=
  match l with [] => true | _ :: _ => false end.

Definition isIn (x : string) (l : list string) : bool := bool_decide (x ∈ l).

Definition userIds (d : Database) : list string := u_id <$> Users d.
Definition workspaceIds (d : Database) : list string := w_id <$> Workspaces d.
Definition chatIds (d : Database) : list string := c_id <$> Chats d.
Definition messageIds (d : Database) : list string := m_id <$> Messages d.

(** Some row of another table points at user [id]. *)
Definition userReferenced (d : Database) (id : string) : bool :=
  isIn id (w_ownerId <$> Workspaces d) || isIn id (c_userId <$> Chats d) ||
  isIn id (m_userId <$> Messages d) || isIn id (a_userId <$> MessageActions d).

Definition setUserId (id : string) (u : UserRow) : UserRow :=
  mkUser id (u_firstName u) (u_lastName u) (u_email u) (u_role u)
         (u_isActive u) (u_createdAt u) (u_updatedAt u).

(** [SET messageCount = messageCount + 2, lastMessageAt = GETUTCDATE(),
    updatedAt = GETUTCDATE()] *)
Definition bumpChat (now : nat) (c : ChatRow) : ChatRow :=
  mkChat (c_id c) (c_title c) (c_description c) (c_userId c) (c_workspaceId c)
         (c_messageCount c + 2)%Z (c_isArchived c) (Some now) (c_createdAt c) now.

Definition withUsers (d : Database) (t : list UserRow) : Database :=
  mkDb t (Workspaces d) (Chats d) (Messages d) (MessageActions d).
Definition withWorkspaces (d : Database) (t : list WorkspaceRow) : Database :=
  mkDb (Users d) t (Chats d) (Messages d) (MessageActions d).
Definition withChats (d : Database) (t : list ChatRow) : Database :=
  mkDb (Users d) (Workspaces d) t (Messages d) (MessageActions d).
Definition withMessages (d : Database) (t : list MessageRow) : Database :=
  mkDb (Users d) (Workspaces d) (Chats d) t (MessageActions d).
Definition withActions (d : Database) (t : list ActionRow) : Database :=
  mkDb (Users d) (Workspaces d) (Chats d) (Messages d) t.

Definition actionKeyIs (messageId userId actionType : string) (a : ActionRow) : Prop :=
  a_messageId a = messageId ∧ a_userId a = userId ∧ a_actionType a = actionType.

#[global] Instance actionKeyIs_dec m u t a : Decision (actionKeyIs m u t a).
Proof. unfold actionKeyIs. apply _. Defined.

(** One statement against the database at time [now]: [Some] the next
    database when a constraint of the schema does not reject it. *)
Definition run (now : nat) (s : Stmt) (d : Database) : option Database :=
  match s with
  | InsertUser id firstName lastName email role =>
      if negb (isIn id (userIds d)) && negb (isIn email (u_email <$> Users d))
         && isIn role userRoles
      then Some (withUsers d (Users d ++ [mkUser id firstName lastName email role true now now]))
      else None
  | UpdateUserId id email =>
      let moved := filter (λ u, u_email u = email ∧ u_id u ≠ id) (Users d) in
      let t := (λ u, if bool_decide (u_email u = email) then setUserId id u else u) <$> Users d in
      if forallb (λ u, negb (userReferenced d (u_id u))) moved
         && bool_decide (NoDup (u_id <$> t))
      then Some (withUsers d t)
      else None
  | InsertWorkspace id name description color ownerId =>
      if negb (isIn id (workspaceIds d)) && isIn ownerId (userIds d)
      then Some (withWorkspaces d
                   (Workspaces d ++ [mkWorkspace id name description color ownerId now now]))
      else None
  | InsertChat id userId workspaceId title description =>
      if negb (isIn id (chatIds d)) && isIn userId (userIds d)
         && isIn workspaceId (workspaceIds d)
      then Some (withChats d
                   (Chats d ++ [mkChat id title description userId (Some workspaceId)
                                       0%Z false None now now]))
      else None
  | InsertMessage id chatId userId content role =>
      if negb (isIn id (messageIds d)) && isIn chatId (chatIds d)
         && isIn userId (userIds d) && isIn role messageRoles
      then Some (withMessages d (Messages d ++ [mkMessage id chatId userId content role now]))
      else None
  | UpdateChatCounters chatId =>
      if forallb (λ c, negb (bool_decide (c_id c = chatId))
                       || (c_messageCount c + 2 <=? int_max)%Z)
                 (Chats d)
      then Some (withChats d
                   ((λ c, if bool_decide (c_id c = chatId) then bumpChat now c else c)
                      <$> Chats d))
      else None
  | InsertAction id messageId userId actionType =>
      if negb (isIn id (a_id <$> MessageActions d)) && isIn messageId (messageIds d)
         && isIn userId (userIds d) && isIn actionType actionTypes
         && isNil (filter (actionKeyIs messageId userId actionType) (MessageActions d))
      then Some (withActions d (MessageActions d ++ [mkAction id messageId userId actionType now]))
      else None
  | DeleteAction messageId userId actionType =>
      Some (withActions d
              (filter (λ a, ¬ actionKeyIs messageId userId actionType a) (MessageActions d)))
  end.

End Sql.

(* ===================================================================== *)
(** ** Requests, responses and the world a handler runs in *)
(* ===================================================================== *)

(** A file object of [req.body.files]. *)
Record File := mkFile {
  f_originalName : option string;
  f_url : option string;
  f_fileName : option string;
  f_name : option string;
  f_blobName : option string
}.

(** What the handler reads from a [files] that is truthy and not an array:
    how its [length] compares with 0.  ([true], a number and an object without
    a numeric [length] are [LengthOther]; a string that is not empty is
    [LengthPositive].) *)
Inductive Length := LengthZero | LengthPositive | LengthOther.

(** [req.body.files] when it is truthy: an array of file objects, or another
    value. *)
Inductive Files :=
  | FileArray (files : list File)
  | NotArray (len : Length).

(** [req.body] of POST /chat/message as the handler gets it from
    [validate(schemas.sendMessage)]; [b_files] is [None] for a [files] that
    is absent or falsy. *)
Record Body := mkBody {
  b_message : option string;
  b_chatId : option string;
  b_workspaceId : option string;
  b_files : option Files
}.

(** [req.user], set by [authenticateToken]. *)
Record AuthUser := mkAuthUser {
  userId : string;
  role : option string
}.

Record Request := mkRequest {
  body : Body;
  user : AuthUser
}.

#[warnings="-register-all"]
Inductive json :=
  | JBool (b : bool)
  | JNum (n : nat)
  | JStr (s : string)
  | JObj (fields : list (string * json)).

(** [res.status(status).json(payload)] *)
Record Response := mkResponse {
  status : nat;
  payload : json
}.

Record ChatMessage := mkChatMessage {
  cm_role : string;
  cm_content : string
}.

Record CompletionOptions := mkOptions {
  maxTokens : Z;
  temperature : Q
}.

(** What the handlers take from outside the database. *)
Record Env := mkEnv {
  process_env : gmap string string;
  (** the value of the n-th call of [uuidv4()] *)
  uuidv4 : nat → string;
  (** [openAIService.getSystemPrompt()] *)
  getSystemPrompt : string;
  (** [openAIService.getChatCompletion(messages, options)]: the content of
      the response, or the message of the error it throws *)
  getChatCompletion : list ChatMessage → CompletionOptions → string + string;
  (** [storageService.getFileContent(blobName)]; [None] when it throws *)
  getFileContent : string → option string;
  (** [new URL(u).pathname]; [None] when the constructor throws *)
  urlPathname : string → option string;
  (** whether [FileAnalysisService.getInstance()] can be obtained *)
  fileAnalysisAvailable : bool;
  (** the message of the error the driver throws for a rejected statement *)
  sqlErrorMessage : Stmt → string
}.

Inductive Event :=
  | EvSql (s : Stmt) (now : nat) (accepted : bool)
  | EvChatCompletion (messages : list ChatMessage) (options : CompletionOptions)
                     (result : string + string).

Record World := mkWorld {
  db : Database;
  clock : nat;
  uuidCalls : nat;
  trace : list Event
}.

(** The result of a piece of handler code: it falls through with a value,
    it returns a response ([return res.status(..).json(..)]), or it throws. *)
Inductive Outcome (A : Type) :=
  | Val (a : A)
  | Ret (r : Response)
  | Exc (e : string).
Arguments Val {A} a.
Arguments Ret {A} r.
Arguments Exc {A} e.

Definition M (A : Type) : Type := World → Outcome A * World.

#[global] Instance M_ret : MRet M := λ A a w, (Val a, w).

#[global] Instance M_bind : MBind M := λ A B k m w,
  match m w with
  | (Val a, w1) => k a w1
  | (Ret r, w1) => (Ret r, w1)
  | (Exc e, w1) => (Exc e, w1)
  end.

Section Primitives.
Context (E : Env).

(** [return res.status(st).json({..})] in the middle of the handler. *)
Definition respond {A} (st : nat) (fields : list (string * json)) : M A :=
  λ w, (Ret (mkResponse st (JObj fields)), w).

(** [throw new Error(e)], or a call that throws. *)
Definition throw {A} (e : string) : M A := λ w, (Exc e, w).

(** [res.status(st).json({..})] as the handler's last statement. *)
Definition finish (st : nat) (fields : list (string * json)) : M Response :=
  mret (mkResponse st (JObj fields)).

(** A SELECT: it reads the database and leaves the world as it is. *)
Definition query {A} (f : Database → A) : M A := λ w, (Val (f (db w)), w).

Definition getClock : M nat := λ w, (Val (clock w), w).

Definition newUuid : M string := λ w,
  (Val (uuidv4 E (uuidCalls w)),
   mkWorld (db w) (clock w) (S (uuidCalls w)) (trace w)).

(** A write statement: accepted and applied, or rejected and thrown. *)
Definition exec (s : Stmt) : M unit := λ w,
  match Sql.run (clock w) s (db w) with
  | Some d =>
      (Val tt, mkWorld d (S (clock w)) (uuidCalls w)
                       (trace w ++ [EvSql s (clock w) true]))
  | None =>
      (Exc (sqlErrorMessage E s),
       mkWorld (db w) (S (clock w)) (uuidCalls w)
               (trace w ++ [EvSql s (clock w) false]))
  end.

(** The chat-completion call inside its own [try]: the error is kept, not
    thrown on. *)
Definition chatCompletion (messages : list ChatMessage) (options : CompletionOptions)
  : M (string + string) := λ w,
  let r := getChatCompletion E messages options in
  (Val r, mkWorld (db w) (clock w) (uuidCalls w)
                  (trace w ++ [EvChatCompletion messages options r])).

(** The handler's outer [try { .. } catch (error) { res.status(500).. }]. *)
Definition handle (m : M Response) (onError : string → Response) (w : World)
  : Response * World :=
  match m w with
  | (Val r, w1) => (r, w1)
  | (Ret r, w1) => (r, w1)
  | (Exc e, w1) => (onError e, w1)
  end.

Definition envIs (key value : string) : bool :=
  bool_decide (process_env E !! key = Some value).

End Primitives.

(* ===================================================================== *)
(** ** [FileAnalysisService]: raw file content for the prompt *)
(* ===================================================================== *)

Definition LF : string := String "010"%char EmptyString.

(** A value interpolated in a template literal. *)
Definition interp (o : option string) : string :=
  match o with Some s => s | None => "undefined" end.

Record FileContentResult := mkFileContentResult {
  fcr_fileName : string;
  fcr_originalName : string;
  fcr_content : string;
  fcr_size : nat
}.

Section FileAnalysis.
Context (E : Env).

(** Rough approximation: 1 token is about 4 characters. *)
Definition truncateContentForTokens (content : string) (maxTokens : nat) : string :=
  let maxChars := maxTokens * 4 in
  if String.length content <=? maxChars then content
  else JS.substring0 maxChars content.

(** It never throws: a failed read yields a fallback content. *)
Definition extractFileContent (fileName originalName : string) : FileContentResult :=
  match getFileContent E fileName with
  | Some fileContent =>
      mkFileContentResult fileName originalName
        (truncateContentForTokens fileContent 2000) (String.length fileContent)
  | None =>
      mkFileContentResult fileName originalName
        ("[Content not available for file: " +:+ originalName +:+ "]") 0
  end.

End FileAnalysis.

(* ===================================================================== *)
(** ** The chat router: POST /chat/message *)
(* ===================================================================== *)

Module ChatRoutes.

Definition createdBefore (a b : MessageRow) : Prop := m_createdAt a ≤ m_createdAt b.

#[global] Instance createdBefore_dec a b : Decision (createdBefore a b).
Proof. unfold createdBefore. apply _. Defined.

#[global] Instance createdBefore_total : Total createdBefore.
Proof. intros a b. unfold createdBefore. lia. Defined.

Section PostMessage.
Context (E : Env).

(** [!message || message.trim().length === 0] *)
Definition noMessage (message : option string) : bool :=
  match message with
  | None => true
  | Some s => negb (JS.nonEmpty s) || (String.length (JS.trim s) =? 0)
  end.

(** [!files || files.length === 0] *)
Definition noFiles (files : option Files) : bool :=
  match files with
  | None => true
  | Some (FileArray l) => length l =? 0
  | Some (NotArray LengthZero) => true
  | Some (NotArray _) => false
  end.

(** The loop over [files.entries()]: the payload of the first 400, if any. *)
Fixpoint checkFiles (index : nat) (l : list File) : option (list (string * json)) :=
  match l with
  | [] => None
  | file :: rest =>
      if negb (JS.truthy (f_originalName file)) then
        Some [("error", JStr "Invalid file format");
              ("message", JStr ("File at index " +:+ pretty index
                                  +:+ " missing originalName property"))]
      else if negb (JS.truthy (f_url file)) then
        Some [("error", JStr "Invalid file format");
              ("message", JStr ("File at index " +:+ pretty index
                                  +:+ " missing url property"))]
      else checkFiles (S index) rest
  end.

(** The two validations at the head of the handler; the loop runs when
    [files && files.length > 0] and passes at once on an empty array.  A
    value that is not an array has no [entries] method: with a positive
    [length] the call throws a [TypeError]. *)
Definition validateRequest (b : Body) : M unit :=
  if noMessage (b_message b) && noFiles (b_files b) then
    respond 400 [("error", JStr "Message content or files are required");
                 ("message", JStr "Please provide a message or attach files to send")]
  else
    match b_files b with
    | Some (FileArray l) =>
        match checkFiles 0 l with
        | Some fields => respond 400 fields
        | None => mret tt
        end
    | Some (NotArray LengthPositive) => throw "files.entries is not a function"
    | Some (NotArray _) => mret tt
    | None => mret tt
    end.

(** The default title for file-only messages.  (A [files] that is not an
    array and has a positive [length] does not get past the validation.) *)
Definition defaultTitle (b : Body) : string :=
  if noMessage (b_message b) then
    match b_files b with
    | Some (FileArray (file :: rest)) =>
        let t := "File: " +:+ interp (f_originalName file) in
        if 1 <? length (file :: rest)
        then t +:+ " and " +:+ pretty (length (file :: rest) - 1) +:+ " more"
        else t
    | _ => "New Chat"
    end
  else "New Chat".

Definition mockEmail (u : AuthUser) : string := userId u +:+ "@example.com".

(** Ensure user exists in database before proceeding. *)
Definition ensureUser (u : AuthUser) : M unit :=
  userCheck ← query (λ d, filter (λ r, u_id r = userId u) (Users d));
  if Sql.isNil userCheck then
    if envIs E "NODE_ENV" "development" && envIs E "BYPASS_AUTH" "true" then
      emailCheck ← query (λ d, filter (λ r, u_email r = mockEmail u) (Users d));
      if Sql.isNil emailCheck then
        exec E (InsertUser (userId u) "Test" "User" (mockEmail u)
                           (JS.orElse (role u) "user"))
      else
        exec E (UpdateUserId (userId u) (mockEmail u))
    else
      respond 404 [("error", JStr "User not found");
                   ("message", JStr "User account not found. Please log in again.")]
  else mret tt.

Definition createDefaultWorkspace (u : AuthUser) : M string :=
  defaultWorkspaceId ← newUuid E;
  exec E (InsertWorkspace defaultWorkspaceId "Default Workspace"
                          "Auto-created default workspace" "#3B82F6" (userId u));;
  mret defaultWorkspaceId.

(** Get or create workspace: an invalid workspaceId is ignored. *)
Definition resolveWorkspace (u : AuthUser) (workspaceId : option string) : M string :=
  let actualWorkspaceId :=
    if JS.truthy workspaceId && negb (JS.uuidRegex_test (interp workspaceId))
    then None else workspaceId in
  if negb (JS.truthy actualWorkspaceId) then
    workspaceCheck ← query (λ d,
      head (filter (λ r, w_ownerId r = userId u) (Workspaces d)));
    match workspaceCheck with
    | Some r => mret (w_id r)
    | None => createDefaultWorkspace u
    end
  else
    workspaceCheck ← query (λ d,
      filter (λ r, w_id r = interp actualWorkspaceId ∧ w_ownerId r = userId u)
             (Workspaces d));
    if Sql.isNil workspaceCheck then createDefaultWorkspace u
    else mret (interp actualWorkspaceId).

(** Get or create chat: the chat id and the chat title. *)
Definition resolveChat (u : AuthUser) (b : Body) (actualWorkspaceId : string)
  : M (string * string) :=
  if negb (JS.truthy (b_chatId b)) then
    actualChatId ← newUuid E;
    let chatTitle :=
      match b_message b with
      | Some s => if JS.nonEmpty s then JS.substring0 100 s else defaultTitle b
      | None => defaultTitle b
      end in
    exec E (InsertChat actualChatId (userId u) actualWorkspaceId chatTitle
                       "Auto-generated chat");;
    mret (actualChatId, chatTitle)
  else
    let actualChatId := interp (b_chatId b) in
    chatResult ← query (λ d,
      filter (λ r, c_id r = actualChatId ∧ c_userId r = userId u) (Chats d));
    match chatResult with
    | r :: _ => mret (actualChatId, c_title r)
    | [] => mret (actualChatId, "New Chat")
    end.

(** [file.fileName || file.name || file.blobName] *)
Definition orOpt (a b : option string) : option string :=
  if JS.truthy a then a else b.

(** The blob name of a file: one of its name properties, else the last
    segment of the path of its URL. *)
Definition blobNameOf (file : File) : option string :=
  let blobName := orOpt (orOpt (f_fileName file) (f_name file)) (f_blobName file) in
  if negb (JS.truthy blobName) && JS.truthy (f_url file) then
    match urlPathname E (interp (f_url file)) with
    | Some pathname => Some (List.last (JS.split "/" pathname) EmptyString)
    | None => blobName
    end
  else blobName.

(** One turn of the loop over [files]: the entry pushed on [fileContents]. *)
Definition fileEntry (file : File) : string * string :=
  if negb (JS.truthy (f_originalName file)) then
    (* throw new Error('File originalName is missing'), caught by the loop *)
    (JS.orElse (f_originalName file) "Unknown File",
     "[Content not available: File originalName is missing]")
  else
    let originalName := interp (f_originalName file) in
    let blobName := blobNameOf file in
    if negb (JS.truthy blobName) then
      (originalName, fcr_content (extractFileContent E originalName originalName))
    else
      (originalName, fcr_content (extractFileContent E (interp blobName) originalName)).

(** The template literal of one file. *)
Definition fileSection (f : string * string) : string :=
  "File: " +:+ f.1 +:+ LF +:+ "Content:" +:+ LF +:+ f.2 +:+ LF +:+ "---" +:+ LF.

Definition fileContentSection (files : list File) : string :=
  JS.join LF (fileSection <$> (fileEntry <$> files)).

(** Validate files array if present:
    [if (files && !Array.isArray(files)) return res.status(400)..] *)
Definition requireArray (b : Body) : M unit :=
  match b_files b with
  | Some (NotArray _) =>
      respond 400 [("error", JStr "Invalid files format");
                   ("message", JStr "Files must be an array of file objects")]
  | _ => mret tt
  end.

(** Prepare user message content, for a [files] that is absent or an
    array. *)
Definition userMessageContent (b : Body) : string :=
  let trimmed :=
    match b_message b with
    | Some s => if JS.nonEmpty s then JS.trim s else EmptyString
    | None => EmptyString
    end in
  match b_files b with
  | Some (FileArray (file :: rest)) =>
      if fileAnalysisAvailable E then
        if JS.nonEmpty trimmed then
          trimmed +:+ LF +:+ LF +:+ "Attached Files:" +:+ LF
                  +:+ fileContentSection (file :: rest)
        else
          "Analyze the following files:" +:+ LF +:+ LF
                  +:+ fileContentSection (file :: rest)
      else
        (* catch (fileProcessingError): continue with the message *)
        if JS.nonEmpty trimmed then trimmed
        else "User sent files but there was an error processing them."
  | _ => trimmed
  end.

Definition requireContent (b : Body) : M string :=
  if negb (JS.nonEmpty (userMessageContent b)) then
    respond 400 [("error", JStr "Message content or files are required");
                 ("message", JStr "Please provide a message or attach files to send")]
  else mret (userMessageContent b).

(** [SELECT content, role FROM Messages WHERE chatId = @chatId
    ORDER BY createdAt ASC], mapped to chat messages. *)
Definition chatHistoryOf (chatId : string) (d : Database) : list ChatMessage :=
  (λ m, mkChatMessage (m_role m) (m_content m)) <$>
    merge_sort createdBefore (filter (λ m, m_chatId m = chatId) (Messages d)).

Definition completionOptions : CompletionOptions := mkOptions 1000 (7 # 10).

Definition placeholder : string :=
  "Sorry, I encountered an issue processing your request. Please try again.".

(** Store the user message, call the model, store its answer (or the
    placeholder) and update the chat counters.  [new Date().toISOString()] is
    the reading of the clock. *)
Definition persistAndRespond (u : AuthUser) (actualChatId content : string)
  : M Response :=
  userMessageId ← newUuid E;
  exec E (InsertMessage userMessageId actualChatId (userId u) content "user");;
  chatHistory ← query (chatHistoryOf actualChatId);
  let messages :=
    [mkChatMessage "system" (getSystemPrompt E)] ++ chatHistory
      ++ [mkChatMessage "user" content] in
  aiResponse ← chatCompletion E messages completionOptions;
  match aiResponse with
  | inr openAIError =>
      aiMessageId ← newUuid E;
      exec E (InsertMessage aiMessageId actualChatId (userId u) placeholder "assistant");;
      exec E (UpdateChatCounters actualChatId);;
      respond 500
        [("error", JStr "Failed to get AI response");
         ("message",
          JStr "Sorry, there was an error processing your message. Please try again.");
         ("details", JStr openAIError)]
  | inl aiResponseContent =>
      aiMessageId ← newUuid E;
      exec E (InsertMessage aiMessageId actualChatId (userId u) aiResponseContent
                            "assistant");;
      exec E (UpdateChatCounters actualChatId);;
      t ← getClock;
      finish 200
        [("message", JStr "Message processed successfully");
         ("chatId", JStr actualChatId);
         ("userMessage",
          JObj [("id", JStr userMessageId); ("content", JStr content);
                ("role", JStr "user"); ("timestamp", JNum t)]);
         ("aiResponse",
          JObj [("id", JStr aiMessageId); ("content", JStr aiResponseContent);
                ("role", JStr "assistant"); ("timestamp", JNum t)])]
  end.

(** Everything before the first message is stored. *)
Definition prepare (req : Request) : M (string * string) :=
  validateRequest (body req);;
  ensureUser (user req);;
  actualWorkspaceId ← resolveWorkspace (user req) (b_workspaceId (body req));
  chat ← resolveChat (user req) (body req) actualWorkspaceId;
  requireArray (body req);;
  content ← requireContent (body req);
  mret (chat.1, content).

Definition sendMessageFailed (e : string) : Response :=
  mkResponse 500
    (JObj [("error", JStr "Failed to process message");
           ("message",
            JStr "Sorry, there was an error processing your message. Please try again.");
           ("details", JStr e)]).

(** [router.post('/message', validate(schemas.sendMessage), ..)] *)
Definition postMessage (req : Request) (w : World) : Response * World :=
  handle (p ← prepare req; persistAndRespond (user req) p.1 p.2)
         sendMessageFailed w.

End PostMessage.

End ChatRoutes.

(* ===================================================================== *)
(** ** The chat router: POST /chat/:chatId/messages/:messageId/actions *)
(* ===================================================================== *)

Module MessageActionRoute.

(** A row of [Messages m JOIN Chats c ON m.chatId = c.id] that satisfies
    [m.id = @messageId AND m.chatId = @chatId AND c.userId = @userId]. *)
Definition ownedMessage (messageId chatId userId : string)
    (mc : MessageRow * ChatRow) : Prop :=
  m_chatId mc.1 = c_id mc.2 ∧ m_id mc.1 = messageId ∧ m_chatId mc.1 = chatId
  ∧ c_userId mc.2 = userId.

#[global] Instance ownedMessage_dec m c u mc : Decision (ownedMessage m c u mc).
Proof. unfold ownedMessage. apply _. Defined.

Section Handler.
Context (E : Env).

(** [['like', 'dislike', 'bookmark', 'star'].includes(actionType)] *)
Definition validAction (actionType : option string) : bool :=
  match actionType with
  | Some s => Sql.isIn s ["like"; "dislike"; "bookmark"; "star"]
  | None => false
  end.

Definition messageCheck (messageId chatId userId : string) (d : Database)
  : list (MessageRow * ChatRow) :=
  filter (ownedMessage messageId chatId userId) (list_prod (Messages d) (Chats d)).

Definition existingAction (messageId userId actionType : string) (d : Database)
  : list ActionRow :=
  filter (Sql.actionKeyIs messageId userId actionType) (MessageActions d).

Definition toggle (chatId messageId : string) (actionType : option string)
    (u : AuthUser) : M Response :=
  if negb (validAction actionType) then
    respond 400 [("error", JStr "Invalid action type");
                 ("message",
                  JStr "Action type must be one of: like, dislike, bookmark, star")]
  else
    found ← query (messageCheck messageId chatId (userId u));
    if Sql.isNil found then
      respond 404 [("error", JStr "Message not found");
                   ("message", JStr "Message not found or access denied")]
    else
      existing ← query (existingAction messageId (userId u) (interp actionType));
      if 0 <? length existing then
        (* Remove action *)
        exec E (DeleteAction messageId (userId u) (interp actionType));;
        finish 200 [("message", JStr "Action removed");
                    ("actionType", JStr (interp actionType));
                    ("active", JBool false)]
      else
        (* Add action *)
        actionId ← newUuid E;
        exec E (InsertAction actionId messageId (userId u) (interp actionType));;
        finish 200 [("message", JStr "Action added");
                    ("actionType", JStr (interp actionType));
                    ("active", JBool true)].

Definition actionFailed (e : string) : Response :=
  mkResponse 500 (JObj [("error", JStr "Failed to process message action")]).

(** [router.post('/:chatId/messages/:messageId/actions', ..)] *)
Definition postMessageAction (chatId messageId : string)
    (actionType : option string) (u : AuthUser) (w : World) : Response * World :=
  handle (toggle chatId messageId actionType u) actionFailed w.

End Handler.

(** The [active] field of a response, when it has one. *)
Definition activeOf (r : Response) : option bool :=
  match payload r with
  | JObj [(_, _); (_, _); ("active", JBool b)] => Some b
  | _ => None
  end.

(** The row [(messageId, userId, actionType)] is present in MessageActions. *)
Definition present (d : Database) (messageId userId actionType : string) : bool :=
  negb (Sql.isNil (filter (Sql.actionKeyIs messageId userId actionType)
                          (MessageActions d))).

End MessageActionRoute.

(* ===================================================================== *)
(** ** The dashboard component *)
(* ===================================================================== *)

Module Dashboard.

Definition defaultErrorText : string :=
  "Sorry, there was an error processing your message. Please try again.".

(** The catch block of [sendMessage]: the text shown for an error whose
    [message] property is [errorMessage]. *)
Definition responseText (errorMessage : option string) : string :=
  if JS.truthy errorMessage then
    let m := interp errorMessage in
    if JS.includes m "timeout" || JS.includes m "timed out" then
      "The AI service is taking too long to respond. Please try again later."
    else if JS.includes m "overloaded" || JS.includes m "rate limit" then
      "The AI service is currently overloaded. Please wait a moment and try again."
    else if JS.includes m "authentication" || JS.includes m "unauthorized" then
      "Authentication failed. Please refresh the page and try again."
    else if JS.includes m "model" || JS.includes m "configuration" then
      "There is an issue with the AI model configuration. Please contact support."
    else if JS.includes m "workspace" then
      "Workspace configuration error. Please refresh the page and try again."
    else m
  else defaultErrorText.

Record Message := mkMessage {
  id : string;
  text : string;
  isUser : bool;
  timestamp : string
}.

Inductive Action := liked | disliked | starred | bookmarked.

Record Flags := mkFlags {
  is_liked : bool;
  is_disliked : bool;
  is_starred : bool;
  is_bookmarked : bool
}.

Definition flag (a : Action) (f : Flags) : bool :=
  match a with
  | liked => is_liked f
  | disliked => is_disliked f
  | starred => is_starred f
  | bookmarked => is_bookmarked f
  end.

(** [actionMap] *)
Definition backendAction (a : Action) : string :=
  match a with
  | liked => "like"
  | disliked => "dislike"
  | starred => "star"
  | bookmarked => "bookmark"
  end.

(** The calls of [messageActionAPI]. *)
Inductive ApiCall :=
  | addMessageAction (messageId actionType : string)
  | removeMessageAction (messageId actionType : string).

(** [handleMessageAction], up to the request it sends (if any). *)
Definition handleMessageAction (messages : list Message)
    (messageActions : gmap string Flags) (messageId : string) (action : Action)
  : option ApiCall :=
  if JS.startsWith messageId "temp-" || JS.startsWith messageId "error-" then None
  else
    match List.find (λ msg, bool_decide (id msg = messageId)) messages with
    | None => None
    | Some message =>
        if isUser message then None
        else
          let isCurrentlyActive :=
            match messageActions !! messageId with
            | Some f => flag action f
            | None => false
            end in
          if isCurrentlyActive
          then Some (removeMessageAction messageId (backendAction action))
          else Some (addMessageAction messageId (backendAction action))
    end.

End Dashboard.

(* ===================================================================== *)
(** ** Azure service initialisation *)
(* ===================================================================== *)

Module Azure.

Record SqlConfig := mkSqlConfig {
  server : string;
  database : string;
  sqlUser : string;
  password : string;
  encrypt : bool;
  trustServerCertificate : bool;
  poolMax : N;
  poolMin : N;
  idleTimeoutMillis : N
}.

Inductive BlobClient :=
  | MockBlob
  | BlobFromConnectionString (connectionString : string)
  | BlobSharedKey (accountUrl accountName accountKey : string).

Inductive AppConfigClient :=
  | MockAppConfig
  | AppConfigFromConnectionString (connectionString : string)
  | AppConfigFromEndpoint (endpoint : string).

Inductive OpenAIClient :=
  | AzureOpenAI (endpoint apiKey : string).

(** The exported module variables. *)
Record Clients := mkClients {
  sqlPool : option SqlConfig;
  blobServiceClient : option BlobClient;
  appConfigClient : option AppConfigClient;
  openAIClient : option OpenAIClient
}.

(** The SDK calls that reach out of the process; [Some e] is the message of
    the error the call throws. *)
Record Sdk := mkSdk {
  connect : SqlConfig → option string;
  createTables : SqlConfig → option string;
  fromConnectionString : string → option string;
  newSharedKeyClient : string → string → option string;
  createIfNotExists : BlobClient → string → option string;
  newAppConfigurationClient : string → option string;
  newOpenAIClient : string → string → option string
}.

(** A function either returns or throws an error with a message. *)
Inductive Completion := Returned | Thrown (message : string).

Section Init.
Context (env : gmap string string) (sdk : Sdk).

(** [process.env.KEY || ''] *)
Definition envOr (key : string) : string := JS.orElse (env !! key) EmptyString.

Definition sqlConfig : SqlConfig :=
  mkSqlConfig (envOr "SQL_SERVER") (envOr "SQL_DATABASE") (envOr "SQL_USERNAME")
              (envOr "SQL_PASSWORD")
              (bool_decide (env !! "SQL_ENCRYPT" = Some "true"))
              (bool_decide (env !! "SQL_TRUST_SERVER_CERTIFICATE" = Some "true"))
              10%N 0%N 30000%N.

Definition initializeSQLDatabase (c : Clients) : Completion * Clients :=
  let config := sqlConfig in
  if negb (JS.nonEmpty (server config)) || negb (JS.nonEmpty (database config))
     || negb (JS.nonEmpty (sqlUser config)) || negb (JS.nonEmpty (password config))
  then
    (Thrown "Missing required SQL database configuration in environment variables", c)
  else
    let c1 := mkClients (Some config) (blobServiceClient c) (appConfigClient c)
                        (openAIClient c) in
    match connect sdk config with
    | Some e => (Thrown e, c1)
    | None =>
        match createTables sdk config with
        | Some e => (Thrown e, c1)
        | None => (Returned, c1)
        end
    end.

Definition withBlob (c : Clients) (b : BlobClient) : Clients :=
  mkClients (sqlPool c) (Some b) (appConfigClient c) (openAIClient c).

Definition initializeBlobStorage (c : Clients) : Completion * Clients :=
  let accountName := env !! "AZURE_STORAGE_ACCOUNT_NAME" in
  if negb (JS.truthy accountName) then (Returned, withBlob c MockBlob)
  else
    let connectionString := env !! "AZURE_STORAGE_CONNECTION_STRING" in
    let containerName := JS.orElse (env !! "AZURE_STORAGE_CONTAINER_NAME") "aiva-files" in
    if JS.truthy connectionString then
      match fromConnectionString sdk (interp connectionString) with
      | Some _ => (Returned, withBlob c MockBlob)
      | None =>
          let client := BlobFromConnectionString (interp connectionString) in
          match createIfNotExists sdk client containerName with
          | Some _ => (Returned, withBlob c MockBlob)
          | None => (Returned, withBlob c client)
          end
      end
    else
      let accountKey := env !! "AZURE_STORAGE_ACCOUNT_KEY" in
      if JS.truthy accountName && JS.truthy accountKey then
        match newSharedKeyClient sdk (interp accountName) (interp accountKey) with
        | Some _ => (Returned, withBlob c MockBlob)
        | None =>
            let client :=
              BlobSharedKey
                ("https://" +:+ interp accountName +:+ ".blob.core.windows.net")
                (interp accountName) (interp accountKey) in
            match createIfNotExists sdk client containerName with
            | Some _ => (Returned, withBlob c MockBlob)
            | None => (Returned, withBlob c client)
            end
        end
      else (Returned, withBlob c MockBlob).

Definition withAppConfig (c : Clients) (a : AppConfigClient) : Clients :=
  mkClients (sqlPool c) (blobServiceClient c) (Some a) (openAIClient c).

Definition initializeAppConfiguration (c : Clients) : Completion * Clients :=
  let connectionString := env !! "AZURE_APP_CONFIG_CONNECTION_STRING" in
  let mockAppConfig := bool_decide (env !! "MOCK_APP_CONFIG" = Some "true") in
  if mockAppConfig || negb (JS.truthy connectionString) then
    (Returned, withAppConfig c MockAppConfig)
  else if JS.truthy connectionString then
    match newAppConfigurationClient sdk (interp connectionString) with
    | Some _ => (Returned, withAppConfig c MockAppConfig)
    | None =>
        (Returned, withAppConfig c (AppConfigFromConnectionString (interp connectionString)))
    end
  else
    let endpoint := env !! "AZURE_APP_CONFIG_ENDPOINT" in
    if JS.truthy endpoint then
      match newAppConfigurationClient sdk (interp endpoint) with
      | Some _ => (Returned, withAppConfig c MockAppConfig)
      | None => (Returned, withAppConfig c (AppConfigFromEndpoint (interp endpoint)))
      end
    else
      (* throw new Error('Missing App Configuration connection details'), caught *)
      (Returned, withAppConfig c MockAppConfig).

Definition initializeOpenAI (c : Clients) : Completion * Clients :=
  let endpoint := envOr "AZURE_OPENAI_ENDPOINT" in
  let apiKey := envOr "AZURE_OPENAI_API_KEY" in
  if negb (JS.nonEmpty endpoint) || negb (JS.nonEmpty apiKey) then
    (Thrown "Azure OpenAI configuration missing in environment variables", c)
  else
    let cleanEndpoint :=
      if JS.endsWithChar endpoint "/" then JS.dropLast endpoint else endpoint in
    match newOpenAIClient sdk cleanEndpoint apiKey with
    | Some e => (Thrown e, c)
    | None =>
        (Returned, mkClients (sqlPool c) (blobServiceClient c) (appConfigClient c)
                             (Some (AzureOpenAI cleanEndpoint apiKey)))
    end.

(** The four adapters in order inside one [try]; the [catch] logs the error
    and lets the application continue. *)
Definition initializeAzureServices (c : Clients) : Completion * Clients :=
  match initializeSQLDatabase c with
  | (Thrown _, c1) => (Returned, c1)
  | (Returned, c1) =>
      match initializeBlobStorage c1 with
      | (Thrown _, c2) => (Returned, c2)
      | (Returned, c2) =>
          match initializeAppConfiguration c2 with
          | (Thrown _, c3) => (Returned, c3)
          | (Returned, c3) =>
              match initializeOpenAI c3 with
              | (Thrown _, c4) => (Returned, c4)
              | (Returned, c4) => (Returned, c4)
              end
          end
      end
  end.

End Init.

End Azure.


(* ===================================================================== *)
(** ** Vocabulary of the properties *)
(* ===================================================================== *)

(** The database after the accepted statements of a list of events. *)
Fixpoint replay (evs : list Event) (d : Database) : Database :=
  match evs with
  | [] => d
  | EvSql s now true :: rest =>
      match Sql.run now s d with
      | Some d1 => replay rest d1
      | None => replay rest d
      end
  | _ :: rest => replay rest d
  end.

(** [spec P QV QR m]: from every world, [m] adds to the trace only events
    that satisfy [P], the database it leaves is the replay of these events,
    a value it falls through with satisfies [QV] and a response it returns
    satisfies [QR]. *)
Definition spec {A} (P : Event → Prop) (QV : A → Prop) (QR : Response → Prop)
    (m : M A) : Prop :=
  ∀ w, ∃ evs,
    trace (m w).2 = trace w ++ evs ∧ replay evs (db w) = db (m w).2 ∧ Forall P evs ∧
    match (m w).1 with
    | Val a => QV a
    | Ret r => QR r
    | Exc _ => True
    end.

(** The events of the stages that come before the first message is stored. *)
Definition setupEvent (e : Event) : Prop :=
  match e with
  | EvSql (InsertUser _ _ _ _ _) _ _
  | EvSql (UpdateUserId _ _) _ _
  | EvSql (InsertWorkspace _ _ _ _ _) _ _
  | EvSql (InsertChat _ _ _ _ _) _ _ => True
  | _ => False
  end.

(** The event is not a statement on the Users table. *)
Definition leavesUsers (e : Event) : Prop :=
  match e with
  | EvSql (InsertUser _ _ _ _ _) _ _ | EvSql (UpdateUserId _ _) _ _ => False
  | _ => True
  end.

(** The events of the persisting stage. *)
Definition persistEvent (e : Event) : Prop :=
  match e with
  | EvSql (InsertMessage _ _ _ _ _) _ _
  | EvSql (UpdateChatCounters _) _ _
  | EvChatCompletion _ _ _ => True
  | _ => False
  end.

(** A chat-completion call, if the event is one, has the fixed options. *)
Definition fixedConfiguration (e : Event) : Prop :=
  match e with
  | EvChatCompletion _ options _ =>
      maxTokens options = 1000%Z ∧ temperature options = (7 # 10)%Q
  | EvSql _ _ _ => True
  end.

(** An insert of a message with role 'user', if the event is one, carries
    [content]. *)
Definition userContentIs (content : string) (e : Event) : Prop :=
  match e with
  | EvSql (InsertMessage _ _ _ c r) _ _ => r = "user" → c = content
  | _ => True
  end.

(** The statement of the event was rejected by the database. *)
Definition rejected (e : Event) : Prop :=
  match e with
  | EvSql _ _ false => True
  | _ => False
  end.

(** The request passed the two validations at the head of the handler. *)
Definition validated (b : Body) : Prop :=
  ChatRoutes.noMessage (b_message b) && ChatRoutes.noFiles (b_files b) = false ∧
  (∀ l, b_files b = Some (FileArray l) → ChatRoutes.checkFiles 0 l = None) ∧
  b_files b ≠ Some (NotArray LengthPositive).

(** [files] is absent (or falsy) or an array. *)
Definition arrayOrAbsent (b : Body) : Prop :=
  ∀ len, b_files b ≠ Some (NotArray len).

(** A chat row after the update of the counters of chat [chatId] at [now]:
    the rows of that chat have their messageCount increased by 2 and their
    lastMessageAt and updatedAt set to [now], and are as before in every
    other column; the rows of the other chats are as before. *)
Definition bumped (now : nat) (chatId : string) (c : ChatRow) : ChatRow :=
  if bool_decide (c_id c = chatId) then
    {| c_id := c_id c; c_title := c_title c; c_description := c_description c;
       c_userId := c_userId c; c_workspaceId := c_workspaceId c;
       c_messageCount := (c_messageCount c + 2)%Z;
       c_isArchived := c_isArchived c;
       c_lastMessageAt := Some now;
       c_createdAt := c_createdAt c;
       c_updatedAt := now |}
  else c.

(** Workspace [id] is owned by user [u] in database [d]. *)
Definition ownsWorkspace (d : Database) (u id : string) : Prop :=
  ∃ r, r ∈ Workspaces d ∧ w_id r = id ∧ w_ownerId r = u.

(** Chat [chat] is in workspace [ws] in database [d]. *)
Definition chatInWorkspace (d : Database) (chat ws : string) : Prop :=
  ∃ c, c ∈ Chats d ∧ c_id c = chat ∧ c_workspaceId c = Some ws.

(** [NODE_ENV === 'development' && BYPASS_AUTH === 'true'] *)
Definition devBypass (E : Env) : bool :=
  envIs E "NODE_ENV" "development" && envIs E "BYPASS_AUTH" "true".

(** The create-if-missing statement for a user without a row: an insert,
    or the re-pointing of the row that already has the e-mail. *)
Definition repairStatement (d : Database) (u : AuthUser) : Stmt :=
  if Sql.isNil (filter (λ r, u_email r = ChatRoutes.mockEmail u) (Users d))
  then InsertUser (userId u) "Test" "User" (ChatRoutes.mockEmail u)
                  (JS.orElse (role u) "user")
  else UpdateUserId (userId u) (ChatRoutes.mockEmail u).

(** POST /chat/message from the workspace resolution on. *)
Definition afterUser (E : Env) (req : Request) : M Response :=
  actualWorkspaceId ←
    ChatRoutes.resolveWorkspace E (user req) (b_workspaceId (body req));
  chat ← ChatRoutes.resolveChat E (user req) (body req) actualWorkspaceId;
  ChatRoutes.requireArray (body req);;
  content ← ChatRoutes.requireContent E (body req);
  ChatRoutes.persistAndRespond E (user req) chat.1 content.

(** *** The prompt with attached files, in the words of the specification *)

(** The content extracted for a file: [extractFileContent] on its blob name,
    or on its original name when it has none. *)
Definition extractedContent (E : Env) (file : File) : string :=
  let originalName := interp (f_originalName file) in
  let blobName := ChatRoutes.blobNameOf E file in
  fcr_content
    (extractFileContent E (if JS.truthy blobName then interp blobName else originalName)
                        originalName).

(** 'File: <originalName>\nContent:\n<extracted content>\n---\n' *)
Definition sectionOf (E : Env) (file : File) : string :=
  "File: " +:+ interp (f_originalName file) +:+ LF +:+ "Content:" +:+ LF
    +:+ extractedContent E file +:+ LF +:+ "---" +:+ LF.

Definition sectionsOf (E : Env) (files : list File) : string :=
  JS.join LF (sectionOf E <$> files).

Definition withAttachedFiles (E : Env) (text : string) (files : list File) : string :=
  text +:+ LF +:+ LF +:+ "Attached Files:" +:+ LF +:+ sectionsOf E files.

Definition analyzeFiles (E : Env) (files : list File) : string :=
  "Analyze the following files:" +:+ LF +:+ LF +:+ sectionsOf E files.

(** The content when the split is made on the message being empty or not. *)
Definition contentAsStated (E : Env) (message : option string) (files : list File)
  : string :=
  if JS.truthy message then withAttachedFiles E (JS.trim (interp message)) files
  else analyzeFiles E files.

(** The content when the split is made on the trimmed message being empty or
    not. *)
Definition contentByTrimmed (E : Env) (message : option string) (files : list File)
  : string :=
  let trimmed := JS.trim (JS.orElse message EmptyString) in
  if JS.nonEmpty trimmed then withAttachedFiles E trimmed files
  else analyzeFiles E files.

(** *** The error texts of the dashboard, as an ordered list of rules *)

Definition errorRules : list (list string * string) :=
  [(["timeout"; "timed out"],
    "The AI service is taking too long to respond. Please try again later.");
   (["overloaded"; "rate limit"],
    "The AI service is currently overloaded. Please wait a moment and try again.");
   (["authentication"; "unauthorized"],
    "Authentication failed. Please refresh the page and try again.");
   (["model"; "configuration"],
    "There is an issue with the AI model configuration. Please contact support.");
   (["workspace"],
    "Workspace configuration error. Please refresh the page and try again.")].


(** *** Service configuration *)

Definition missing (env : gmap string string) (key : string) : Prop :=
  JS.truthy (env !! key) = false.

(** *** A small installation used for concrete runs *)

Module Scenario.

Definition uuid (n : nat) : string := "00000000-0000-4000-8000-00000000000" +:+ pretty n.

Definition storage (blobName : string) : option string :=
  if bool_decide (blobName = "a.txt") then Some "alpha" else None.

Definition answering (messages : list ChatMessage) (options : CompletionOptions)
  : string + string := inl "Hello!".

Definition failing (messages : list ChatMessage) (options : CompletionOptions)
  : string + string := inr "Request timed out".

Definition production : Env :=
  mkEnv {[ "NODE_ENV" := "production" ]} uuid "You are AIVA." answering storage
        (λ _, None) true (λ _, "RequestError").

Definition development : Env :=
  mkEnv (<[ "BYPASS_AUTH" := "true" ]> {[ "NODE_ENV" := "development" ]})
        uuid "You are AIVA." answering storage (λ _, None) true (λ _, "RequestError").

Definition modelDown : Env :=
  mkEnv {[ "NODE_ENV" := "production" ]} uuid "You are AIVA." failing storage
        (λ _, None) true (λ _, "RequestError").

Definition wsAlice : string := "aaaaaaaa-aaaa-4aaa-8aaa-aaaaaaaaaaaa".
Definition wsBob : string := "bbbbbbbb-bbbb-4bbb-8bbb-bbbbbbbbbbbb".
Definition chatAlice : string := "aaaaaaaa-0000-4000-8000-00000000c0a1".
Definition chatBob : string := "bbbbbbbb-0000-4000-8000-00000000c0b1".
Definition question : string := "aaaaaaaa-0000-4000-8000-0000000000a1".
Definition answer : string := "aaaaaaaa-0000-4000-8000-0000000000a2".

Definition database : Database :=
  mkDb
    [mkUser "alice" "Alice" "A" "alice@example.org" "user" true 0 0;
     mkUser "bob" "Bob" "B" "bob@example.org" "user" true 0 0]
    [mkWorkspace wsAlice "Alice's" "" "#3B82F6" "alice" 1 1;
     mkWorkspace wsBob "Bob's" "" "#3B82F6" "bob" 1 1]
    [mkChat chatAlice "Greetings" "" "alice" (Some wsAlice) 2 false (Some 4) 2 4;
     mkChat chatBob "Bob's notes" "" "bob" (Some wsBob) 0 false None 2 2]
    [mkMessage question chatAlice "alice" "hello" "user" 3;
     mkMessage answer chatAlice "alice" "Hi, how can I help?" "assistant" 4]
    [mkAction "aaaaaaaa-0000-4000-8000-0000000000f1" answer "alice" "like" 5].

Definition world : World := mkWorld database 10 0 [].

Definition alice : AuthUser := mkAuthUser "alice" (Some "user").
Definition carol : AuthUser := mkAuthUser "carol" (Some "user").

Definition attachment : File :=
  mkFile (Some "a.txt") (Some "https://files.example.org/c/a.txt") (Some "a.txt")
         None None.

(** Alice starts a new chat. *)
Definition newChat : Request := mkRequest (mkBody (Some "hi") None None None) alice.

(** Alice posts into Bob's chat. *)
Definition intoBobsChat : Request :=
  mkRequest (mkBody (Some "hi") (Some chatBob) None None) alice.

(** Carol, who has no row in Users, starts a new chat. *)
Definition fromCarol : Request := mkRequest (mkBody (Some "hi") None None None) carol.

(** Alice sends a file with a message of two spaces. *)
Definition blankWithFile : Request :=
  mkRequest (mkBody (Some "  ") None None (Some (FileArray [attachment]))) alice.

(** Alice sends a file with a message. *)
Definition textWithFile : Request :=
  mkRequest (mkBody (Some " see the file ") None None (Some (FileArray [attachment]))) alice.

Definition emptyClients : Azure.Clients := Azure.mkClients None None None None.

Definition sdk : Azure.Sdk :=
  Azure.mkSdk (λ _, None) (λ _, None) (λ _, None) (λ _ _, None) (λ _ _, None)
              (λ _, None) (λ _ _, None).

End Scenario.

(* ===================================================================== *)
(** ** More of the JavaScript library *)
(* ===================================================================== *)

Module JSLib.

(** [toLowerCase] on one code unit below 256: the letters A-Z and the
    upper-case letters of Latin-1 (all of U+00C0..U+00DE but the
    multiplication sign) move up by 32. *)
Definition toLowerCaseChar (c : ascii) : ascii :=
  let n := nat_of_ascii c in
  if ((65 <=? n) && (n <=? 90))
     || ((192 <=? n) && (n <=? 222) && negb (n =? 215))
  then ascii_of_nat (n + 32) else c.

(** [s.toLowerCase()] *)
Fixpoint toLowerCase (s : string) : string :=
  match s with
  | EmptyString => EmptyString
  | String c s' => String (toLowerCaseChar c) (toLowerCase s')
  end.

(** [arr.slice(-n)] *)
Definition sliceLast {A} (n : nat) (l : list A) : list A := drop (length l - n) l.

(** [Math.ceil(a / b)] for a count [a] and a positive integer [b]. *)
Definition ceilDiv (a : nat) (b : Z) : Z := ((Z.of_nat a + b - 1) / b)%Z.

End JSLib.

(* ===================================================================== *)
(** ** Statements of the other routes *)
(* ===================================================================== *)

Section MorePrimitives.
Context (E : Env).

(** A write statement outside [Stmt]: it is applied when the database
    accepts it and thrown otherwise; it reads the clock like every
    statement and leaves no event in the trace. *)
Definition statement (f : nat → Database → option Database) (e : string) : M unit :=
  λ w,
  match f (clock w) (db w) with
  | Some d => (Val tt, mkWorld d (S (clock w)) (uuidCalls w) (trace w))
  | None => (Exc e, mkWorld (db w) (S (clock w)) (uuidCalls w) (trace w))
  end.

(** The outer [try { .. } catch] of a route whose last statement sends a
    value of type [A]: [inr a] is that answer, [inl r] a response sent on
    the way or by the [catch]. *)
Definition handleTo {A} (m : M A) (onError : string → Response) (w : World)
  : (Response + A) * World :=
  match m w with
  | (Val a, w1) => (inr a, w1)
  | (Ret r, w1) => (inl r, w1)
  | (Exc e, w1) => (inl (onError e), w1)
  end.

End MorePrimitives.

(* ===================================================================== *)
(** ** The chat router: the other routes and the helpers *)
(* ===================================================================== *)

Module ChatRouter.

Definition dataKeywords : list string :=
  ["show me"; "what is"; "how many"; "total"; "sum"; "average"; "count";
   "sales"; "revenue"; "profit"; "customers"; "orders"; "products";
   "last month"; "this year"; "trend"; "performance"; "report";
   "data"; "analytics"; "metrics"; "kpi"; "dashboard"].

(** Helper function to check if message contains data-related keywords. *)
Definition containsDataKeywords (message : string) : bool :=
  let lowerMessage := JSLib.toLowerCase message in
  existsb (λ keyword, JS.includes lowerMessage keyword) dataKeywords.

(** [req.body] of POST /chat after [validate(schemas.createChat)]. *)
Record ChatBody := mkChatBody {
  cb_title : string;
  cb_description : option string;
  cb_workspaceId : option string
}.

(** A row of the page of GET /chat/:chatId/messages. *)
Record MessageView := mkMessageView {
  mv_message : MessageRow;
  mv_likeCount : nat;
  mv_bookmarkCount : nat
}.

Record Pagination := mkPagination {
  pg_page : Z;
  pg_limit : Z;
  pg_total : nat;
  pg_pages : Z
}.

(** The 200 answer of GET /chat/:chatId/messages. *)
Record MessagesPage := mkMessagesPage {
  mp_messages : list MessageView;
  mp_pagination : Pagination
}.

(** [SET isArchived = 1, updatedAt = GETUTCDATE()] *)
Definition archived (now : nat) (c : ChatRow) : ChatRow :=
  mkChat (c_id c) (c_title c) (c_description c) (c_userId c) (c_workspaceId c)
         (c_messageCount c) true (c_lastMessageAt c) (c_createdAt c) now.

(** [UPDATE Chats SET isArchived = 1, updatedAt = GETUTCDATE()
    WHERE id = @chatId]; no constraint can reject it. *)
Definition archiveChat (chatId : string) (now : nat) (d : Database) : option Database :=
  Some (Sql.withChats d
          ((λ c, if bool_decide (c_id c = chatId) then archived now c else c)
             <$> Chats d)).

(** A value bound as [sql.Int] has to be a 32-bit integer. *)
Definition fitsInt (z : Z) : bool := ((-2147483648 <=? z) && (z <=? Sql.int_max))%Z.

(** [(SELECT COUNT( * ) FROM MessageActions WHERE messageId = m.id
    AND actionType = ..)] *)
Definition actionCount (d : Database) (messageId actionType : string) : nat :=
  length (filter (λ a, a_messageId a = messageId ∧ a_actionType a = actionType)
                 (MessageActions d)).

Definition viewOf (d : Database) (m : MessageRow) : MessageView :=
  mkMessageView m (actionCount d (m_id m) "like") (actionCount d (m_id m) "bookmark").

(** [SELECT .. FROM Messages m WHERE m.chatId = @chatId
    ORDER BY m.createdAt ASC] *)
Definition messagesOf (chatId : string) (d : Database) : list MessageRow :=
  merge_sort ChatRoutes.createdBefore (filter (λ m, m_chatId m = chatId) (Messages d)).

Section Routes.
Context (E : Env).

(** Helper function to get regular AI response: the system prompt and the
    last ten messages of the history. *)
Definition regularMessages (chatHistory : list ChatMessage) : list ChatMessage :=
  [mkChatMessage "system" (getSystemPrompt E)]
    ++ ((λ msg, mkChatMessage (cm_role msg) (cm_content msg))
          <$> JSLib.sliceLast 10 chatHistory).

Definition getRegularAIResponse (chatHistory : list ChatMessage) : M string :=
  r ← chatCompletion E (regularMessages chatHistory) (mkOptions 1000 (7 # 10));
  match r with
  | inl content => mret content
  | inr e => throw e
  end.

(** The create-or-re-point block for the mock user of development mode. *)
Definition repairUser (u : AuthUser) : M unit :=
  emailCheck ← query (λ d, filter (λ r, u_email r = ChatRoutes.mockEmail u) (Users d));
  if Sql.isNil emailCheck then
    exec E (InsertUser (userId u) "Test" "User" (ChatRoutes.mockEmail u)
                       (JS.orElse (role u) "user"))
  else
    exec E (UpdateUserId (userId u) (ChatRoutes.mockEmail u)).

(** The workspace of a new chat: the first workspace of the user or a new
    default workspace when none is asked for; the workspace asked for when
    the user owns it; 403 when somebody else owns it; a new default
    workspace when it does not exist. *)
Definition chatWorkspace (u : AuthUser) (workspaceId : option string) : M string :=
  if negb (JS.truthy workspaceId) then
    workspaceCheck ← query (λ d,
      head (filter (λ r, w_ownerId r = userId u) (Workspaces d)));
    match workspaceCheck with
    | Some r => mret (w_id r)
    | None => ChatRoutes.createDefaultWorkspace E u
    end
  else
    workspaceCheck ← query (λ d,
      filter (λ r, w_id r = interp workspaceId ∧ w_ownerId r = userId u)
             (Workspaces d));
    if Sql.isNil workspaceCheck then
      workspaceExists ← query (λ d,
        filter (λ r, w_id r = interp workspaceId) (Workspaces d));
      if 0 <? length workspaceExists then
        respond 403 [("error", JStr "Access denied");
                     ("message", JStr "You do not have access to this workspace.")]
      else ChatRoutes.createDefaultWorkspace E u
    else mret (interp workspaceId).

(** Create new chat; the value is the inserted row ([OUTPUT INSERTED.*]),
    sent with status 201. *)
Definition createChat (b : ChatBody) (u : AuthUser) : M ChatRow :=
  chatId ← newUuid E;
  (if devBypass E then
     userCheck ← query (λ d, filter (λ r, u_id r = userId u) (Users d));
     if Sql.isNil userCheck then repairUser u else mret tt
   else mret tt);;
  finalWorkspaceId ← chatWorkspace u (cb_workspaceId b);
  userCheck ← query (λ d, filter (λ r, u_id r = userId u) (Users d));
  (if Sql.isNil userCheck && devBypass E then repairUser u else mret tt);;
  now ← getClock;
  exec E (InsertChat chatId (userId u) finalWorkspaceId (cb_title b)
                     (JS.orElse (cb_description b) EmptyString));;
  mret (mkChat chatId (cb_title b) (JS.orElse (cb_description b) EmptyString)
               (userId u) (Some finalWorkspaceId) 0%Z false None now now).

Definition createChatFailed (e : string) : Response :=
  mkResponse 500 (JObj [("error", JStr "Failed to create chat"); ("details", JStr e)]).

(** [router.post('/', validate(schemas.createChat), ..)] *)
Definition postChat (b : ChatBody) (u : AuthUser) (w : World)
  : (Response + ChatRow) * World :=
  handleTo (createChat b u) createChatFailed w.

(** Get messages for a specific chat; [page] and [limit] are
    [Number(req.query.page)] and [Number(req.query.limit)], integers after
    [validate(schemas.pagination)]. *)
Definition chatMessages (chatId : string) (page limit : Z) (u : AuthUser)
  : M MessagesPage :=
  let offset := ((page - 1) * limit)%Z in
  chatCheck ← query (λ d,
    filter (λ c, c_id c = chatId ∧ c_userId c = userId u) (Chats d));
  if Sql.isNil chatCheck then
    respond 404 [("error", JStr "Chat not found");
                 ("message", JStr "Chat not found or access denied")]
  else if negb (fitsInt limit) || negb (fitsInt offset) then
    throw "Validation failed for parameter. Invalid number."
  else if (offset <? 0)%Z then
    throw "The offset specified in a OFFSET clause may not be negative."
  else if (limit <=? 0)%Z then
    throw "The number of rows provided for a FETCH clause must be greater then zero."
  else
    result ← query (λ d,
      viewOf d <$> take (Z.to_nat limit) (drop (Z.to_nat offset) (messagesOf chatId d)));
    total ← query (λ d, length (filter (λ m, m_chatId m = chatId) (Messages d)));
    mret (mkMessagesPage result
            (mkPagination page limit total (JSLib.ceilDiv total limit))).

Definition getMessagesFailed (e : string) : Response :=
  mkResponse 500 (JObj [("error", JStr "Failed to retrieve messages")]).

(** [router.get('/:chatId/messages', ..)] *)
Definition getChatMessages (chatId : string) (page limit : Z) (u : AuthUser)
    (w : World) : (Response + MessagesPage) * World :=
  handleTo (chatMessages chatId page limit u) getMessagesFailed w.

(** Delete chat: a soft delete. *)
Definition archive (chatId : string) (u : AuthUser) : M Response :=
  chatCheck ← query (λ d,
    filter (λ c, c_id c = chatId ∧ c_userId c = userId u) (Chats d));
  if Sql.isNil chatCheck then
    respond 404 [("error", JStr "Chat not found");
                 ("message", JStr "Chat not found or access denied")]
  else
    statement (archiveChat chatId) "RequestError";;
    finish 200 [("message", JStr "Chat archived successfully");
                ("chatId", JStr chatId)].

Definition deleteFailed (e : string) : Response :=
  mkResponse 500 (JObj [("error", JStr "Failed to delete chat")]).

(** [router.delete('/:chatId', ..)] *)
Definition deleteChat (chatId : string) (u : AuthUser) (w : World)
  : Response * World :=
  handle (archive chatId u) deleteFailed w.

End Routes.

End ChatRouter.

(* ===================================================================== *)
(** ** Helper functions for database operations *)
(* ===================================================================== *)

Module DatabaseOps.

(** [SET messageCount = (SELECT COUNT( * ) FROM Messages WHERE chatId =
    @chatId), lastMessageAt = GETUTCDATE(), updatedAt = GETUTCDATE()] *)
Definition recounted (now : nat) (count : nat) (c : ChatRow) : ChatRow :=
  mkChat (c_id c) (c_title c) (c_description c) (c_userId c) (c_workspaceId c)
         (Z.of_nat count) (c_isArchived c) (Some now) (c_createdAt c) now.

(** The UPDATE of [createMessage]; the count has to fit the INT column. *)
Definition recountChat (chatId : string) (now : nat) (d : Database) : option Database :=
  let count := length (filter (λ m, m_chatId m = chatId) (Messages d)) in
  if forallb (λ c, negb (bool_decide (c_id c = chatId))
                   || (Z.of_nat count <=? Sql.int_max)%Z)
             (Chats d)
  then Some (Sql.withChats d
               ((λ c, if bool_decide (c_id c = chatId) then recounted now count c else c)
                  <$> Chats d))
  else None.

Section Ops.
Context (E : Env).

(** [createMessage(messageData)]: the inserted row. *)
Definition createMessage (id chatId userId content role : string) : M MessageRow :=
  now ← getClock;
  exec E (InsertMessage id chatId userId content role);;
  statement (recountChat chatId) "RequestError";;
  mret (mkMessage id chatId userId content role now).

(** [getMessagesByChatId(chatId)] *)
Definition getMessagesByChatId (chatId : string) : M (list MessageRow) :=
  query (ChatRouter.messagesOf chatId).

End Ops.

End DatabaseOps.

(* ===================================================================== *)
(** ** The API wrapper of the front end *)
(* ===================================================================== *)

Module Api.

(** What [fetch] resolves to; [fr_json] is the value of [response.json()],
    or the message of the error it rejects with. *)
Record FetchResponse := mkFetchResponse {
  fr_status : nat;
  fr_statusText : string;
  fr_json : string + json
}.

(** [response.ok] *)
Definition ok (r : FetchResponse) : bool :=
  (200 <=? fr_status r) && (fr_status r <=? 299).

(** [obj[name]]: the last member with that name of a parsed object. *)
Definition field (name : string) (j : json) : option json :=
  match j with
  | JObj fields => snd <$> last (filter (λ kv, kv.1 = name) fields)
  | _ => None
  end.

Definition truthyJson (j : json) : bool :=
  match j with
  | JBool b => b
  | JNum n => negb (n =? 0)
  | JStr s => JS.nonEmpty s
  | JObj _ => true
  end.

(** [String(j)], the message of [new Error(j)]. *)
Definition toStr (j : json) : string :=
  match j with
  | JBool b => if b then "true" else "false"
  | JNum n => pretty n
  | JStr s => s
  | JObj _ => "[object Object]"
  end.

(** [`HTTP ${response.status}: ${response.statusText}`] *)
Definition httpText (r : FetchResponse) : string :=
  "HTTP " +:+ pretty (fr_status r) +:+ ": " +:+ fr_statusText r.

(** Generic API request function, from the response of [fetch] on: [inr]
    the parsed body, [inl] the message of the error thrown. *)
Definition apiRequest (r : FetchResponse) : string + json :=
  if negb (ok r) then
    let errorData :=
      match fr_json r with
      | inr j => j
      | inl _ => JObj [("message", JStr (httpText r))]
      end in
    match field "message" errorData with
    | Some m => if truthyJson m then inl (toStr m) else inl (httpText r)
    | None => inl (httpText r)
    end
  else
    match fr_json r with
    | inr j => inr j
    | inl e => inl e
    end.

(** [chatAPI.sendMessage]: an [Error] is thrown on as it is. *)
Definition sendMessage (r : FetchResponse) : string + json := apiRequest r.


(** The response of a route handler as [fetch] sees it; [statusText] is the
    reason phrase of the server for a status. *)
Definition served (statusText : nat → string) (r : Response) : FetchResponse :=
  mkFetchResponse (status r) (statusText (status r)) (inr (payload r)).

End Api.

(* ===================================================================== *)
(** ** The dashboard component: the request and the action flags *)
(* ===================================================================== *)

Module DashboardState.

Import Dashboard.

#[global] Instance Action_eq_dec : EqDecision Action.
Proof. solve_decision. Defined.

(** [if (!messageText.trim() && pendingFiles.length === 0) return] *)
Definition nothingToSend (messageText : string) (pendingFiles : nat) : bool :=
  negb (JS.nonEmpty (JS.trim messageText)) && (pendingFiles =? 0).

(** An element of [uploadedFiles] as it is put into the request. *)
Definition fileOf (file : File) : File :=
  mkFile (f_originalName file) (f_url file) (f_fileName file) None None.

(** [requestData] as [JSON.stringify] sends it: [chatId] is
    [currentChatId || undefined], [files] is set when files were uploaded,
    [workspaceId] when the current workspace id has 36 characters. *)
Definition requestData (messageText : string)
    (currentChatId currentWorkspaceId : option string) (uploadedFiles : list File)
  : Body :=
  mkBody (Some messageText)
         (if JS.truthy currentChatId then currentChatId else None)
         (if JS.truthy currentWorkspaceId
             && (String.length (interp currentWorkspaceId) =? 36)
          then currentWorkspaceId else None)
         (if 0 <? length uploadedFiles then Some (FileArray (fileOf <$> uploadedFiles)) else None).

(** The text shown when sending fails with the error of [sendMessage]. *)
Definition shownFor (r : Api.FetchResponse) : option string :=
  match Api.sendMessage r with
  | inl errorMessage => Some (responseText (Some errorMessage))
  | inr _ => None
  end.

Definition noFlags : Flags := mkFlags false false false false.

(** [{ ..f, [action]: v }] *)
Definition setFlag (a : Action) (v : bool) (f : Flags) : Flags :=
  match a with
  | liked => mkFlags v (is_disliked f) (is_starred f) (is_bookmarked f)
  | disliked => mkFlags (is_liked f) v (is_starred f) (is_bookmarked f)
  | starred => mkFlags (is_liked f) (is_disliked f) v (is_bookmarked f)
  | bookmarked => mkFlags (is_liked f) (is_disliked f) (is_starred f) v
  end.

(** The updater passed to [setMessageActions] at the end of
    [handleMessageAction]. *)
Definition updateFlags (messageId : string) (action : Action)
    (isCurrentlyActive : bool) (prev : gmap string Flags) : gmap string Flags :=
  let old := default noFlags (prev !! messageId) in
  let f1 := setFlag action (negb isCurrentlyActive) old in
  let f2 :=
    if bool_decide (action = liked) && is_disliked old
    then setFlag disliked false f1 else f1 in
  let f3 :=
    if bool_decide (action = disliked) && is_liked old
    then setFlag liked false f2 else f2 in
  <[messageId := f3]> prev.

(** [messageActions[messageId]?.[action] || false] *)
Definition isActive (messageActions : gmap string Flags) (messageId : string)
    (action : Action) : bool :=
  match messageActions !! messageId with
  | Some f => flag action f
  | None => false
  end.

End DashboardState.

(* ===================================================================== *)
(** ** Vocabulary of the further properties *)
(* ===================================================================== *)

(** The number of rows of Messages that belong to chat [chatId]. *)
Definition messagesIn (d : Database) (chatId : string) : nat :=
  length (filter (λ m, m_chatId m = chatId) (Messages d)).

(** Every message belongs to a chat, and the counter of every chat is the
    number of its messages. *)
Definition countersAgree (d : Database) : Prop :=
  (∀ m, m ∈ Messages d → m_chatId m ∈ Sql.chatIds d) ∧
  (∀ c, c ∈ Chats d → c_messageCount c = Z.of_nat (messagesIn d (c_id c))).

(** The events of the stages that come before the chat is looked up:
    statements on Users and Workspaces. *)
Definition workspaceEvent (e : Event) : Prop :=
  match e with
  | EvSql (InsertUser _ _ _ _ _) _ _
  | EvSql (UpdateUserId _ _) _ _
  | EvSql (InsertWorkspace _ _ _ _ _) _ _ => True
  | _ => False
  end.

(** The events of the stages that come after the workspace is settled. *)
Definition chatStageEvent (e : Event) : Prop :=
  match e with
  | EvSql (InsertChat _ _ _ _ _) _ _
  | EvSql (InsertMessage _ _ _ _ _) _ _
  | EvSql (UpdateChatCounters _) _ _
  | EvChatCompletion _ _ _ => True
  | _ => False
  end.

(** The row of an auto-created default workspace. *)
Definition defaultWorkspace (id owner : string) (now : nat) : WorkspaceRow :=
  mkWorkspace id "Default Workspace" "Auto-created default workspace" "#3B82F6"
              owner now now.

(** Chat [chatId] is a chat of user [u]. *)
Definition ownsChat (d : Database) (u chatId : string) : Prop :=
  ∃ c, c ∈ Chats d ∧ c_id c = chatId ∧ c_userId c = u.

(** POST /chat/message up to the chat: the validations, the user, the
    workspace and the chat; the chat id and the chat title. *)
Definition upToChat (E : Env) (req : Request) : M (string * string) :=
  ChatRoutes.validateRequest (body req);;
  ChatRoutes.ensureUser E (user req);;
  actualWorkspaceId ←
    ChatRoutes.resolveWorkspace E (user req) (b_workspaceId (body req));
  ChatRoutes.resolveChat E (user req) (body req) actualWorkspaceId.

(** The answer of POST /chat/message to a [files] that is not an array. *)
Definition filesNotArray : Response :=
  mkResponse 400
    (JObj [("error", JStr "Invalid files format");
           ("message", JStr "Files must be an array of file objects")]).

(** The row of a chat that POST /chat/message creates. *)
Definition autoChat (id title owner ws : string) (now : nat) : ChatRow :=
  mkChat id title "Auto-generated chat" owner (Some ws) 0 false None now now.

(** [rows] are the rows of [messages] that belong to chat [chatId], each
    once, in the order of createdAt. *)
Definition historyOf (messages : list MessageRow) (chatId : string)
    (rows : list MessageRow) : Prop :=
  rows ≡ₚ filter (λ m, m_chatId m = chatId) messages ∧
  Sorted (λ a b, m_createdAt a ≤ m_createdAt b) rows.

(** The ids of the archived chats, in the order of the table. *)
Definition archivedIds (d : Database) : list string :=
  c_id <$> filter (λ c, c_isArchived c = true) (Chats d).

(** The [message] texts of the responses of POST /chat/message other than
    the 200. *)
Definition backendMessage (m : string) : Prop :=
  m = "Please provide a message or attach files to send" ∨
  m = "User account not found. Please log in again." ∨
  m = "Sorry, there was an error processing your message. Please try again." ∨
  m = "Files must be an array of file objects" ∨
  ∃ (index : nat) property,
    property ∈ ["originalName"; "url"] ∧
    m = "File at index " +:+ pretty index +:+ " missing " +:+ property +:+ " property".

(** A response that carries one of the fixed [message] texts of POST
    /chat/message with a status that is not a success. *)
Definition plainFailure (r : Response) : Prop :=
  (status r = 400 ∨ status r = 404 ∨ status r = 500) ∧
  ∃ m, Api.field "message" (payload r) = Some (JStr m) ∧ backendMessage m.

(** A code unit is a decimal digit. *)
Definition isDigit (c : ascii) : bool :=
  let n := nat_of_ascii c in (48 <=? n) && (n <=? 57).

(** The code units of a string. *)
Fixpoint units (s : string) : list ascii :=
  match s with
  | EmptyString => []
  | String c s' => c :: units s'
  end.

(** Never both liked and disliked. *)
Definition exclusive (m : gmap string Dashboard.Flags) : Prop :=
  ∀ id f, m !! id = Some f → ¬ (Dashboard.is_liked f = true ∧ Dashboard.is_disliked f = true).

(** *** More concrete runs *)

Module Cases.

(** Alice asks for a new chat in Bob's workspace. *)
Definition inBobsWorkspace : ChatRouter.ChatBody :=
  ChatRouter.mkChatBody "Plans" None (Some Scenario.wsBob).

(** Alice asks for a new chat without naming a workspace. *)
Definition plainChat : ChatRouter.ChatBody :=
  ChatRouter.mkChatBody "Plans" (Some "for the week") None.

Definition bob : AuthUser := mkAuthUser "bob" (Some "user").

Definition statusText (st : nat) : string :=
  if st =? 400 then "Bad Request"
  else if st =? 404 then "Not Found"
  else "Internal Server Error".

(** Alice, who owns a workspace, names Bob's workspace in her message. *)
Definition staleWorkspace : Request :=
  mkRequest (mkBody (Some "hi") None (Some Scenario.wsBob) None) Scenario.alice.

(** Alice sends two files, the second without a URL. *)
Definition badFile : Request :=
  mkRequest
    (mkBody (Some "see") None None
            (Some (FileArray [Scenario.attachment;
                              mkFile (Some "b.txt") None None None None])))
    Scenario.alice.

(** Alice sends a message with [files: true]. *)
Definition notAnArray : Request :=
  mkRequest (mkBody (Some "hi") None None (Some (NotArray LengthOther))) Scenario.alice.

(** Alice writes into her chat. *)
Definition intoOwnChat : Request :=
  mkRequest (mkBody (Some "hi again") (Some Scenario.chatAlice) None None)
            Scenario.alice.

(** The sample installation after Alice has deleted her chat. *)
Definition afterDelete : World :=
  (ChatRouter.deleteChat Scenario.chatAlice Scenario.alice Scenario.world).2.

(** An environment with an OpenAI endpoint and key. *)
Definition openAIEnv (endpoint : string) : gmap string string :=
  <["AZURE_OPENAI_ENDPOINT" := endpoint]>
    (<["AZURE_OPENAI_API_KEY" := "key"]> ∅).

End Cases.

(* ********************************************************************* *)
(** * Properties *)
(* ********************************************************************* *)

(* ===================================================================== *)
(** ** JavaScript strings on samples *)
(* ===================================================================== *)

Example trim_sample : JS.trim "  hi there
 " = "hi there".
Proof. reflexivity. Qed.

Example includes_sample :
  JS.includes "Request timed out" "timed out" = true /\
  JS.includes "Request Timed out" "timed out" = false.
Proof. split; reflexivity. Qed.

Example split_sample : JS.split "/" "/c/a.txt" = [""; "c"; "a.txt"].
Proof. reflexivity. Qed.

Example join_sample : JS.join "," ["a"; "b"; "c"] = "a,b,c".
Proof. reflexivity. Qed.

Example uuid_sample :
  JS.uuidRegex_test "123e4567-E89B-12d3-a456-426614174000" = true /\
  JS.uuidRegex_test "123e4567-e89b-12d3-a456-42661417400" = false /\
  JS.uuidRegex_test "default" = false.
Proof. repeat split; reflexivity. Qed.

(* ===================================================================== *)
(** ** Rules for handler code *)
(* ===================================================================== *)

Arguments Sql.run : simpl never.

Lemma replay_app evs1 evs2 d : replay (evs1 ++ evs2) d = replay evs2 (replay evs1 d).
Proof.
  revert d. induction evs1 as [|e evs1 IH]; intros d; [done|].
  destruct e as [s now [|]|]; simpl; [|by rewrite IH..].
  destruct (Sql.run now s d); by rewrite IH.
Qed.

Section SpecRules.
Context (E : Env) {A B : Type} (P : Event → Prop).

Lemma spec_ret (QV : A → Prop) QR (a : A) : QV a → spec P QV QR (mret a).
Proof.
  intros Ha w. exists []. simpl. by rewrite app_nil_r.
Qed.

Lemma spec_respond (QV : A → Prop) (QR : Response → Prop) st fields :
  QR (mkResponse st (JObj fields)) → spec P QV QR (respond st fields).
Proof.
  intros Hr w. exists []. simpl. by rewrite app_nil_r.
Qed.

Lemma spec_throw (QV : A → Prop) QR e : spec P QV QR (throw e).
Proof.
  intros w. exists []. simpl. by rewrite app_nil_r.
Qed.

Lemma spec_query (QV : A → Prop) QR (f : Database → A) :
  (∀ d, QV (f d)) → spec P QV QR (query f).
Proof.
  intros Hf w. exists []. simpl. by rewrite app_nil_r.
Qed.

Lemma spec_bind (QV1 : A → Prop) (QV : B → Prop) QR (m : M A) (k : A → M B) :
  spec P QV1 QR m → (∀ a, QV1 a → spec P QV QR (k a)) → spec P QV QR (m ≫= k).
Proof.
  intros Hm Hk w. destruct (Hm w) as (evs1 & Ht1 & Hd1 & HP1 & Ho1).
  unfold mbind, M_bind. destruct (m w) as [[a|r|e] w1]; simpl in *;
    [|by exists evs1..].
  destruct (Hk a Ho1 w1) as (evs2 & Ht2 & Hd2 & HP2 & Ho2).
  exists (evs1 ++ evs2). rewrite Ht2, Ht1, replay_app, Hd1, Hd2, app_assoc.
  repeat split; [by apply Forall_app|done].
Qed.

Lemma spec_weaken (P' : Event → Prop) (QV QV' : A → Prop) (QR QR' : Response → Prop)
    (m : M A) :
  spec P' QV' QR' m → (∀ e, P' e → P e) → (∀ a, QV' a → QV a) →
  (∀ r, QR' r → QR r) → spec P QV QR m.
Proof.
  intros Hm HP HV HR w. destruct (Hm w) as (evs & Ht & Hd & HPs & Ho).
  exists evs. repeat split; [done..|by eapply Forall_impl|].
  destruct (m w).1; auto.
Qed.

End SpecRules.

Section SpecPrimitives.
Context (E : Env) (P : Event → Prop).

Lemma spec_finish (QV : Response → Prop) QR st fields :
  QV (mkResponse st (JObj fields)) → spec P QV QR (finish st fields).
Proof. intros. by apply spec_ret. Qed.

Lemma spec_getClock (QV : nat → Prop) QR : (∀ t, QV t) → spec P QV QR getClock.
Proof.
  intros Hf w. exists []. simpl. by rewrite app_nil_r.
Qed.

Lemma spec_newUuid (QV : string → Prop) QR : (∀ s, QV s) → spec P QV QR (newUuid E).
Proof.
  intros Hf w. exists []. simpl. by rewrite app_nil_r.
Qed.

Lemma spec_exec (QV : unit → Prop) QR s :
  (∀ now ok, P (EvSql s now ok)) → QV tt → spec P QV QR (exec E s).
Proof.
  intros HP Hv w. unfold exec.
  destruct (Sql.run (clock w) s (db w)) as [d|] eqn:Hrun.
  - exists [EvSql s (clock w) true]. simpl. rewrite Hrun.
    repeat split; [|done]. by constructor.
  - exists [EvSql s (clock w) false]. simpl. repeat split. by constructor.
Qed.

Lemma spec_chatCompletion (QV : string + string → Prop) QR msgs opts :
  (∀ r, P (EvChatCompletion msgs opts r)) → (∀ r, QV r) →
  spec P QV QR (chatCompletion E msgs opts).
Proof.
  intros HP Hv w. exists [EvChatCompletion msgs opts (getChatCompletion E msgs opts)].
  simpl. repeat split; [|done]. by constructor.
Qed.

End SpecPrimitives.


(* ===================================================================== *)
(** ** What the statements do to the tables *)
(* ===================================================================== *)

Lemma run_insert_message now id chatId userId content role d d1 :
  Sql.run now (InsertMessage id chatId userId content role) d = Some d1 →
  d1 = Sql.withMessages d (Messages d ++ [mkMessage id chatId userId content role now])
  ∧ chatId ∈ Sql.chatIds d ∧ userId ∈ Sql.userIds d.
Proof.
  unfold Sql.run, Sql.isIn. intros H.
  repeat case_bool_decide; simpl in H; try discriminate.
  by injection H as <-.
Qed.

Lemma run_update_counters now chatId d d1 :
  Sql.run now (UpdateChatCounters chatId) d = Some d1 →
  d1 = Sql.withChats d
         ((λ c, if bool_decide (c_id c = chatId) then Sql.bumpChat now c else c)
            <$> Chats d).
Proof.
  unfold Sql.run. intros H. destruct (forallb _ _); [|discriminate].
  by injection H as <-.
Qed.

Lemma run_setup_tables s now ok d d1 :
  setupEvent (EvSql s now ok) → Sql.run now s d = Some d1 →
  Messages d1 = Messages d ∧ MessageActions d1 = MessageActions d ∧
  ∃ created, Chats d1 = Chats d ++ created.
Proof.
  intros Hs Hrun. unfold Sql.run in Hrun.
  destruct s; simpl in Hs; try done;
    match type of Hrun with (if ?c then _ else _) = _ => destruct c end;
    try discriminate; injection Hrun as <-; simpl;
    repeat split; try done; try (by exists []; rewrite app_nil_r); by eexists.
Qed.

Lemma replay_setup_tables evs d :
  Forall setupEvent evs →
  Messages (replay evs d) = Messages d ∧
  MessageActions (replay evs d) = MessageActions d ∧
  ∃ created, Chats (replay evs d) = Chats d ++ created.
Proof.
  intros Hall. revert d. induction Hall as [|e evs He Hall IH]; intros d; simpl.
  { repeat split; try done. exists []. by rewrite app_nil_r. }
  destruct e as [s now [|]|]; [|apply IH|done].
  destruct (Sql.run now s d) as [d1|] eqn:Hrun; [|apply IH].
  destruct (run_setup_tables _ _ _ _ _ He Hrun) as (Hm & Ha & c1 & Hc).
  destruct (IH d1) as (Hm' & Ha' & c2 & Hc').
  rewrite Hm', Ha', Hc', Hm, Ha, Hc. repeat split; try done.
  exists (c1 ++ c2). by rewrite app_assoc.
Qed.

(* ===================================================================== *)
(** ** POST /chat/message, stage by stage *)
(* ===================================================================== *)

Ltac spec_step :=
  match goal with
  | |- spec _ _ _ (mbind _ _) => eapply spec_bind with (QV1 := λ _, True); [|intros ? _]
  | |- spec _ _ _ (mret _) => apply spec_ret
  | |- spec _ _ _ (respond _ _) => apply spec_respond
  | |- spec _ _ _ (throw _) => apply spec_throw
  | |- spec _ _ _ (finish _ _) => apply spec_finish
  | |- spec _ _ _ (query _) => apply spec_query
  | |- spec _ _ _ getClock => apply spec_getClock
  | |- spec _ _ _ (newUuid _) => apply spec_newUuid
  | |- spec _ _ _ (exec _ _) => apply spec_exec
  | |- spec _ _ _ (chatCompletion _ _ _) => apply spec_chatCompletion
  | |- spec _ _ _ (if ?b then _ else _) => destruct b
  | |- spec _ _ _ (match ?x with _ => _ end) => destruct x
  end.

Ltac spec_auto := repeat (spec_step; simpl; try done; auto).

Section PostMessageSpecs.
Context (E : Env).
Import ChatRoutes.

Lemma validateRequest_spec P b :
  spec P (λ _, validated b) (λ r, status r = 400) (validateRequest b).
Proof.
  unfold validateRequest, validated.
  destruct (noMessage (b_message b) && noFiles (b_files b)) eqn:Hn;
    [by apply spec_respond|].
  destruct (b_files b) as [[l|[]]|] eqn:Hf;
    try (by apply spec_throw); try (by apply spec_ret).
  destruct (checkFiles 0 l) eqn:Hc; [by apply spec_respond|].
  apply spec_ret. split_and!; [done| |done]. by intros ? [= <-].
Qed.

Lemma ensureUser_spec u :
  spec setupEvent (λ _, True) (λ r, status r = 404) (ensureUser E u).
Proof. unfold ensureUser. spec_auto. Qed.

Lemma createDefaultWorkspace_spec u QR :
  spec setupEvent (λ _, True) QR (createDefaultWorkspace E u).
Proof. unfold createDefaultWorkspace. spec_auto. Qed.

Lemma resolveWorkspace_spec u ws QR :
  spec setupEvent (λ _, True) QR (resolveWorkspace E u ws).
Proof.
  unfold resolveWorkspace.
  repeat (spec_step; simpl; try done; auto using createDefaultWorkspace_spec).
Qed.

Lemma resolveChat_spec u b ws QR :
  spec setupEvent (λ _, True) QR (resolveChat E u b ws).
Proof. unfold resolveChat. spec_auto. Qed.

Lemma requireArray_spec P b :
  spec P (λ _, arrayOrAbsent b) (λ r, status r = 400) (requireArray b).
Proof.
  unfold requireArray, arrayOrAbsent.
  destruct (b_files b) as [[l|len]|]; [by apply spec_ret|by apply spec_respond|
                                       by apply spec_ret].
Qed.

(** The check either lets an array or an absent [files] through, or it
    sends the 400; it leaves the world alone. *)
Lemma requireArray_cases b w :
  (arrayOrAbsent b ∧ requireArray b w = (Val tt, w)) ∨
  ((∃ len, b_files b = Some (NotArray len)) ∧
   requireArray b w
   = (Ret (mkResponse 400
             (JObj [("error", JStr "Invalid files format");
                    ("message", JStr "Files must be an array of file objects")])),
      w)).
Proof.
  unfold requireArray, arrayOrAbsent.
  destruct (b_files b) as [[l|len]|]; [by left|right; by eauto|by left].
Qed.

Lemma requireContent_spec P b :
  spec P (λ c, c = userMessageContent E b) (λ r, status r = 400) (requireContent E b).
Proof.
  unfold requireContent. destruct (negb _); [by apply spec_respond|by apply spec_ret].
Qed.

(** Before the first message is stored the handler only touches Users,
    Workspaces and Chats; it goes on with the assembled content of a
    validated request, or it returns a 400 or a 404. *)
Lemma prepare_spec req :
  spec setupEvent
       (λ p, p.2 = userMessageContent E (body req) ∧ validated (body req)
             ∧ arrayOrAbsent (body req))
       (λ r, status r = 400 ∨ status r = 404)
       (prepare E req).
Proof.
  unfold prepare.
  eapply spec_bind with (QV1 := λ _, validated (body req)).
  { eapply spec_weaken; [apply (validateRequest_spec setupEvent)|auto..]. }
  intros _ Hv.
  eapply spec_bind with (QV1 := λ _, True).
  { eapply spec_weaken; [apply ensureUser_spec|auto..]. }
  intros _ _.
  eapply spec_bind with (QV1 := λ _, True); [apply resolveWorkspace_spec|].
  intros ws _.
  eapply spec_bind with (QV1 := λ _, True); [apply resolveChat_spec|].
  intros chat _.
  eapply spec_bind with (QV1 := λ _, arrayOrAbsent (body req)).
  { eapply spec_weaken; [apply (requireArray_spec setupEvent)|auto..]. }
  intros _ Ha.
  eapply spec_bind with (QV1 := λ c, c = userMessageContent E (body req)).
  { eapply spec_weaken; [apply (requireContent_spec setupEvent)|auto..]. }
  intros c ->. by apply spec_ret.
Qed.

Lemma persistAndRespond_fixed u chat content :
  spec fixedConfiguration (λ _, True) (λ _, True) (persistAndRespond E u chat content).
Proof. unfold persistAndRespond. spec_auto. Qed.

Lemma handle_world (m : M Response) f w : (handle m f w).2 = (m w).2.
Proof. unfold handle. by destruct (m w) as [[?|?|?] ?]. Qed.

End PostMessageSpecs.


(** Symbolic execution of the persisting stage: one case for each way the
    three statements and the model call can turn out. *)
Ltac run_handler :=
  unfold handle, ChatRoutes.persistAndRespond, mbind, M_bind, newUuid, exec, query,
    chatCompletion, getClock, finish, respond, mret, M_ret;
  simpl;
  repeat match goal with
  | |- context [match Sql.run ?a ?b ?c with _ => _ end] =>
      destruct (Sql.run a b c) eqn:?; simpl
  | |- context [match getChatCompletion ?a ?b ?c with _ => _ end] =>
      destruct (getChatCompletion a b c) eqn:?; simpl
  end.

Ltac use_runs :=
  repeat match goal with
  | H : Sql.run _ (InsertMessage _ _ _ _ _) _ = Some _ |- _ =>
      apply run_insert_message in H as (-> & ? & _)
  | H : Sql.run _ (UpdateChatCounters _) _ = Some _ |- _ =>
      apply run_update_counters in H as ->
  end; simpl in *.

Lemma completion_not_setup pre messages options result :
  Forall setupEvent pre → EvChatCompletion messages options result ∉ pre.
Proof.
  intros HP Hin. rewrite Forall_forall in HP. exact (HP _ Hin).
Qed.

Lemma elem_of_middle {A} (x : A) (l r : list A) : x ∈ l ++ x :: r.
Proof. apply elem_of_app. right. by left. Qed.

(** C1. A request that is answered with status 200 has added to the trace,
    after statements on Users, Workspaces and Chats only, exactly: the insert
    of the user message with the assembled content, one chat-completion call
    that succeeded, the insert of the assistant message with the reply of
    the model, and one update of the chat counters.  Messages has grown by
    these two rows, and the row of the chat has its messageCount increased by
    2 and its lastMessageAt and updatedAt set to the time of the update, and
    is as before in its other columns; the rows of the other chats are as
    before ([bumped] spells the row out, column by column). *)
Theorem success_two_inserts_one_update (E : Env) (req : Request) (w w' : World)
    (resp : Response) :
  ChatRoutes.postMessage E req w = (resp, w') →
  status resp = 200 →
  ∃ pre created userMessageId aiMessageId chat messages reply t1 t2 t3,
    let uid := userId (user req) in
    let content := ChatRoutes.userMessageContent E (body req) in
    Forall setupEvent pre ∧
    trace w' = trace w ++ pre ++
      [EvSql (InsertMessage userMessageId chat uid content "user") t1 true;
       EvChatCompletion messages (mkOptions 1000 (7 # 10)) (inl reply);
       EvSql (InsertMessage aiMessageId chat uid reply "assistant") t2 true;
       EvSql (UpdateChatCounters chat) t3 true] ∧
    getChatCompletion E messages (mkOptions 1000 (7 # 10)) = inl reply ∧
    Messages (db w') = Messages (db w) ++
      [mkMessage userMessageId chat uid content "user" t1;
       mkMessage aiMessageId chat uid reply "assistant" t2] ∧
    chat ∈ c_id <$> (Chats (db w) ++ created) ∧
    Chats (db w') = bumped t3 chat <$> (Chats (db w) ++ created).
Proof.
  unfold ChatRoutes.postMessage.
  destruct (prepare_spec E req w) as (pre & Ht & Hd & HP & Ho).
  destruct (replay_setup_tables pre (db w) HP) as (Hm & _ & created & Hc).
  rewrite Hd in Hm, Hc.
  unfold handle, mbind, M_bind.
  destruct (ChatRoutes.prepare E req w) as [[[chat content]|r|e] w1]; simpl in *.
  2: { intros [= <- <-] H. rewrite H in Ho. by destruct Ho. }
  2: { by intros [= <- <-]. }
  destruct Ho as [-> _].
  run_handler; intros [= <- <-]; try done. intros _.
  use_runs.
  eexists pre, created, _, _, chat, _, _, _, _, _.
  split_and!; [done| |done| | |].
  - by rewrite Ht, <-!app_assoc.
  - by rewrite Hm, <-!app_assoc.
  - unfold Sql.chatIds in *. by rewrite Hc in *.
  - by rewrite Hc.
Qed.

(** Alice starts a new chat in production: the request is answered 200,
    Messages grows by two rows, and the one chat whose row has changed or is
    new has a messageCount of 2 more than before (0 for a new chat). *)
Lemma success_two_inserts_one_update_witness :
  let run := ChatRoutes.postMessage Scenario.production Scenario.newChat Scenario.world in
  status run.1 = 200 ∧
  length (Messages (db run.2)) = length (Messages Scenario.database) + 2 ∧
  ∃ chat created now,
    Chats (db run.2) = bumped now chat <$> (Chats Scenario.database ++ created) ∧
    chat ∈ c_id <$> (Chats Scenario.database ++ created).
Proof.
  intros run.
  assert (status run.1 = 200) as Hs by (vm_compute; reflexivity).
  split; [exact Hs|].
  destruct (success_two_inserts_one_update Scenario.production Scenario.newChat
              Scenario.world run.2 run.1 (surjective_pairing run) Hs)
    as (pre & created & uid & aid & chat & msgs & reply & t1 & t2 & t3
        & _ & _ & _ & Hm & Hin & Hc).
  split; [rewrite Hm, length_app; reflexivity|].
  exists chat, created, t3. split; [exact Hc|exact Hin].
Defined.

(** C2. When the chat-completion call of a request throws, the response has
    status 500 and the user message inserted before the call is in Messages
    afterwards; the handler goes on to insert the placeholder assistant
    message and, once that insert is accepted, to update the chat counters.
    The placeholder is the text 'Sorry, I encountered an issue processing
    your request. Please try again.'.  When the database rejects none of the
    statements, Messages has grown by the user message and the placeholder,
    and the row of the chat has its messageCount increased by 2 and its
    lastMessageAt and updatedAt set to the time of the update ([bumped]
    spells the row out, column by column). *)
Theorem completion_failure_keeps_both_messages (E : Env) (req : Request)
    (w w' : World) (resp : Response) (evs : list Event) messages options err :
  ChatRoutes.postMessage E req w = (resp, w') →
  trace w' = trace w ++ evs →
  EvChatCompletion messages options (inr err) ∈ evs →
  status resp = 500 ∧
  ∃ pre created userMessageId aiMessageId chat t1 t2 t3 ok2 ok3,
    let uid := userId (user req) in
    let content := ChatRoutes.userMessageContent E (body req) in
    Forall setupEvent pre ∧
    evs = pre ++
      [EvSql (InsertMessage userMessageId chat uid content "user") t1 true;
       EvChatCompletion messages options (inr err);
       EvSql (InsertMessage aiMessageId chat uid
                "Sorry, I encountered an issue processing your request. Please try again."
                "assistant")
             t2 ok2]
      ++ (if ok2 then [EvSql (UpdateChatCounters chat) t3 ok3] else []) ∧
    mkMessage userMessageId chat uid content "user" t1 ∈ Messages (db w') ∧
    (Forall (λ e, ¬ rejected e) evs →
       Messages (db w') = Messages (db w) ++
         [mkMessage userMessageId chat uid content "user" t1;
          mkMessage aiMessageId chat uid
            "Sorry, I encountered an issue processing your request. Please try again."
            "assistant" t2] ∧
       chat ∈ c_id <$> (Chats (db w) ++ created) ∧
       Chats (db w') = bumped t3 chat <$> (Chats (db w) ++ created)).
Proof.
  unfold ChatRoutes.postMessage.
  destruct (prepare_spec E req w) as (pre & Ht & Hd & HP & Ho).
  destruct (replay_setup_tables pre (db w) HP) as (Hm & _ & created & Hc).
  rewrite Hd in Hm, Hc.
  unfold handle, mbind, M_bind.
  destruct (ChatRoutes.prepare E req w) as [[[chat content]|r|e] w1]; simpl in *.
  2,3: intros [= <- <-] Hevs Hin; rewrite Ht in Hevs;
       apply app_inv_head in Hevs as <-; by apply completion_not_setup in Hin.
  destruct Ho as [-> _].
  run_handler; intros [= <- <-]; simpl; rewrite Ht, <-?app_assoc;
    intros Hevs; apply app_inv_head in Hevs as <-; intros Hin;
    apply elem_of_app in Hin as [Hin|Hin];
    try (by apply completion_not_setup in Hin);
    repeat (apply elem_of_cons in Hin as [Hin|Hin]; try discriminate);
    try (by apply elem_of_nil in Hin).
  all: injection Hin as <- <- <-.
  all: split; [done|].
  all: use_runs.
  - eexists pre, created, _, _, chat, _, _, _, true, true. simpl.
    split_and!; [done|done| |intros _; split_and!].
    + rewrite Hm, <-app_assoc. apply elem_of_middle.
    + by rewrite Hm, <-app_assoc.
    + unfold Sql.chatIds in *. by rewrite Hc in *.
    + by rewrite Hc.
  - eexists pre, created, _, _, chat, _, _, _, true, false. simpl.
    split_and!; [done|done| |].
    + rewrite Hm, <-app_assoc. apply elem_of_middle.
    + intros Hall. apply Forall_app in Hall as [_ Hall].
      rewrite !Forall_cons in Hall. simpl in Hall. tauto.
  - eexists pre, created, _, _, chat, _, _, 0, false, true. simpl.
    split_and!; [done|done| |].
    + rewrite Hm. apply elem_of_app. right. by left.
    + intros Hall. apply Forall_app in Hall as [_ Hall].
      rewrite !Forall_cons in Hall. simpl in Hall. tauto.
Qed.

(** The same request with the model down: status 500, and Messages still
    grows by the user message and the placeholder. *)
Lemma completion_failure_keeps_both_messages_witness :
  let run := ChatRoutes.postMessage Scenario.modelDown Scenario.newChat Scenario.world in
  status run.1 = 500 ∧
  length (Messages (db run.2)) = length (Messages Scenario.database) + 2.
Proof.
  intros run.
  assert (∃ messages options err,
            EvChatCompletion messages options (inr err) ∈ trace run.2)
    as (messages & options & err & Hin).
  { do 3 eexists. vm_compute.
    repeat first [apply list_elem_of_here | apply list_elem_of_further]. }
  destruct (completion_failure_keeps_both_messages Scenario.modelDown Scenario.newChat
              Scenario.world run.2 run.1 (trace run.2) messages options err
              (surjective_pairing run) eq_refl Hin)
    as (Hs & pre & created & uid & aid & chat & t1 & t2 & t3 & ok2 & ok3
        & _ & _ & _ & Hall).
  split; [exact Hs|].
  destruct Hall as (Hm & _).
  { vm_compute. repeat constructor; intros []. }
  rewrite Hm, length_app. reflexivity.
Defined.

(** C6. Whatever the request, the database and the environment, every
    chat-completion call that POST /chat/message makes is made with
    maxTokens = 1000 and temperature = 0.7. *)
Theorem chat_completion_fixed_configuration (E : Env) (req : Request) (w : World) :
  ∃ evs,
    trace (ChatRoutes.postMessage E req w).2 = trace w ++ evs ∧
    ∀ messages options result,
      EvChatCompletion messages options result ∈ evs →
      maxTokens options = 1000%Z ∧ temperature options = (7 # 10)%Q.
Proof.
  unfold ChatRoutes.postMessage. rewrite handle_world.
  assert (spec fixedConfiguration (λ _, True) (λ _, True)
            (p ← ChatRoutes.prepare E req;
             ChatRoutes.persistAndRespond E (user req) p.1 p.2)) as Hs.
  { eapply spec_bind with (QV1 := λ _, True).
    - eapply spec_weaken; [apply prepare_spec|..]; auto.
      intros [[]| ]; simpl; tauto.
    - intros p _. apply persistAndRespond_fixed. }
  destruct (Hs w) as (evs & Ht & _ & HP & _).
  exists evs. split; [done|].
  intros messages options result Hin.
  rewrite Forall_forall in HP. exact (HP _ Hin).
Qed.

(** The model is called on the success path of a new chat, and with the
    fixed options. *)
Example completion_call_sample :
  ∃ messages,
    EvChatCompletion messages (mkOptions 1000 (7 # 10)) (inl "Hello!")
    ∈ trace (ChatRoutes.postMessage Scenario.production Scenario.newChat
                                    Scenario.world).2.
Proof.
  eexists. vm_compute.
  repeat first [apply list_elem_of_here | apply list_elem_of_further].
Qed.

(* ===================================================================== *)
(** ** The content of the stored user message *)
(* ===================================================================== *)

Section Content.
Context (E : Env).
Import ChatRoutes.

Lemma persistAndRespond_content u chat content :
  spec (userContentIs content) (λ _, True) (λ _, True)
       (persistAndRespond E u chat content).
Proof. unfold persistAndRespond. spec_auto. Qed.

Lemma setup_not_message pre id chat uid content r now ok :
  Forall setupEvent pre → EvSql (InsertMessage id chat uid content r) now ok ∉ pre.
Proof.
  intros HP Hin. rewrite Forall_forall in HP. exact (HP _ Hin).
Qed.

(** Every insert of a message with role 'user' that the handler issues
    carries the assembled content, and is issued for a validated request. *)
Lemma inserted_user_content req w w' resp evs id chat uid content now ok :
  postMessage E req w = (resp, w') →
  trace w' = trace w ++ evs →
  EvSql (InsertMessage id chat uid content "user") now ok ∈ evs →
  content = userMessageContent E (body req) ∧ validated (body req).
Proof.
  unfold postMessage.
  destruct (prepare_spec E req w) as (pre & Ht & _ & HP & Ho).
  unfold handle, mbind, M_bind.
  destruct (prepare E req w) as [[[c0 content0]|r|e] w1]; simpl in *.
  2,3: intros [= <- <-] Hevs Hin; rewrite Ht in Hevs;
       apply app_inv_head in Hevs as <-; by apply setup_not_message in Hin.
  destruct Ho as (-> & Hv & _).
  destruct (persistAndRespond_content (user req) c0
              (userMessageContent E (body req)) w1) as (post & Ht2 & _ & HP2 & _).
  destruct (persistAndRespond E (user req) c0 _ w1) as [[r|r|e] w2];
    simpl in *; intros [= <- <-] Hevs Hin; rewrite Ht2, Ht, <-app_assoc in Hevs;
    apply app_inv_head in Hevs as <-;
    apply elem_of_app in Hin as [Hin|Hin];
    try (by apply setup_not_message in Hin);
    rewrite Forall_forall in HP2; split; try done; by apply (HP2 _ Hin).
Qed.

Lemma checkFiles_named index l :
  checkFiles index l = None → Forall (λ f, JS.truthy (f_originalName f) = true) l.
Proof.
  revert index. induction l as [|f l IH]; intros index; simpl; [by constructor|].
  destruct (JS.truthy (f_originalName f)) eqn:Hn; simpl; [|done].
  destruct (JS.truthy (f_url f)); simpl; [|done].
  intros H. constructor; [done|by eapply IH].
Qed.

Lemma fileEntry_named f :
  JS.truthy (f_originalName f) = true →
  fileSection (fileEntry E f) = sectionOf E f.
Proof.
  intros Hn. unfold fileEntry, sectionOf, extractedContent. rewrite Hn. simpl.
  by destruct (JS.truthy (blobNameOf E f)).
Qed.

Lemma fileContentSection_named l :
  Forall (λ f, JS.truthy (f_originalName f) = true) l →
  fileContentSection E l = sectionsOf E l.
Proof.
  intros Hall. unfold fileContentSection, sectionsOf. f_equal.
  rewrite <-list_fmap_compose. apply Forall_fmap_ext_1.
  eapply Forall_impl; [exact Hall|]. intros f Hf. by apply fileEntry_named.
Qed.

(** With files and the file-analysis service at hand, the assembled content
    is the one described by [contentByTrimmed]. *)
Lemma userMessageContent_with_files b files :
  validated b → b_files b = Some (FileArray files) → files ≠ [] →
  fileAnalysisAvailable E = true →
  userMessageContent E b = contentByTrimmed E (b_message b) files.
Proof.
  intros (_ & Hv & _) Hf Hne Ha. specialize (Hv _ Hf). apply checkFiles_named in Hv.
  unfold userMessageContent, contentByTrimmed, withAttachedFiles, analyzeFiles.
  rewrite Hf, Ha. destruct files as [|f l]; [done|].
  rewrite (fileContentSection_named _ Hv).
  by destruct (b_message b) as [[|c s]|].
Qed.

End Content.

(** C5, as the code has it. When files accompany a request and the
    file-analysis service is at hand, the content of the user message the
    handler stores is: for a message that is not empty after trimming, the
    trimmed message, then a blank line, 'Attached Files:' and the sections of
    the files joined with a line feed; for a message that is absent, empty or
    made of white space only, 'Analyze the following files:', a blank line and
    the same sections.  The section of a file is 'File: ' and its original
    name, 'Content:' and its extracted content, and '---', each on a line. *)
Theorem stored_content_with_files (E : Env) (req : Request) (w w' : World)
    (resp : Response) (evs : list Event) (files : list File)
    (id chat uid content : string) (now : nat) (ok : bool) :
  ChatRoutes.postMessage E req w = (resp, w') →
  trace w' = trace w ++ evs →
  EvSql (InsertMessage id chat uid content "user") now ok ∈ evs →
  b_files (body req) = Some (FileArray files) →
  files ≠ [] →
  fileAnalysisAvailable E = true →
  content = contentByTrimmed E (b_message (body req)) files.
Proof.
  intros Hrun Ht Hin Hf Hne Ha.
  destruct (inserted_user_content E _ _ _ _ _ _ _ _ _ _ _ Hrun Ht Hin) as [-> Hv].
  by apply userMessageContent_with_files.
Qed.

(** Alice sends a file with the message ' see the file ': the stored content
    is the trimmed message with the attached file. *)
Lemma stored_content_with_files_witness :
  let run := ChatRoutes.postMessage Scenario.production Scenario.textWithFile
                                    Scenario.world in
  ∃ id chat now,
    EvSql (InsertMessage id chat "alice"
             (contentByTrimmed Scenario.production (Some " see the file ")
                               [Scenario.attachment]) "user") now true
    ∈ trace run.2.
Proof.
  intros run.
  assert (∃ id chat content now,
            EvSql (InsertMessage id chat "alice" content "user") now true ∈ trace run.2)
    as (id & chat & content & now & Hin).
  { do 4 eexists. vm_compute.
    repeat first [apply list_elem_of_here | apply list_elem_of_further]. }
  exists id, chat, now.
  pose proof (stored_content_with_files Scenario.production Scenario.textWithFile
                Scenario.world run.2 run.1 (trace run.2) [Scenario.attachment]
                id chat "alice" content now true
                (surjective_pairing run) eq_refl Hin eq_refl
                ltac:(discriminate) eq_refl) as Hc.
  rewrite Hc in Hin. exact Hin.
Defined.

(** C5, as stated, fails for a message of two spaces sent with a file: the
    message is not empty, yet the stored content starts with 'Analyze the
    following files:' and is not the trimmed message followed by 'Attached
    Files:'. *)
Lemma stored_content_as_stated_counterexample :
  let run := ChatRoutes.postMessage Scenario.production Scenario.blankWithFile
                                    Scenario.world in
  JS.truthy (b_message (body Scenario.blankWithFile)) = true ∧
  (∃ id chat now,
     EvSql (InsertMessage id chat "alice"
              (analyzeFiles Scenario.production [Scenario.attachment]) "user") now true
     ∈ trace run.2) ∧
  analyzeFiles Scenario.production [Scenario.attachment]
  ≠ contentAsStated Scenario.production (b_message (body Scenario.blankWithFile))
                    [Scenario.attachment].
Proof.
  intros run. split_and!.
  - reflexivity.
  - do 3 eexists. vm_compute.
    repeat first [apply list_elem_of_here | apply list_elem_of_further].
  - vm_compute. discriminate.
Qed.

(* ===================================================================== *)
(** ** The user of the request *)
(* ===================================================================== *)

Section EnsureUser.
Context (E : Env).
Import ChatRoutes.

Lemma postMessage_unfold req w :
  postMessage E req w =
  handle (validateRequest (body req);; ensureUser E (user req);; afterUser E req)
         sendMessageFailed w.
Proof.
  unfold postMessage, prepare, afterUser, handle, mbind, M_bind.
  destruct (validateRequest (body req) w) as [[[]|r|e] w1]; [|done..].
  destruct (ensureUser E (user req) w1) as [[[]|r|e] w2]; [|done..].
  destruct (resolveWorkspace E (user req) _ w2) as [[ws|r|e] w3]; [|done..].
  destruct (resolveChat E (user req) (body req) ws w3) as [[chat|r|e] w4]; [|done..].
  destruct (requireArray (body req) w4) as [[[]|r|e] w5]; [|done..].
  by destruct (requireContent E (body req) w5) as [[c|r|e] w6].
Qed.

Lemma afterUser_spec req :
  spec leavesUsers (λ r, status r ≠ 404) (λ r, status r ≠ 404) (afterUser E req).
Proof.
  unfold afterUser, resolveWorkspace, createDefaultWorkspace, resolveChat,
    requireArray, requireContent, persistAndRespond.
  spec_auto.
Qed.

Lemma run_leaves_users s now ok d d1 :
  leavesUsers (EvSql s now ok) → Sql.run now s d = Some d1 → Users d1 = Users d.
Proof.
  intros Hs Hrun. unfold Sql.run in Hrun.
  destruct s; simpl in Hs; try done;
    try (match type of Hrun with (if ?c then _ else _) = _ => destruct c end;
         try discriminate);
    by injection Hrun as <-.
Qed.

Lemma replay_leaves_users evs d :
  Forall leavesUsers evs → Users (replay evs d) = Users d.
Proof.
  intros Hall. revert d. induction Hall as [|e evs He Hall IH]; intros d; [done|].
  simpl. destruct e as [s now [|]|]; [|apply IH..].
  destruct (Sql.run now s d) as [d1|] eqn:Hrun; [|apply IH].
  rewrite IH. by eapply run_leaves_users.
Qed.

Lemma validateRequest_ok b w : validated b → validateRequest b w = (Val tt, w).
Proof.
  intros (Hn & Hf & Hp). unfold validateRequest. rewrite Hn.
  destruct (b_files b) as [[l|[]]|]; try done. by rewrite (Hf l eq_refl).
Qed.

Lemma no_row_with_id (u : string) (d : Database) :
  u ∉ Sql.userIds d → filter (λ r, u_id r = u) (Users d) = [].
Proof.
  unfold Sql.userIds. induction (Users d) as [|r l IH]; [done|].
  rewrite fmap_cons, not_elem_of_cons. intros [Hne Hl].
  rewrite filter_cons_False; [by apply IH|congruence].
Qed.

Lemma ensureUser_missing u w :
  userId u ∉ Sql.userIds (db w) →
  ensureUser E u w =
  if devBypass E then exec E (repairStatement (db w) u) w
  else (Ret (mkResponse 404
               (JObj [("error", JStr "User not found");
                      ("message",
                       JStr "User account not found. Please log in again.")])), w).
Proof.
  intros Hmiss. unfold ensureUser, devBypass, repairStatement, mbind, M_bind, query.
  simpl. rewrite (no_row_with_id _ _ Hmiss). simpl.
  destruct (envIs E "NODE_ENV" "development" && envIs E "BYPASS_AUTH" "true"); [|done].
  by destruct (Sql.isNil _).
Qed.

Lemma run_repair now d u d1 :
  Sql.run now (repairStatement d u) d = Some d1 → userId u ∈ Sql.userIds d1.
Proof.
  unfold repairStatement.
  destruct (filter (λ r, u_email r = mockEmail u) (Users d)) as [|r l] eqn:Hf; simpl.
  - unfold Sql.run. destruct (_ && _); [|done]. intros [= <-].
    unfold Sql.userIds. simpl. rewrite fmap_app. apply elem_of_app. right. by left.
  - unfold Sql.run. destruct (_ && _); [|done]. intros [= <-].
    unfold Sql.userIds. simpl.
    assert (r ∈ filter (λ r, u_email r = mockEmail u) (Users d)) as Hr
      by (rewrite Hf; by left).
    apply list_elem_of_filter in Hr as [He Hr].
    apply list_elem_of_fmap. exists (Sql.setUserId (userId u) r). split; [done|].
    apply list_elem_of_fmap. exists r. split; [|done].
    by rewrite bool_decide_eq_true_2.
Qed.

End EnsureUser.

(** C4, as the code has it. Take a validated request whose userId has no row
    in Users.  When NODE_ENV is 'development' and BYPASS_AUTH is 'true', the
    first statement of the handler is the create-if-missing repair (the insert
    of the user, or the re-pointing of the row that has the e-mail
    userId@example.com), no later statement touches Users and, once the repair
    is accepted, a row with the userId is in Users to the end and the response
    is not 404; when the repair is rejected the response is 500 and nothing is
    written.  In every other environment the handler writes nothing and
    responds 404. *)
Theorem user_repair_only_in_development (E : Env) (req : Request) (w w' : World)
    (resp : Response) (evs : list Event) :
  ChatRoutes.postMessage E req w = (resp, w') →
  trace w' = trace w ++ evs →
  validated (body req) →
  userId (user req) ∉ Sql.userIds (db w) →
  if devBypass E then
    ∃ ok rest,
      evs = EvSql (repairStatement (db w) (user req)) (clock w) ok :: rest ∧
      Forall leavesUsers rest ∧
      if ok then userId (user req) ∈ Sql.userIds (db w') ∧ status resp ≠ 404
      else rest = [] ∧ db w' = db w ∧ status resp = 500
  else evs = [] ∧ db w' = db w ∧ status resp = 404.
Proof.
  intros Hrun Ht Hv Hmiss. rewrite postMessage_unfold in Hrun.
  unfold handle, mbind, M_bind in Hrun.
  rewrite (validateRequest_ok _ _ Hv), (ensureUser_missing _ _ _ Hmiss) in Hrun.
  destruct (devBypass E).
  - unfold exec in Hrun.
    destruct (Sql.run (clock w) (repairStatement (db w) (user req)) (db w))
      as [d1|] eqn:Hrep.
    + destruct (afterUser_spec E req
                  (mkWorld d1 (S (clock w)) (uuidCalls w)
                     (trace w ++
                      [EvSql (repairStatement (db w) (user req)) (clock w) true])))
        as (post & Ht2 & Hd2 & HP2 & Ho2).
      simpl in *.
      assert (trace w' = (trace w ++
                [EvSql (repairStatement (db w) (user req)) (clock w) true]) ++ post
              ∧ db w' = replay post d1 ∧ status resp ≠ 404) as (Ht' & Hd' & Hs).
      { destruct (afterUser E req _) as [[r|r|e] w2]; simpl in *;
          injection Hrun as <- <-; by rewrite Hd2. }
      rewrite Ht, <-app_assoc in Ht'. apply app_inv_head in Ht' as ->.
      exists true, post. split_and!; [done|done| |done].
      unfold Sql.userIds. rewrite Hd', replay_leaves_users by done.
      by eapply run_repair.
    + injection Hrun as <- <-. simpl in Ht.
      apply app_inv_head in Ht as <-.
      exists false, []. split_and!; simpl; try done; constructor.
  - injection Hrun as <- <-. rewrite <-(app_nil_r (trace w)) in Ht at 1.
    apply app_inv_head in Ht as <-. by split_and!.
Qed.

(** Carol has no row; in development with BYPASS_AUTH her row is created. *)
Lemma user_repair_only_in_development_witness :
  let run := ChatRoutes.postMessage Scenario.development Scenario.fromCarol
                                    Scenario.world in
  ("carol" ∉ Sql.userIds Scenario.database) ∧ ("carol" ∈ Sql.userIds (db run.2)).
Proof.
  intros run.
  assert ("carol" ∉ Sql.userIds Scenario.database) as Hmiss.
  { vm_compute. intros H. repeat (apply elem_of_cons in H as [H|H]; [discriminate|]).
    by apply elem_of_nil in H. }
  assert (validated (body Scenario.fromCarol)) as Hv.
  { split_and!; [reflexivity|intros l; discriminate|discriminate]. }
  split; [exact Hmiss|].
  pose proof (user_repair_only_in_development Scenario.development Scenario.fromCarol
                Scenario.world run.2 run.1 (trace run.2)
                (surjective_pairing run) eq_refl Hv Hmiss) as H.
  change (devBypass Scenario.development) with true in H.
  destruct H as ([|] & rest & Hevs & _ & H).
  - apply H.
  - exfalso. vm_compute in Hevs. discriminate.
Defined.

(** C4, as stated, fails outside the development mode: in production the
    request of a user without a row is answered 404, nothing is written and
    the user still has no row. *)
Lemma user_repair_counterexample :
  let run := ChatRoutes.postMessage Scenario.production Scenario.fromCarol
                                    Scenario.world in
  validated (body Scenario.fromCarol) ∧
  ("carol" ∉ Sql.userIds Scenario.database) ∧
  status run.1 = 404 ∧ run.2 = Scenario.world ∧
  ("carol" ∉ Sql.userIds (db run.2)).
Proof.
  intros run.
  assert ("carol" ∉ Sql.userIds Scenario.database) as Hmiss.
  { vm_compute. intros H. repeat (apply elem_of_cons in H as [H|H]; [discriminate|]).
    by apply elem_of_nil in H. }
  split_and!; [|done|reflexivity|reflexivity|exact Hmiss].
  split_and!; [reflexivity|intros l; discriminate|discriminate].
Qed.

(* ===================================================================== *)
(** ** The workspace and the chat of the message *)
(* ===================================================================== *)

Section Workspace.
Context (E : Env).
Import ChatRoutes.

Lemma createDefaultWorkspace_owned u w :
  match createDefaultWorkspace E u w with
  | (Val id, w1) =>
      ownsWorkspace (db w1) (userId u) id ∧
      Workspaces (db w1) =
        Workspaces (db w) ++
        [mkWorkspace id "Default Workspace" "Auto-created default workspace"
                     "#3B82F6" (userId u) (clock w) (clock w)]
  | (Ret _, _) => False
  | (Exc _, w1) => db w1 = db w
  end.
Proof.
  unfold createDefaultWorkspace, mbind, M_bind, newUuid, exec, mret, M_ret. simpl.
  destruct (Sql.run _ _ _) as [d1|] eqn:Hrun; simpl; [|done].
  unfold Sql.run in Hrun. destruct (_ && _); [|done]. injection Hrun as <-.
  simpl. split; [|done]. eexists. split; [apply elem_of_app; right; by left|done].
Qed.

(** The workspace resolution never answers the request itself: it yields
    a workspace owned by the user, which is the workspace asked for, the
    first workspace of the user, or a 'Default Workspace' just created; or
    the insert of that default workspace is rejected. *)
Lemma resolveWorkspace_owned u workspaceId w :
  match resolveWorkspace E u workspaceId w with
  | (Val id, w1) => ownsWorkspace (db w1) (userId u) id
  | (Ret _, _) => False
  | (Exc _, w1) => db w1 = db w
  end.
Proof.
  unfold resolveWorkspace, mbind at 1 2, M_bind at 1 2, query. simpl.
  destruct (negb _).
  - destruct (head _) as [r|] eqn:Hh; simpl.
    + apply head_Some_elem_of, list_elem_of_filter in Hh as [Ho Hr].
      by exists r.
    + pose proof (createDefaultWorkspace_owned u w) as H.
      destruct (createDefaultWorkspace E u w) as [[id|r|e] w1]; tauto.
  - destruct (filter _ _) as [|r l] eqn:Hf; simpl.
    + pose proof (createDefaultWorkspace_owned u w) as H.
      destruct (createDefaultWorkspace E u w) as [[id|r|e] w1]; tauto.
    + assert (r ∈ r :: l) as Hr by (by left). rewrite <-Hf in Hr.
      apply list_elem_of_filter in Hr as [[Hid Ho] Hr]. by exists r.
Qed.

Lemma run_persist_tables s now ok d d1 :
  persistEvent (EvSql s now ok) → Sql.run now s d = Some d1 →
  Workspaces d1 = Workspaces d ∧
  ∀ chat ws, chatInWorkspace d chat ws → chatInWorkspace d1 chat ws.
Proof.
  intros Hs Hrun. destruct s; simpl in Hs; try done.
  - apply run_insert_message in Hrun as (-> & _). by split.
  - apply run_update_counters in Hrun as ->. split; [done|].
    intros chat ws (c & Hc & Hid & Hws). simpl.
    exists (if bool_decide (c_id c = chatId) then Sql.bumpChat now c else c).
    split; [|by case_bool_decide].
    apply list_elem_of_fmap. by exists c.
Qed.

Lemma replay_persist_tables evs d :
  Forall persistEvent evs →
  Workspaces (replay evs d) = Workspaces d ∧
  ∀ chat ws, chatInWorkspace d chat ws → chatInWorkspace (replay evs d) chat ws.
Proof.
  intros Hall. revert d. induction Hall as [|e evs He Hall IH]; intros d; [done|].
  simpl. destruct e as [s now [|]|]; [|apply IH..].
  destruct (Sql.run now s d) as [d1|] eqn:Hrun; [|apply IH].
  destruct (run_persist_tables _ _ _ _ _ He Hrun) as [Hw Hc].
  destruct (IH d1) as [Hw' Hc']. rewrite Hw', Hw. split; [done|].
  intros chat ws H. by apply Hc', Hc.
Qed.

Lemma persistAndRespond_events u chat content :
  spec persistEvent (λ r, status r = 200) (λ r, status r = 500)
       (persistAndRespond E u chat content).
Proof. unfold persistAndRespond. spec_auto. Qed.

Lemma persistAndRespond_chat u chat content w :
  status (handle (persistAndRespond E u chat content) sendMessageFailed w).1 = 200 →
  ∃ id now,
    mkMessage id chat (userId u) content "user" now
    ∈ Messages (db (persistAndRespond E u chat content w).2).
Proof.
  run_handler; try done. intros _. use_runs.
  do 2 eexists. rewrite <-app_assoc. apply elem_of_middle.
Qed.

(** X21.  For a request without a chatId that is answered 200, the chat the
    user message is stored in is a chat of a workspace owned by the user. *)
Lemma new_chat_in_owned_workspace req w w' resp :
  postMessage E req w = (resp, w') →
  status resp = 200 →
  JS.truthy (b_chatId (body req)) = false →
  ∃ id chat now ws,
    mkMessage id chat (userId (user req)) (userMessageContent E (body req)) "user" now
      ∈ Messages (db w') ∧
    chatInWorkspace (db w') chat ws ∧
    ownsWorkspace (db w') (userId (user req)) ws.
Proof.
  intros Hrun Hs Hnew. rewrite postMessage_unfold in Hrun.
  unfold handle, afterUser, mbind at 1 2 3 4 5 6, M_bind at 1 2 3 4 5 6 in Hrun.
  destruct (validateRequest (body req) w) as [[[]|r|e] w1] eqn:H1;
    [|pose proof (validateRequest_spec (λ _, True) (body req) w) as (? & _ & _ & _ & Hv);
      rewrite H1 in Hv; simpl in Hv; injection Hrun as <- <-; simpl in *; congruence
     |injection Hrun as <- <-; done].
  destruct (ensureUser E (user req) w1) as [[[]|r|e] w2] eqn:H2;
    [|pose proof (ensureUser_spec E (user req) w1) as (? & _ & _ & _ & Hv);
      rewrite H2 in Hv; simpl in Hv; injection Hrun as <- <-; simpl in *; congruence
     |injection Hrun as <- <-; done].
  pose proof (resolveWorkspace_owned (user req) (b_workspaceId (body req)) w2) as Hws.
  destruct (resolveWorkspace E (user req) _ w2) as [[ws|r|e] w3];
    [|done|injection Hrun as <- <-; done].
  destruct Hws as (r & Hr & Hid & Ho).
  unfold resolveChat, mbind at 1 2, M_bind at 1 2, newUuid, exec in Hrun.
  rewrite Hnew in Hrun. simpl in Hrun.
  destruct (Sql.run (clock w3) _ (db w3)) as [d4|] eqn:Hchat; simpl in Hrun;
    [|injection Hrun as <- <-; done].
  unfold Sql.run in Hchat. destruct (_ && _); [|done]. injection Hchat as <-.
  match type of Hrun with
  | context [requireArray ?b ?w0] =>
      destruct (requireArray_cases b w0) as [[_ Ha]|[_ Ha]]; rewrite Ha in Hrun
  end; simpl in Hrun; [|injection Hrun as <- <-; done].
  unfold requireContent in Hrun.
  destruct (negb _); simpl in Hrun; [injection Hrun as <- <-; done|].
  match type of Hrun with
  | match persistAndRespond E ?u ?c ?k ?w0 with _ => _ end = _ =>
      pose proof (persistAndRespond_events u c k w0) as (evs & _ & Hd & HP & _);
      pose proof (persistAndRespond_chat u c k w0) as Hm;
      unfold handle in Hm;
      destruct (persistAndRespond E u c k w0) as [[r0|r0|e0] w5]
  end; simpl in *; injection Hrun as <- <-; try done.
  all: destruct (Hm Hs) as (id & now & Hin).
  all: match type of Hd with
       | replay _ ?d = _ => destruct (replay_persist_tables evs d HP) as [Hw Hc]
       end.
  all: rewrite Hd in Hw, Hc; simpl in Hw.
  all: exists id, (uuidv4 E (uuidCalls w3)), now, ws; split_and!; [done| |].
  all: try (apply Hc; eexists; split; [apply elem_of_app; right; by left|done]).
  all: exists r; by rewrite Hw.
Qed.

End Workspace.

(** C3 at the failing input. Alice posts into the chat of Bob: the request is
    answered 200, her message and the reply are stored in that chat, and the
    chat is Bob's, in a workspace owned by Bob. *)
Theorem message_lands_in_foreign_chat :
  let run := ChatRoutes.postMessage Scenario.production Scenario.intoBobsChat
                                    Scenario.world in
  userId (user Scenario.intoBobsChat) = "alice" ∧
  status run.1 = 200 ∧
  filter (λ m, m_chatId m = Scenario.chatBob) (Messages (db run.2)) =
    [mkMessage (Scenario.uuid 0) Scenario.chatBob "alice" "hi" "user" 10;
     mkMessage (Scenario.uuid 1) Scenario.chatBob "alice" "Hello!" "assistant" 11] ∧
  filter (λ c, c_id c = Scenario.chatBob) (Chats (db run.2)) =
    [mkChat Scenario.chatBob "Bob's notes" "" "bob" (Some Scenario.wsBob) 2 false
            (Some 12) 2 12] ∧
  filter (λ r, w_id r = Scenario.wsBob) (Workspaces (db run.2)) =
    [mkWorkspace Scenario.wsBob "Bob's" "" "#3B82F6" "bob" 1 1].
Proof. vm_compute. by split_and!. Qed.

(* ===================================================================== *)
(** ** Message actions *)
(* ===================================================================== *)

Section Toggle.
Context (E : Env).
Import MessageActionRoute.

Lemma present_true_iff d m u a :
  present d m u a = true ↔ ∃ r, r ∈ MessageActions d ∧ Sql.actionKeyIs m u a r.
Proof.
  unfold present.
  destruct (filter (Sql.actionKeyIs m u a) (MessageActions d)) as [|r l] eqn:Hf; simpl.
  - split; [done|]. intros (r & Hr & Hk).
    assert (r ∈ filter (Sql.actionKeyIs m u a) (MessageActions d)) as Hin
      by (by apply list_elem_of_filter).
    rewrite Hf in Hin. by apply elem_of_nil in Hin.
  - split; [|done]. intros _. exists r.
    assert (r ∈ filter (Sql.actionKeyIs m u a) (MessageActions d)) as Hin
      by (rewrite Hf; by left).
    apply list_elem_of_filter in Hin. tauto.
Qed.

Lemma present_ext d1 d2 :
  (∀ m u a, (∃ r, r ∈ MessageActions d1 ∧ Sql.actionKeyIs m u a r) ↔
            (∃ r, r ∈ MessageActions d2 ∧ Sql.actionKeyIs m u a r)) →
  ∀ m u a, present d1 m u a = present d2 m u a.
Proof.
  intros H m u a. specialize (H m u a). rewrite <-!present_true_iff in H.
  destruct (present d1 m u a), (present d2 m u a); try done; intuition congruence.
Qed.

Lemma absent_filter m u a (l : list ActionRow) :
  filter (Sql.actionKeyIs m u a) l = [] → filter (λ r, ¬ Sql.actionKeyIs m u a r) l = l.
Proof.
  induction l as [|r l IH]; [done|].
  destruct (decide (Sql.actionKeyIs m u a r)) as [Hk|Hk].
  - by rewrite filter_cons_True.
  - rewrite (filter_cons_False _ _ _ Hk), filter_cons_True by done.
    intros Hf. by rewrite IH.
Qed.

Lemma accessible_message messageId chatId userId d :
  messageCheck messageId chatId userId d ≠ [] → messageId ∈ Sql.messageIds d.
Proof.
  unfold messageCheck. intros Hne.
  destruct (filter _ _) as [|[m c] l] eqn:Hf; [done|].
  assert ((m, c) ∈ filter (ownedMessage messageId chatId userId)
                          (list_prod (Messages d) (Chats d))) as Hin
    by (rewrite Hf; by left).
  apply list_elem_of_filter in Hin as [(_ & Hid & _) Hin]. simpl in Hid.
  apply list_elem_of_In, in_prod_iff in Hin as [Hm _].
  apply list_elem_of_fmap. exists m. split; [done|by apply list_elem_of_In].
Qed.

(** A call on a row that is present removes it. *)
Lemma toggle_present chatId messageId actionType u w :
  validAction (Some actionType) = true →
  messageCheck messageId chatId (userId u) (db w) ≠ [] →
  present (db w) messageId (userId u) actionType = true →
  postMessageAction E chatId messageId (Some actionType) u w =
  (mkResponse 200 (JObj [("message", JStr "Action removed");
                         ("actionType", JStr actionType);
                         ("active", JBool false)]),
   mkWorld (Sql.withActions (db w)
              (filter (λ r, ¬ Sql.actionKeyIs messageId (userId u) actionType r)
                      (MessageActions (db w))))
           (S (clock w)) (uuidCalls w)
           (trace w ++ [EvSql (DeleteAction messageId (userId u) actionType)
                              (clock w) true])).
Proof.
  intros Hv Hacc Hp.
  unfold postMessageAction, toggle, handle, mbind, M_bind, query, exec, finish, mret,
    M_ret, present, existingAction in *.
  rewrite Hv. simpl.
  destruct (messageCheck messageId chatId (userId u) (db w)); [done|]. simpl.
  by destruct (filter _ (MessageActions (db w))).
Qed.

(** A call on a row that is absent adds it, when the user has a row in
    Users and the identifier drawn for the action is new. *)
Lemma toggle_absent chatId messageId actionType u w :
  validAction (Some actionType) = true →
  messageCheck messageId chatId (userId u) (db w) ≠ [] →
  userId u ∈ Sql.userIds (db w) →
  uuidv4 E (uuidCalls w) ∉ a_id <$> MessageActions (db w) →
  present (db w) messageId (userId u) actionType = false →
  postMessageAction E chatId messageId (Some actionType) u w =
  (mkResponse 200 (JObj [("message", JStr "Action added");
                         ("actionType", JStr actionType);
                         ("active", JBool true)]),
   mkWorld (Sql.withActions (db w)
              (MessageActions (db w) ++
               [mkAction (uuidv4 E (uuidCalls w)) messageId (userId u) actionType
                         (clock w)]))
           (S (clock w)) (S (uuidCalls w))
           (trace w ++ [EvSql (InsertAction (uuidv4 E (uuidCalls w)) messageId
                                            (userId u) actionType)
                              (clock w) true])).
Proof.
  intros Hv Hacc Hu Hfresh Hp.
  pose proof (accessible_message _ _ _ _ Hacc) as Hm.
  unfold postMessageAction, toggle, handle, mbind, M_bind, query, exec, finish, mret,
    M_ret, newUuid, present, existingAction in *.
  rewrite Hv. simpl.
  destruct (messageCheck messageId chatId (userId u) (db w)); [done|]. simpl.
  destruct (filter _ (MessageActions (db w))) eqn:Hf; [|done]. simpl.
  unfold Sql.run, Sql.isIn, Sql.actionTypes. rewrite Hf. simpl in Hv. unfold Sql.isIn in Hv.
  rewrite (bool_decide_eq_false_2 _ Hfresh), (bool_decide_eq_true_2 _ Hm),
    (bool_decide_eq_true_2 _ Hu). simpl.
  by rewrite Hv.
Qed.

End Toggle.

Section ToggleTwice.
Context (E : Env).
Import MessageActionRoute.

Lemma filter_key_removed m u a (l : list ActionRow) :
  filter (Sql.actionKeyIs m u a) (filter (λ r, ¬ Sql.actionKeyIs m u a r) l) = [].
Proof.
  induction l as [|r l IH]; [done|].
  destruct (decide (Sql.actionKeyIs m u a r)) as [Hk|Hk].
  - by rewrite filter_cons_False by tauto.
  - by rewrite filter_cons_True, filter_cons_False.
Qed.

Lemma present_after_remove d m u a :
  present (Sql.withActions d
             (filter (λ r, ¬ Sql.actionKeyIs m u a r) (MessageActions d))) m u a
  = false.
Proof. unfold present. simpl. by rewrite filter_key_removed. Qed.

Lemma present_after_add d id m u a now :
  present (Sql.withActions d (MessageActions d ++ [mkAction id m u a now])) m u a
  = true.
Proof.
  apply present_true_iff. exists (mkAction id m u a now). split; [|done].
  simpl. apply elem_of_app. right. by left.
Qed.

Lemma remove_after_add d id m u a now :
  present d m u a = false →
  filter (λ r, ¬ Sql.actionKeyIs m u a r) (MessageActions d ++ [mkAction id m u a now])
  = MessageActions d.
Proof.
  unfold present. intros Hp.
  destruct (filter (Sql.actionKeyIs m u a) (MessageActions d)) eqn:Hf; [|done].
  rewrite filter_app, (absent_filter _ _ _ _ Hf), filter_cons_False, filter_nil.
  - apply app_nil_r.
  - intros Hn. by apply Hn.
Qed.

(** Outside the toggled key, removing the row and adding it again leaves
    the same keys present. *)
Lemma keys_after_remove_add d id m u a now :
  present d m u a = true →
  ∀ m' u' a',
    present (Sql.withActions d
               (filter (λ r, ¬ Sql.actionKeyIs m u a r) (MessageActions d)
                ++ [mkAction id m u a now])) m' u' a'
    = present d m' u' a'.
Proof.
  intros Hp. apply present_ext. intros m' u' a'. simpl.
  apply present_true_iff in Hp as (r0 & Hr0 & Hk0).
  split.
  - intros (r & Hr & Hk). apply elem_of_app in Hr as [Hr|Hr].
    + apply list_elem_of_filter in Hr as [_ Hr]. by exists r.
    + apply list_elem_of_singleton in Hr as ->.
      destruct Hk as (<- & <- & <-). by exists r0.
  - intros (r & Hr & Hk).
    destruct (decide (Sql.actionKeyIs m u a r)) as [Hkr|Hkr].
    + exists (mkAction id m u a now). split; [apply elem_of_app; right; by left|].
      destruct Hk as (<- & <- & <-). destruct Hkr as (Hk1 & Hk2 & Hk3).
      unfold Sql.actionKeyIs. simpl. by rewrite Hk1, Hk2, Hk3.
    + exists r. split; [|done]. apply elem_of_app. left.
      by apply list_elem_of_filter.
Qed.

Lemma removed_ids m u a (l : list ActionRow) id :
  id ∉ a_id <$> l → id ∉ a_id <$> filter (λ r, ¬ Sql.actionKeyIs m u a r) l.
Proof.
  intros Hn Hin. apply Hn.
  apply list_elem_of_fmap in Hin as (r & -> & Hr).
  apply list_elem_of_filter in Hr as [_ Hr].
  apply list_elem_of_fmap. by exists r.
Qed.

End ToggleTwice.

(** C10. Take a valid action type, a message of a chat of the user, a user
    with a row in Users and a new identifier for the action row.  A call
    answers 200 with active = true exactly when the row (messageId, userId,
    actionType) was absent, and leaves the row present exactly when it was
    absent; a second call answers 200 with the opposite value of active and
    leaves present the same rows (messageId, userId, actionType) as before
    the first call; when the row was absent at first, the table MessageActions
    itself is the same again. *)
Theorem toggle_twice_restores (E : Env) (chatId messageId actionType : string)
    (u : AuthUser) (w w1 w2 : World) (r1 r2 : Response) :
  MessageActionRoute.validAction (Some actionType) = true →
  MessageActionRoute.messageCheck messageId chatId (userId u) (db w) ≠ [] →
  userId u ∈ Sql.userIds (db w) →
  uuidv4 E (uuidCalls w) ∉ a_id <$> MessageActions (db w) →
  MessageActionRoute.postMessageAction E chatId messageId (Some actionType) u w
    = (r1, w1) →
  MessageActionRoute.postMessageAction E chatId messageId (Some actionType) u w1
    = (r2, w2) →
  let before := MessageActionRoute.present (db w) messageId (userId u) actionType in
  status r1 = 200 ∧ MessageActionRoute.activeOf r1 = Some (negb before) ∧
  MessageActionRoute.present (db w1) messageId (userId u) actionType = negb before ∧
  status r2 = 200 ∧ MessageActionRoute.activeOf r2 = Some before ∧
  (∀ m' u' a', MessageActionRoute.present (db w2) m' u' a'
               = MessageActionRoute.present (db w) m' u' a') ∧
  (before = false → MessageActions (db w2) = MessageActions (db w)).
Proof.
  intros Hv Hacc Hu Hfresh H1 H2 before. subst before.
  destruct (MessageActionRoute.present (db w) messageId (userId u) actionType) eqn:Hp.
  - rewrite toggle_present in H1 by done. injection H1 as <- <-.
    rewrite toggle_absent in H2;
      [|done|done|done|by apply removed_ids|by apply present_after_remove].
    injection H2 as <- <-. simpl.
    split_and!; try done.
    + apply present_after_remove.
    + intros m' u' a'.
      eapply eq_trans; [|eapply keys_after_remove_add; exact Hp]. reflexivity.
  - rewrite toggle_absent in H1 by done. injection H1 as <- <-.
    rewrite toggle_present in H2; [|done|done|by apply present_after_add].
    injection H2 as <- <-. simpl.
    split_and!; try done.
    + apply present_after_add.
    + intros m' u' a'. unfold MessageActionRoute.present. simpl.
      by rewrite remove_after_add.
    + intros _. by apply remove_after_add.
Qed.

(** Alice toggles her 'like' on the answer twice: removed, added again, and
    the same rows are present as before. *)
Lemma toggle_twice_restores_witness :
  let like := MessageActionRoute.postMessageAction Scenario.production
                Scenario.chatAlice Scenario.answer (Some "like") Scenario.alice in
  MessageActionRoute.activeOf (like Scenario.world).1 = Some false ∧
  MessageActionRoute.activeOf (like (like Scenario.world).2).1 = Some true ∧
  ∀ m' u' a',
    MessageActionRoute.present (db (like (like Scenario.world).2).2) m' u' a'
    = MessageActionRoute.present Scenario.database m' u' a'.
Proof.
  intros like.
  assert ("alice" ∈ Sql.userIds Scenario.database) as Hu by (by left).
  assert (Scenario.uuid 0 ∉ a_id <$> MessageActions Scenario.database) as Hfresh.
  { vm_compute. intros H. repeat (apply elem_of_cons in H as [H|H]; [discriminate|]).
    by apply elem_of_nil in H. }
  destruct (toggle_twice_restores Scenario.production Scenario.chatAlice
              Scenario.answer "like" Scenario.alice Scenario.world
              (like Scenario.world).2 (like (like Scenario.world).2).2
              (like Scenario.world).1 (like (like Scenario.world).2).1
              eq_refl ltac:(vm_compute; discriminate) Hu Hfresh
              (surjective_pairing _) (surjective_pairing _))
    as (_ & Ha1 & _ & _ & Ha2 & Hk & _).
  split_and!; [exact Ha1|exact Ha2|exact Hk].
Defined.

(** C7, as the code has it. The restriction of message actions to assistant
    messages is made by the dashboard alone: [handleMessageAction] sends no
    request for a message with isUser = true.  The endpoint does not look at
    the role of the message: for a message of any role that belongs to a chat
    of the user, a valid action type whose row is absent, a user with a row in
    Users and a new identifier, the call answers 200 and the row is present
    afterwards. *)
Theorem action_role_checked_by_dashboard_only :
  (∀ (messages : list Dashboard.Message) (messageActions : gmap string Dashboard.Flags)
     (messageId : string) (action : Dashboard.Action) (message : Dashboard.Message),
     List.find (λ msg, bool_decide (Dashboard.id msg = messageId)) messages
       = Some message →
     Dashboard.isUser message = true →
     Dashboard.handleMessageAction messages messageActions messageId action = None) ∧
  (∀ (E : Env) (chatId messageId actionType : string) (u : AuthUser) (w : World)
     (m : MessageRow),
     m ∈ Messages (db w) → m_id m = messageId →
     MessageActionRoute.validAction (Some actionType) = true →
     MessageActionRoute.messageCheck messageId chatId (userId u) (db w) ≠ [] →
     userId u ∈ Sql.userIds (db w) →
     uuidv4 E (uuidCalls w) ∉ a_id <$> MessageActions (db w) →
     MessageActionRoute.present (db w) messageId (userId u) actionType = false →
     let run := MessageActionRoute.postMessageAction E chatId messageId
                  (Some actionType) u w in
     status run.1 = 200 ∧
     MessageActionRoute.present (db run.2) messageId (userId u) actionType = true ∧
     MessageActions (db run.2) =
       MessageActions (db w) ++
       [mkAction (uuidv4 E (uuidCalls w)) messageId (userId u) actionType (clock w)]).
Proof.
  split.
  - intros messages messageActions messageId action message Hfind Huser.
    unfold Dashboard.handleMessageAction. rewrite Hfind, Huser.
    by destruct (_ || _).
  - intros E chatId messageId actionType u w m _ _ Hv Hacc Hu Hfresh Hp run.
    subst run. rewrite toggle_absent by done. simpl.
    split_and!; [done| |done]. apply present_after_add.
Qed.

(** The dashboard sends nothing for the user message of Alice; the endpoint,
    called for that message with 'star', creates the row. *)
Lemma action_role_checked_by_dashboard_only_witness :
  let run := MessageActionRoute.postMessageAction Scenario.production
               Scenario.chatAlice Scenario.question (Some "star") Scenario.alice
               Scenario.world in
  Dashboard.handleMessageAction
    [Dashboard.mkMessage Scenario.question "hello" true "10:00:00"] ∅
    Scenario.question Dashboard.starred = None ∧
  MessageActionRoute.present (db run.2) Scenario.question "alice" "star" = true.
Proof.
  intros run.
  destruct action_role_checked_by_dashboard_only as [Hui Hapi].
  split.
  - exact (Hui [Dashboard.mkMessage Scenario.question "hello" true "10:00:00"] ∅
               Scenario.question Dashboard.starred
               (Dashboard.mkMessage Scenario.question "hello" true "10:00:00")
               eq_refl eq_refl).
  - assert (Scenario.uuid 0 ∉ a_id <$> MessageActions Scenario.database) as Hfresh.
    { vm_compute. intros H.
      repeat (apply elem_of_cons in H as [H|H]; [discriminate|]).
      by apply elem_of_nil in H. }
    apply (Hapi Scenario.production Scenario.chatAlice Scenario.question "star"
                Scenario.alice Scenario.world
                (mkMessage Scenario.question Scenario.chatAlice "alice" "hello" "user" 3)
                ltac:(by left) eq_refl eq_refl ltac:(vm_compute; discriminate)
                ltac:(by left) Hfresh eq_refl).
Defined.

(** C7, as stated, fails at the endpoint: a 'like' on a message whose role is
    'user' is answered 200 and creates a row in MessageActions. *)
Lemma action_on_user_message_counterexample :
  let run := MessageActionRoute.postMessageAction Scenario.production
               Scenario.chatAlice Scenario.question (Some "like") Scenario.alice
               Scenario.world in
  mkMessage Scenario.question Scenario.chatAlice "alice" "hello" "user" 3
    ∈ Messages Scenario.database ∧
  status run.1 = 200 ∧
  MessageActions (db run.2) =
    MessageActions Scenario.database ++
    [mkAction (Scenario.uuid 0) Scenario.question "alice" "like" 10].
Proof.
  intros run. split_and!; [by left|reflexivity|reflexivity].
Qed.

(* ===================================================================== *)
(** ** Service initialisation *)
(* ===================================================================== *)

Section Adapters.
Context (env : gmap string string) (sdk : Azure.Sdk) (c : Azure.Clients).
Import Azure.

Lemma envOr_missing key : missing env key → envOr env key = EmptyString.
Proof.
  unfold missing, envOr, JS.truthy, JS.orElse.
  destruct (env !! key) as [s|]; [|done]. by destruct (JS.nonEmpty s).
Qed.

Lemma blob_never_throws : (initializeBlobStorage env sdk c).1 = Returned.
Proof.
  unfold initializeBlobStorage.
  repeat match goal with
  | |- context [if ?b then _ else _] => destruct b
  | |- context [match ?x with Some _ => _ | None => _ end] => destruct x
  end; reflexivity.
Qed.

Lemma appConfig_never_throws : (initializeAppConfiguration env sdk c).1 = Returned.
Proof.
  unfold initializeAppConfiguration.
  repeat match goal with
  | |- context [if ?b then _ else _] => destruct b
  | |- context [match ?x with Some _ => _ | None => _ end] => destruct x
  end; reflexivity.
Qed.

Lemma sql_fails_fast :
  missing env "SQL_SERVER" ∨ missing env "SQL_DATABASE" ∨
  missing env "SQL_USERNAME" ∨ missing env "SQL_PASSWORD" →
  initializeSQLDatabase env sdk c
  = (Thrown "Missing required SQL database configuration in environment variables", c).
Proof.
  unfold initializeSQLDatabase, sqlConfig. simpl.
  intros [H|[H|[H|H]]]; rewrite (envOr_missing _ H); simpl; by rewrite ?orb_true_r.
Qed.

Lemma openAI_fails_fast :
  missing env "AZURE_OPENAI_ENDPOINT" ∨ missing env "AZURE_OPENAI_API_KEY" →
  initializeOpenAI env sdk c
  = (Thrown "Azure OpenAI configuration missing in environment variables", c).
Proof.
  unfold initializeOpenAI.
  intros [H|H]; rewrite (envOr_missing _ H); simpl; by rewrite ?orb_true_r.
Qed.

End Adapters.

(** C8. The Blob Storage adapter and the App Configuration adapter never
    throw, and they install the mock client when their configuration is
    absent (no storage account name, or neither a connection string nor an
    account key; no App Configuration connection string): the adapter
    returns, its client is the mock afterwards, and the three other clients
    are as before.  The SQL adapter and the OpenAI adapter throw, and install
    no client, when one of their required environment variables is
    missing. *)
Theorem adapters_mock_or_fail_fast (env : gmap string string) (sdk : Azure.Sdk)
    (c : Azure.Clients) :
  (Azure.initializeBlobStorage env sdk c).1 = Azure.Returned ∧
  (missing env "AZURE_STORAGE_ACCOUNT_NAME" ∨
   (missing env "AZURE_STORAGE_CONNECTION_STRING" ∧
    missing env "AZURE_STORAGE_ACCOUNT_KEY") →
   let after := (Azure.initializeBlobStorage env sdk c).2 in
   Azure.blobServiceClient after = Some Azure.MockBlob ∧
   Azure.sqlPool after = Azure.sqlPool c ∧
   Azure.appConfigClient after = Azure.appConfigClient c ∧
   Azure.openAIClient after = Azure.openAIClient c)
  ∧
  (Azure.initializeAppConfiguration env sdk c).1 = Azure.Returned ∧
  (missing env "AZURE_APP_CONFIG_CONNECTION_STRING" →
   let after := (Azure.initializeAppConfiguration env sdk c).2 in
   Azure.appConfigClient after = Some Azure.MockAppConfig ∧
   Azure.sqlPool after = Azure.sqlPool c ∧
   Azure.blobServiceClient after = Azure.blobServiceClient c ∧
   Azure.openAIClient after = Azure.openAIClient c)
  ∧
  (missing env "SQL_SERVER" ∨ missing env "SQL_DATABASE" ∨
   missing env "SQL_USERNAME" ∨ missing env "SQL_PASSWORD" →
   Azure.initializeSQLDatabase env sdk c
   = (Azure.Thrown "Missing required SQL database configuration in environment variables",
      c))
  ∧
  (missing env "AZURE_OPENAI_ENDPOINT" ∨ missing env "AZURE_OPENAI_API_KEY" →
   Azure.initializeOpenAI env sdk c
   = (Azure.Thrown "Azure OpenAI configuration missing in environment variables", c)).
Proof.
  split_and!.
  - apply blob_never_throws.
  - unfold Azure.initializeBlobStorage, missing.
    intros [Hn|[Hc Hk]].
    + by rewrite Hn.
    + rewrite Hc, Hk, andb_false_r.
      by destruct (JS.truthy (env !! "AZURE_STORAGE_ACCOUNT_NAME")).
  - apply appConfig_never_throws.
  - unfold Azure.initializeAppConfiguration, missing. intros Hc.
    by rewrite Hc, orb_true_r.
  - apply sql_fails_fast.
  - apply openAI_fails_fast.
Qed.

(** With an empty environment: two mock clients, and no SQL or OpenAI client. *)
Lemma adapters_mock_or_fail_fast_witness :
  Azure.blobServiceClient
    (Azure.initializeBlobStorage ∅ Scenario.sdk Scenario.emptyClients).2
  = Some Azure.MockBlob ∧
  Azure.appConfigClient
    (Azure.initializeAppConfiguration ∅ Scenario.sdk Scenario.emptyClients).2
  = Some Azure.MockAppConfig ∧
  (Azure.initializeSQLDatabase ∅ Scenario.sdk Scenario.emptyClients).2
  = Scenario.emptyClients ∧
  (Azure.initializeOpenAI ∅ Scenario.sdk Scenario.emptyClients).2
  = Scenario.emptyClients.
Proof.
  destruct (adapters_mock_or_fail_fast ∅ Scenario.sdk Scenario.emptyClients)
    as (_ & Hb & _ & Ha & Hs & Ho).
  split_and!.
  - apply Hb. left. reflexivity.
  - apply Ha. reflexivity.
  - rewrite Hs; [reflexivity|]. left. reflexivity.
  - rewrite Ho; [reflexivity|]. left. reflexivity.
Defined.

(** [initializeAzureServices] swallows the error of an adapter and skips the
    adapters after it: with the SQL configuration missing it returns, and no
    Blob Storage, App Configuration or OpenAI client has been installed. *)
Lemma orchestrator_stops_at_first_throw (env : gmap string string) (sdk : Azure.Sdk)
    (c : Azure.Clients) :
  missing env "SQL_SERVER" →
  Azure.initializeAzureServices env sdk c = (Azure.Returned, c).
Proof.
  intros H. unfold Azure.initializeAzureServices.
  rewrite sql_fails_fast by (by left). reflexivity.
Qed.

(** With the whole configuration present and the SDK calls succeeding, the
    four adapters install real clients. *)
Example configured_adapters_sample :
  let env : gmap string string :=
    list_to_map [("SQL_SERVER", "db.example.org"); ("SQL_DATABASE", "aiva");
                 ("SQL_USERNAME", "svc"); ("SQL_PASSWORD", "secret");
                 ("AZURE_STORAGE_ACCOUNT_NAME", "store");
                 ("AZURE_STORAGE_ACCOUNT_KEY", "key");
                 ("AZURE_APP_CONFIG_CONNECTION_STRING", "Endpoint=x");
                 ("AZURE_OPENAI_ENDPOINT", "https://ai.example.org/");
                 ("AZURE_OPENAI_API_KEY", "k")] in
  let c := (Azure.initializeAzureServices env Scenario.sdk Scenario.emptyClients).2 in
  Azure.blobServiceClient c
  = Some (Azure.BlobSharedKey "https://store.blob.core.windows.net" "store" "key") ∧
  Azure.appConfigClient c = Some (Azure.AppConfigFromConnectionString "Endpoint=x") ∧
  Azure.openAIClient c = Some (Azure.AzureOpenAI "https://ai.example.org" "k") ∧
  Azure.server <$> Azure.sqlPool c = Some "db.example.org".
Proof. vm_compute. by split_and!. Qed.
(* ===================================================================== *)
(** ** Strings and numerals *)
(* ===================================================================== *)

Section Strings.

Lemma append_cons c a b : String c a +:+ b = String c (a +:+ b).
Proof. reflexivity. Qed.

Lemma toLowerCase_append a b :
  JSLib.toLowerCase (a +:+ b) = JSLib.toLowerCase a +:+ JSLib.toLowerCase b.
Proof. induction a as [|c a IH]; simpl; [done|]. by rewrite IH. Qed.

Lemma prefix_append k b : String.prefix k (k +:+ b) = true.
Proof.
  induction k as [|c k IH]; simpl; [by destruct b|].
  destruct (Ascii.ascii_dec c c); [done|congruence].
Qed.

Lemma includes_prefix s k : String.prefix k s = true → JS.includes s k = true.
Proof. destruct s; simpl; by intros ->. Qed.

Lemma includes_middle a k b : JS.includes (a +:+ k +:+ b) k = true.
Proof.
  induction a as [|c a IH].
  - change (JS.includes (k +:+ b) k = true). apply includes_prefix, prefix_append.
  - change (JS.includes (String c (a +:+ k +:+ b)) k = true).
    cbn [JS.includes]. rewrite IH. apply orb_true_r.
Qed.

Lemma length_substring0 n s :
  String.length (JS.substring0 n s) = min n (String.length s).
Proof.
  unfold JS.substring0. revert s. induction n as [|n IH]; intros s.
  - by destruct s.
  - destruct s as [|c s]; simpl; [done|]. by rewrite IH.
Qed.

Lemma substring0_prefix n s : ∃ rest, s = JS.substring0 n s +:+ rest.
Proof.
  unfold JS.substring0. revert s. induction n as [|n IH]; intros s.
  - exists s. by destruct s.
  - destruct s as [|c s]; simpl; [by exists EmptyString|].
    destruct (IH s) as [rest Hr]. exists rest. rewrite append_cons. by f_equal.
Qed.

Lemma append_empty_r s : s +:+ EmptyString = s.
Proof. induction s as [|c s IH]; [done|]. by rewrite append_cons, IH. Qed.

Lemma length_append a b : String.length (a +:+ b) = String.length a + String.length b.
Proof. induction a as [|c a IH]; [done|]. rewrite append_cons. simpl. by rewrite IH. Qed.

End Strings.

Section Digits.

Lemma pretty_N_char_digit x : isDigit (pretty_N_char x) = true.
Proof.
  unfold pretty_N_char. destruct x as [|p]; [done|].
  do 4 (destruct p as [p|p|]; try done).
Qed.

Lemma pretty_N_go_digits x s :
  ∃ d, pretty_N_go x s = d +:+ s ∧ forallb isDigit (units d) = true.
Proof.
  revert s. induction (N.lt_wf_0 x) as [x _ IH]; intros s.
  destruct (decide (0 < x)%N) as [Hx|Hx].
  - rewrite pretty_N_go_step by done.
    destruct (IH (x `div` 10)%N (N.div_lt x 10 Hx eq_refl)
                 (String (pretty_N_char (x `mod` 10)) s)) as (d & -> & Hd).
    exists (d +:+ String (pretty_N_char (x `mod` 10)) EmptyString). split.
    + clear. induction d as [|c d IHd]; [done|].
      rewrite !append_cons. by f_equal.
    + clear -Hd. induction d as [|c d IHd]; simpl.
      * by rewrite pretty_N_char_digit.
      * rewrite ?append_cons. simpl in *.
        apply andb_true_iff in Hd as [-> Hd]. by apply IHd.
  - assert (x = 0%N) as -> by lia. by exists EmptyString.
Qed.

(** The decimal numeral of an index is a non-empty run of digits. *)
Lemma pretty_nat_digits (n : nat) :
  ∃ c d, pretty n = String c d ∧ isDigit c = true ∧ forallb isDigit (units d) = true.
Proof.
  unfold pretty, pretty_nat, pretty, pretty_N.
  destruct (decide (N.of_nat n = 0%N)) as [_|Hn]; [by exists "0"%char, EmptyString|].
  destruct (pretty_N_go_digits (N.of_nat n) EmptyString) as (d & Hd & Hall).
  rewrite Hd, append_empty_r. destruct d as [|c d].
  - exfalso. rewrite pretty_N_go_step in Hd by lia.
    destruct (pretty_N_go_digits (N.of_nat n `div` 10)
                (String (pretty_N_char (N.of_nat n `mod` 10)) EmptyString))
      as (d' & Hd' & _).
    rewrite Hd' in Hd. by destruct d'.
  - simpl in Hall. apply andb_true_iff in Hall as [? ?]. by exists c, d.
Qed.

(** A string without digits that is a prefix of [a ++ c :: b], with [c] a
    digit, is a prefix of [a]. *)
Lemma prefix_before_digit k a c b :
  forallb (λ x, negb (isDigit x)) (units k) = true → isDigit c = true →
  String.prefix k (a +:+ String c b) = String.prefix k a.
Proof.
  intros Hk Hc. revert a. induction k as [|x k IH]; intros a.
  - by destruct a.
  - simpl in Hk. apply andb_true_iff in Hk as [Hx Hk].
    destruct a as [|y a].
    + change (EmptyString +:+ String c b) with (String c b). simpl.
      destruct (Ascii.ascii_dec x c) as [->|]; [|done].
      by rewrite Hc in Hx.
    + rewrite append_cons. simpl. destruct (Ascii.ascii_dec x y); [|done].
      by apply IH.
Qed.

Lemma includes_around_digit k a c b :
  forallb (λ x, negb (isDigit x)) (units k) = true → isDigit c = true →
  JS.includes (a +:+ String c b) k = JS.includes a k || JS.includes b k.
Proof.
  intros Hk Hc. induction a as [|y a IH].
  - change (EmptyString +:+ String c b) with (String c b).
    cbn [JS.includes].
    rewrite <-(prefix_before_digit k EmptyString c b Hk Hc).
    change (EmptyString +:+ String c b) with (String c b).
    by rewrite orb_false_r.
  - rewrite append_cons. cbn [JS.includes].
    rewrite IH, orb_assoc. f_equal. f_equal.
    rewrite <-append_cons. by apply prefix_before_digit.
Qed.

Lemma includes_after_digits k d b :
  forallb (λ x, negb (isDigit x)) (units k) = true → JS.nonEmpty k = true →
  forallb isDigit (units d) = true →
  JS.includes (d +:+ b) k = JS.includes b k.
Proof.
  intros Hk Hne Hd. induction d as [|c d IH]; [done|].
  simpl in Hd. apply andb_true_iff in Hd as [Hc Hd].
  rewrite append_cons.
  change (String c (d +:+ b)) with (EmptyString +:+ String c (d +:+ b)).
  rewrite includes_around_digit, IH by done.
  by destruct k.
Qed.

(** A substring without digits occurs around a numeral only if it occurs
    before it or after it. *)
Lemma includes_around_numeral k a (n : nat) b :
  forallb (λ x, negb (isDigit x)) (units k) = true → JS.nonEmpty k = true →
  JS.includes (a +:+ pretty n +:+ b) k = JS.includes a k || JS.includes b k.
Proof.
  intros Hk Hne. destruct (pretty_nat_digits n) as (c & d & -> & Hc & Hd).
  rewrite append_cons, includes_around_digit by done.
  by rewrite includes_after_digits.
Qed.

End Digits.

(* ===================================================================== *)
(** ** The error text of the dashboard *)
(* ===================================================================== *)

Section ApiErrors.




End ApiErrors.



(** An error without a message, or with an empty one, which the API client
    never throws, gets the default text. *)
Lemma response_text_default :
  Dashboard.responseText None = Dashboard.defaultErrorText ∧
  Dashboard.responseText (Some "") = Dashboard.defaultErrorText.
Proof. by split. Qed.

Example response_text_samples :
  Dashboard.responseText (Some "Request timed out: model overloaded")
  = "The AI service is taking too long to respond. Please try again later." ∧
  Dashboard.responseText (Some "model overloaded")
  = "The AI service is currently overloaded. Please wait a moment and try again." ∧
  Dashboard.responseText (Some "HTTP 502: Bad Gateway") = "HTTP 502: Bad Gateway" ∧
  Dashboard.responseText None = Dashboard.defaultErrorText.
Proof. by split_and!. Qed.
(* ===================================================================== *)
(** ** POST /chat/message up to the chat *)
(* ===================================================================== *)

Section Stages.
Context (E : Env).
Import ChatRoutes.

Lemma validateRequest_world b w : (validateRequest b w).2 = w.
Proof.
  unfold validateRequest. destruct (_ && _); [done|].
  destruct (b_files b) as [[l|[]]|]; try done. by destruct (checkFiles 0 l).
Qed.

Lemma checkFiles_error index l fields :
  checkFiles index l = Some fields →
  ∃ rest, fields = ("error", JStr "Invalid file format") :: rest.
Proof.
  revert index. induction l as [|file rest IH]; intros index; [done|]. simpl.
  destruct (negb (JS.truthy (f_originalName file))); [intros [= <-]; by eexists|].
  destruct (negb (JS.truthy (f_url file))); [intros [= <-]; by eexists|apply IH].
Qed.

(** A response of the validations at the head is not the answer to a
    [files] that is not an array. *)
Lemma validateRequest_ret b w r w1 :
  validateRequest b w = (Ret r, w1) → r ≠ filesNotArray.
Proof.
  unfold validateRequest, respond, throw. destruct (_ && _); [by intros [= <- _]|].
  destruct (b_files b) as [[l|[]]|]; try done.
  destruct (checkFiles 0 l) as [fields|] eqn:Hc; [|done].
  apply checkFiles_error in Hc as [rest ->]. by intros [= <- _].
Qed.

Lemma run_workspace_tables s now ok d d1 :
  workspaceEvent (EvSql s now ok) → Sql.run now s d = Some d1 →
  Chats d1 = Chats d ∧ Messages d1 = Messages d.
Proof.
  intros Hs Hrun. unfold Sql.run in Hrun.
  destruct s; simpl in Hs; try done;
    match type of Hrun with (if ?c then _ else _) = _ => destruct c end;
    try discriminate; by injection Hrun as <-.
Qed.

Lemma replay_workspace_tables evs d :
  Forall workspaceEvent evs →
  Chats (replay evs d) = Chats d ∧ Messages (replay evs d) = Messages d.
Proof.
  intros Hall. revert d. induction Hall as [|e evs He Hall IH]; intros d; [done|].
  simpl. destruct e as [s now [|]|]; [|apply IH..].
  destruct (Sql.run now s d) as [d1|] eqn:Hrun; [|apply IH].
  destruct (run_workspace_tables _ _ _ _ _ He Hrun) as [Hc Hm].
  destruct (IH d1) as [Hc' Hm']. by rewrite Hc', Hm', Hc, Hm.
Qed.

Lemma ensureUser_workspace u :
  spec workspaceEvent (λ _, True) (λ r, status r = 404) (ensureUser E u).
Proof. unfold ensureUser. spec_auto. Qed.

Lemma resolveWorkspace_workspace u ws :
  spec workspaceEvent (λ _, True) (λ _, False) (resolveWorkspace E u ws).
Proof. unfold resolveWorkspace, createDefaultWorkspace. spec_auto. Qed.

(** With a chatId in the request no chat is created: the id is taken as it
    is. *)
Lemma resolveChat_given u b ws w :
  JS.truthy (b_chatId b) = true →
  ∃ title, resolveChat E u b ws w = (Val (interp (b_chatId b), title), w).
Proof.
  intros Ht. unfold resolveChat, mbind, M_bind, query, mret, M_ret. rewrite Ht. simpl.
  destruct (filter _ _); by eexists.
Qed.

(** Without a chatId a chat is created under a new id. *)
Lemma resolveChat_new u b ws w chat w1 :
  JS.truthy (b_chatId b) = false →
  resolveChat E u b ws w = (Val chat, w1) →
  (chat.1 ∉ Sql.chatIds (db w)) ∧
  Messages (db w1) = Messages (db w) ∧
  Chats (db w1) = Chats (db w) ++ [autoChat chat.1 chat.2 (userId u) ws (clock w)].
Proof.
  intros Ht. unfold resolveChat, mbind, M_bind, newUuid, exec, mret, M_ret.
  rewrite Ht. simpl.
  destruct (Sql.run _ _ _) as [d1|] eqn:Hrun; [|done].
  intros [= <- <-]. simpl. unfold Sql.run in Hrun.
  destruct (negb (Sql.isIn _ (Sql.chatIds (db w)))) eqn:Hid; [|done].
  destruct (_ && _); [|done]. injection Hrun as <-.
  apply negb_true_iff, bool_decide_eq_false in Hid. by split_and!.
Qed.

Lemma resolveChat_no_response u b ws :
  spec setupEvent (λ _, True) (λ _, False) (resolveChat E u b ws).
Proof. apply resolveChat_spec. Qed.

(** [ensureUser] sends its 404 before anything is written. *)
Lemma ensureUser_ret u w r w1 :
  ensureUser E u w = (Ret r, w1) → w1 = w ∧ status r = 404.
Proof.
  unfold ensureUser, mbind, M_bind, query, exec, respond, mret, M_ret. simpl.
  repeat match goal with
  | |- context [if ?b then _ else _] => destruct b; simpl
  | |- context [match Sql.run ?a ?b ?c with _ => _ end] =>
      destruct (Sql.run a b c); simpl
  end; try done; by intros [= <- <-].
Qed.

Lemma postMessage_stages req w :
  postMessage E req w =
  handle (chat ← upToChat E req;
          requireArray (body req);;
          content ← requireContent E (body req);
          persistAndRespond E (user req) chat.1 content)
         sendMessageFailed w.
Proof.
  unfold postMessage, prepare, upToChat, handle, mbind, M_bind.
  destruct (validateRequest (body req) w) as [[[]|r|e] w1]; [|done..].
  destruct (ensureUser E (user req) w1) as [[[]|r|e] w2]; [|done..].
  destruct (resolveWorkspace E (user req) _ w2) as [[ws|r|e] w3]; [|done..].
  destruct (resolveChat E (user req) (body req) ws w3) as [[chat|r|e] w4]; [|done..].
  destruct (requireArray (body req) w4) as [[[]|r|e] w5]; [|done..].
  by destruct (requireContent E (body req) w5) as [[c|r|e] w6].
Qed.

(** When the stages up to the chat fall through, the request is validated,
    Messages is as before, and the chat is the chat of the request, with
    Chats as before, or a chat created under a new id. *)
Lemma upToChat_val req w chat w1 :
  upToChat E req w = (Val chat, w1) →
  validated (body req) ∧ Messages (db w1) = Messages (db w) ∧
  if JS.truthy (b_chatId (body req)) then
    chat.1 = interp (b_chatId (body req)) ∧ Chats (db w1) = Chats (db w)
  else
    (chat.1 ∉ Sql.chatIds (db w)) ∧
    ∃ ws now,
      Chats (db w1) = Chats (db w) ++ [autoChat chat.1 chat.2 (userId (user req)) ws now].
Proof.
  unfold upToChat, mbind, M_bind.
  pose proof (validateRequest_world (body req) w) as Hw0.
  pose proof (validateRequest_spec (λ _, True) (body req) w) as (_ & _ & _ & _ & Hv).
  destruct (validateRequest (body req) w) as [[[]|r|e] w0]; simpl in *; [|done..].
  subst w0.
  destruct (ensureUser_workspace (user req) w) as (evs1 & _ & Hd1 & HP1 & _).
  destruct (replay_workspace_tables evs1 (db w) HP1) as [Hc1 Hm1]. rewrite Hd1 in *.
  destruct (ensureUser E (user req) w) as [[[]|r|e] w2]; simpl in *; [|done..].
  destruct (resolveWorkspace_workspace (user req) (b_workspaceId (body req)) w2)
    as (evs2 & _ & Hd2 & HP2 & _).
  destruct (replay_workspace_tables evs2 (db w2) HP2) as [Hc2 Hm2]. rewrite Hd2 in *.
  destruct (resolveWorkspace E (user req) _ w2) as [[ws|r|e] w3]; simpl in *;
    [|done..].
  destruct (JS.truthy (b_chatId (body req))) eqn:Ht.
  - destruct (resolveChat_given (user req) (body req) ws w3 Ht) as [title ->].
    intros [= <- <-]. simpl. by rewrite Hc2, Hm2, Hc1, Hm1.
  - intros Hchat.
    apply (resolveChat_new _ _ _ _ _ _ Ht) in Hchat as (Hnew & Hm & Hc).
    unfold Sql.chatIds in *. rewrite Hc2, Hc1 in *. rewrite Hm, Hm2, Hm1.
    split_and!; [done..|]. by eexists _, _.
Qed.

(** A response sent by the stages up to the chat is sent before anything is
    written, and is the 400 of a validation or the 404 of the user check. *)
Lemma upToChat_ret req w r w1 :
  upToChat E req w = (Ret r, w1) →
  w1 = w ∧ (status r = 400 ∨ status r = 404) ∧ r ≠ filesNotArray.
Proof.
  unfold upToChat, mbind, M_bind.
  pose proof (validateRequest_world (body req) w) as Hw0.
  pose proof (validateRequest_spec (λ _, True) (body req) w) as (_ & _ & _ & _ & Hv).
  destruct (validateRequest (body req) w) as [[[]|r0|e] w0] eqn:Hval;
    simpl in *; subst w0; [| |done].
  2: { intros [= <- <-]. split_and!; [done|by left|].
       by eapply validateRequest_ret. }
  destruct (ensureUser E (user req) w) as [[[]|r0|e] w2] eqn:Hu; [| |done].
  2: { apply ensureUser_ret in Hu as [-> Hs]. intros [= <- <-].
       split_and!; [done|by right|]. intros ->. done. }
  destruct (resolveWorkspace_workspace (user req) (b_workspaceId (body req)) w2)
    as (evs2 & _ & _ & _ & Ho2).
  destruct (resolveWorkspace E (user req) _ w2) as [[ws|r0|e] w3]; simpl in *;
    [|done..].
  destruct (resolveChat_no_response (user req) (body req) ws w3)
    as (evs3 & _ & _ & _ & Ho3).
  by destruct (resolveChat E (user req) (body req) ws w3) as [[c|r0|e] w4].
Qed.

Lemma prepare_stages req w :
  prepare E req w =
  (chat ← upToChat E req;
   requireArray (body req);;
   content ← requireContent E (body req);
   mret (chat.1, content)) w.
Proof.
  unfold prepare, upToChat, mbind, M_bind.
  destruct (validateRequest (body req) w) as [[[]|r|e] w1]; [|done..].
  destruct (ensureUser E (user req) w1) as [[[]|r|e] w2]; [|done..].
  destruct (resolveWorkspace E (user req) _ w2) as [[ws|r|e] w3]; [|done..].
  by destruct (resolveChat E (user req) (body req) ws w3) as [[chat|r|e] w4].
Qed.

(** When everything before the first message falls through: the content
    is the assembled content, [files] is absent or an array, Messages is as
    before, and the chat is the chat of the request or a new one. *)
Lemma prepare_val req w chat content w1 :
  prepare E req w = (Val (chat, content), w1) →
  content = userMessageContent E (body req) ∧
  validated (body req) ∧ arrayOrAbsent (body req) ∧
  Messages (db w1) = Messages (db w) ∧
  if JS.truthy (b_chatId (body req)) then
    chat = interp (b_chatId (body req)) ∧ Chats (db w1) = Chats (db w)
  else
    (chat ∉ Sql.chatIds (db w)) ∧
    ∃ title ws now,
      Chats (db w1) = Chats (db w) ++ [autoChat chat title (userId (user req)) ws now].
Proof.
  rewrite prepare_stages. unfold mbind at 1, M_bind at 1.
  pose proof (upToChat_val req w) as Hval.
  destruct (upToChat E req w) as [[c|r|e] w0]; [|done..].
  destruct (Hval c w0 eq_refl) as (Hv & Hm & Hc).
  unfold mbind, M_bind.
  destruct (requireArray_cases (body req) w0) as [[Ha ->]|[_ ->]]; [|done].
  unfold requireContent. destruct (negb _); [done|].
  intros [= <- <- <-]. split_and!; [done..|].
  destruct (JS.truthy (b_chatId (body req))); [done|].
  destruct Hc as (Hnew & ws & now & Hc). split; [done|]. by eexists _, _, _.
Qed.

Lemma postMessage_statements req :
  spec (λ _, True) (λ _, True) (λ _, True)
       (p ← prepare E req; persistAndRespond E (user req) p.1 p.2).
Proof.
  eapply spec_bind with (QV1 := λ _, True).
  - eapply spec_weaken; [apply prepare_spec|done..].
  - intros p _. eapply spec_weaken; [apply persistAndRespond_events|done..].
Qed.

(** The persisting stage answers 200 or 500. *)
Lemma persistAndRespond_status u chat content :
  spec (λ _, True) (λ r, status r = 200) (λ r, status r = 500)
       (persistAndRespond E u chat content).
Proof. unfold persistAndRespond. spec_auto. Qed.

End Stages.
(* ===================================================================== *)
(** ** POST /chat/message: what a request leaves behind *)
(* ===================================================================== *)

Section MessageMore.
Context (E : Env).
Import ChatRoutes.

Lemma nonEmpty_trim s :
  (String.length (JS.trim s) =? 0) = false → JS.nonEmpty (JS.trim s) = true.
Proof. by destruct (JS.trim s). Qed.

(** The content assembled for a request that passed the validations at the
    head of the handler, with a [files] that is absent or an array, is never
    empty: the second check for an empty content cannot fail. *)
Lemma content_nonEmpty b :
  validated b → arrayOrAbsent b → JS.nonEmpty (userMessageContent E b) = true.
Proof.
  intros (Hn & _ & _) Ha. unfold userMessageContent.
  assert (noFiles (b_files b) = true →
          ∃ s, b_message b = Some s ∧ JS.nonEmpty s = true
               ∧ JS.nonEmpty (JS.trim s) = true) as Hmsg.
  { intros Hf. rewrite Hf, andb_true_r in Hn. unfold noMessage in Hn.
    destruct (b_message b) as [s|]; [|done].
    apply orb_false_iff in Hn as [Hs Ht]. apply negb_false_iff in Hs.
    exists s. split_and!; [done..|]. by apply nonEmpty_trim. }
  unfold arrayOrAbsent in Ha.
  destruct (b_files b) as [[[|file rest]|len]|].
  - destruct (Hmsg eq_refl) as (s & -> & -> & Ht). done.
  - match goal with
    | |- context [if JS.nonEmpty ?t then _ else _] => destruct t
    end; by destruct (fileAnalysisAvailable E).
  - by destruct (Ha len).
  - destruct (Hmsg eq_refl) as (s & -> & -> & Ht). done.
Qed.

(** The rows that the history query returns after the insert of a
    message. *)
Lemma chatHistoryOf_rows d chat stored :
  m_chatId stored = chat →
  let d1 := Sql.withMessages d (Messages d ++ [stored]) in
  ∃ rows,
    chatHistoryOf chat d1 = (λ m, mkChatMessage (m_role m) (m_content m)) <$> rows ∧
    historyOf (Messages d ++ [stored]) chat rows ∧
    stored ∈ rows.
Proof.
  intros Hc. simpl. eexists. split; [reflexivity|]. split; [split|].
  - apply merge_sort_Permutation.
  - apply (Sorted_merge_sort createdBefore).
  - rewrite merge_sort_Permutation. apply list_elem_of_filter. split; [done|].
    apply elem_of_app. right. by left.
Qed.

Lemma messagesIn_absent d id :
  (∀ m, m ∈ Messages d → m_chatId m ∈ Sql.chatIds d) → id ∉ Sql.chatIds d →
  messagesIn d id = 0.
Proof.
  intros Hfk Hid. unfold messagesIn.
  destruct (filter _ _) as [|m l] eqn:Hf; [done|].
  assert (m ∈ filter (λ m, m_chatId m = id) (Messages d)) as Hm
    by (rewrite Hf; by left).
  apply list_elem_of_filter in Hm as [<- Hm]. by apply Hfk in Hm.
Qed.

Lemma run_setup_counters s now ok d d1 :
  setupEvent (EvSql s now ok) → Sql.run now s d = Some d1 →
  countersAgree d → countersAgree d1.
Proof.
  intros Hs Hrun [Hfk Hc]. unfold Sql.run in Hrun.
  destruct s; simpl in Hs; try done.
  1-3: match type of Hrun with (if ?c then _ else _) = _ => destruct c end;
       try discriminate; injection Hrun as <-; by split.
  destruct (negb (Sql.isIn id (Sql.chatIds d))) eqn:Hid; [|done].
  destruct (_ && _); [|done]. injection Hrun as <-.
  apply negb_true_iff, bool_decide_eq_false in Hid.
  pose proof (messagesIn_absent d id Hfk Hid) as Hz.
  unfold countersAgree, messagesIn, Sql.chatIds in *. simpl. split.
  - intros m Hm. rewrite fmap_app. apply elem_of_app. left. by apply Hfk.
  - intros c [Hin|Hin]%elem_of_app; [by apply Hc|].
    apply list_elem_of_singleton in Hin as ->. simpl. by rewrite Hz.
Qed.

Lemma replay_setup_counters evs d :
  Forall setupEvent evs → countersAgree d → countersAgree (replay evs d).
Proof.
  intros Hall. revert d. induction Hall as [|e evs He Hall IH]; intros d Hd; [done|].
  simpl. destruct e as [s now [|]|]; [|by apply IH..].
  destruct (Sql.run now s d) as [d1|] eqn:Hrun; [|by apply IH].
  apply IH. by eapply run_setup_counters.
Qed.

(** Two messages stored in a chat and its counter increased by two. *)
Lemma persist_counters d chat m1 m2 now :
  countersAgree d → chat ∈ Sql.chatIds d →
  m_chatId m1 = chat → m_chatId m2 = chat →
  countersAgree
    (mkDb (Users d) (Workspaces d) (bumped now chat <$> Chats d)
          (Messages d ++ [m1; m2]) (MessageActions d)).
Proof.
  intros [Hfk Hc] Hchat H1 H2. unfold countersAgree, messagesIn, Sql.chatIds in *.
  simpl. split.
  - intros m Hm. rewrite <-list_fmap_compose.
    erewrite list_fmap_ext; [|by intros i c _; unfold bumped; simpl;
                               instantiate (1 := c_id); case_bool_decide].
    apply elem_of_app in Hm as [Hm|Hm]; [by apply Hfk|].
    apply elem_of_cons in Hm as [->|Hm]; [congruence|].
    apply list_elem_of_singleton in Hm as ->. congruence.
  - intros c' (c & -> & Hin)%list_elem_of_fmap.
    rewrite filter_app, length_app. unfold bumped. case_bool_decide as Hid; simpl.
    + rewrite !filter_cons_True, filter_nil by congruence. simpl.
      rewrite (Hc c Hin). lia.
    + rewrite !filter_cons_False, filter_nil by congruence. simpl.
      rewrite (Hc c Hin). lia.
Qed.

End MessageMore.

(** X2. Every chat-completion call of POST /chat/message carries the system
    prompt, then the history of the chat as it is in Messages once the user
    message is stored, then the user message once more.  The chat is the
    chat named by the request, or, without a chatId, a chat that did not
    exist before; the user message is stored in it; the history is made of
    the rows of Messages of that chat with the stored user message among
    them, each once, in the order of createdAt, given by role and content.
    So the content of the request is in the prompt twice. *)
Theorem prompt_repeats_user_message (E : Env) (req : Request) (w w' : World)
    (resp : Response) (evs : list Event) messages options result :
  ChatRoutes.postMessage E req w = (resp, w') →
  trace w' = trace w ++ evs →
  EvChatCompletion messages options result ∈ evs →
  ∃ id chat now rows,
    let content := ChatRoutes.userMessageContent E (body req) in
    let stored := mkMessage id chat (userId (user req)) content "user" now in
    (if JS.truthy (b_chatId (body req)) then chat = interp (b_chatId (body req))
     else chat ∉ Sql.chatIds (db w)) ∧
    stored ∈ Messages (db w') ∧
    historyOf (Messages (db w) ++ [stored]) chat rows ∧
    stored ∈ rows ∧
    messages =
      mkChatMessage "system" (getSystemPrompt E)
        :: ((λ m, mkChatMessage (m_role m) (m_content m)) <$> rows)
        ++ [mkChatMessage "user" content].
Proof.
  unfold ChatRoutes.postMessage.
  destruct (prepare_spec E req w) as (pre & Ht & _ & HP & _).
  pose proof (prepare_val E req w) as Hval.
  unfold handle, mbind, M_bind.
  destruct (ChatRoutes.prepare E req w) as [[[chat content]|r|e] w1]; simpl in *.
  2,3: intros [= <- <-] Hevs Hin; rewrite Ht in Hevs;
       apply app_inv_head in Hevs as <-; by apply completion_not_setup in Hin.
  destruct (Hval chat content w1 eq_refl) as (-> & _ & _ & Hm & Hchat).
  assert (if JS.truthy (b_chatId (body req))
          then chat = interp (b_chatId (body req))
          else chat ∉ Sql.chatIds (db w)) as Htie
    by (destruct (JS.truthy (b_chatId (body req))); by destruct Hchat).
  clear Hchat Hval.
  run_handler; intros [= <- <-]; simpl; rewrite Ht, <-?app_assoc;
    intros Hevs; apply app_inv_head in Hevs as <-; intros Hin;
    apply elem_of_app in Hin as [Hin|Hin];
    try (by apply completion_not_setup in Hin);
    repeat (apply elem_of_cons in Hin as [Hin|Hin]; try discriminate);
    try (by apply elem_of_nil in Hin);
    injection Hin as -> -> ->; use_runs;
    match goal with
    | |- context [ChatRoutes.chatHistoryOf chat
                    (Sql.withMessages ?d (_ ++ [?stored]))] =>
        destruct (chatHistoryOf_rows d chat stored eq_refl)
          as (rows & Hh & Hrows & Hstored)
    end;
    simpl in Hh; rewrite Hh; rewrite Hm in Hrows;
    eexists _, chat, _, rows;
    (split_and!; [exact Htie| |exact Hrows|exact Hstored|reflexivity]);
    rewrite ?Hm, <-?app_assoc; apply elem_of_middle.
Qed.

(** Alice starts a new chat: the call of the model has at least three
    messages. *)
Lemma prompt_repeats_user_message_witness :
  let run := ChatRoutes.postMessage Scenario.production Scenario.newChat Scenario.world in
  ∃ messages result,
    EvChatCompletion messages ChatRoutes.completionOptions result ∈ trace run.2 ∧
    3 ≤ length messages.
Proof.
  intros run.
  assert (∃ evs, trace run.2 = trace Scenario.world ++ evs ∧
                 ∃ messages result,
                   EvChatCompletion messages ChatRoutes.completionOptions result ∈ evs)
    as (evs & Ht & messages & result & Hin).
  { eexists. split; [vm_compute; reflexivity|].
    eexists _, _. apply list_elem_of_further, list_elem_of_further, list_elem_of_here. }
  exists messages, result. split.
  { rewrite Ht. apply elem_of_app. by right. }
  destruct (prompt_repeats_user_message Scenario.production Scenario.newChat
              Scenario.world run.2 run.1 evs messages _ result
              (surjective_pairing run) Ht Hin)
    as (id & chat & now & rows & _ & _ & _ & Hs & ->).
  simpl. rewrite length_app, length_fmap. simpl.
  apply list_elem_of_In in Hs. destruct rows; [by destruct Hs|simpl; lia].
Defined.

(** X3. A request answered with status 200 keeps the counters of the chats in
    step with Messages: when every message belongs to a chat and every
    messageCount is the number of messages of its chat before the request, so
    it is afterwards. *)
Theorem success_keeps_counters (E : Env) (req : Request) (w w' : World)
    (resp : Response) :
  ChatRoutes.postMessage E req w = (resp, w') →
  status resp = 200 →
  countersAgree (db w) →
  countersAgree (db w').
Proof.
  unfold ChatRoutes.postMessage. intros Hrun Hs Hagree. revert Hrun Hs.
  destruct (prepare_spec E req w) as (pre & Ht & Hd & HP & Ho).
  pose proof (replay_setup_counters pre (db w) HP Hagree) as H1.
  rewrite Hd in H1.
  unfold handle, mbind, M_bind.
  destruct (ChatRoutes.prepare E req w) as [[[chat content]|r|e] w1]; simpl in *.
  2: { intros [= <- <-] H. rewrite H in Ho. by destruct Ho. }
  2: { by intros [= <- <-]. }
  run_handler; intros [= <- <-]; try done. intros _.
  repeat match goal with
  | H : Sql.run _ (InsertMessage _ _ _ _ _) _ = Some _ |- _ =>
      apply run_insert_message in H as (-> & ? & _)
  | H : Sql.run _ (UpdateChatCounters _) _ = Some _ |- _ =>
      apply run_update_counters in H as ->
  end; simpl in *.
  rewrite <-app_assoc. simpl.
  by apply (persist_counters (db w1) chat).
Qed.

(** Alice starts a new chat in the sample installation, whose counters
    agree with Messages. *)
Lemma success_keeps_counters_witness :
  let run := ChatRoutes.postMessage Scenario.production Scenario.newChat Scenario.world in
  countersAgree (db run.2).
Proof.
  intros run.
  apply (success_keeps_counters Scenario.production Scenario.newChat
           Scenario.world run.2 run.1 (surjective_pairing run)).
  - vm_compute. reflexivity.
  - split.
    + intros m Hm. simpl in Hm.
      repeat (apply elem_of_cons in Hm as [->|Hm]; [vm_compute; by left|]).
      by apply elem_of_nil in Hm.
    + intros c Hc. simpl in Hc.
      repeat (apply elem_of_cons in Hc as [->|Hc]; [vm_compute; reflexivity|]).
      by apply elem_of_nil in Hc.
Defined.
(* ===================================================================== *)
(** ** POST /chat: the workspace of a new chat *)
(* ===================================================================== *)

Section CreateChat.
Context (E : Env).
Import ChatRouter.

Lemma run_users_only now s d d1 :
  ¬ leavesUsers (EvSql s now true) → Sql.run now s d = Some d1 →
  Workspaces d1 = Workspaces d ∧ Chats d1 = Chats d.
Proof.
  intros Hs Hrun. unfold Sql.run in Hrun.
  destruct s; simpl in Hs; try tauto;
    match type of Hrun with (if ?c then _ else _) = _ => destruct c end;
    try discriminate; by injection Hrun as <-.
Qed.

(** The repair of the mock user touches Users only and never answers the
    request. *)
Lemma repairUser_tables u w :
  Workspaces (db (repairUser E u w).2) = Workspaces (db w) ∧
  Chats (db (repairUser E u w).2) = Chats (db w) ∧
  ∀ r, (repairUser E u w).1 ≠ Ret r.
Proof.
  unfold repairUser, mbind, M_bind, query, exec. simpl.
  destruct (Sql.isNil _);
    destruct (Sql.run _ _ _) as [d1|] eqn:Hrun; simpl; try done;
    apply run_users_only in Hrun as [? ?]; simpl; auto.
Qed.

Lemma guarded_repair_tables u (c : bool) w :
  let m : M unit := if c then repairUser E u else mret tt in
  Workspaces (db (m w).2) = Workspaces (db w) ∧
  Chats (db (m w).2) = Chats (db w) ∧
  (∀ r, (m w).1 ≠ Ret r) ∧
  (c = false → m w = (Val tt, w)).
Proof.
  destruct c; simpl; [|done].
  destruct (repairUser_tables u w) as (? & ? & ?). done.
Qed.

Lemma row_with_id (u : string) (d : Database) :
  u ∈ Sql.userIds d → Sql.isNil (filter (λ r, u_id r = u) (Users d)) = false.
Proof.
  intros (r & -> & Hr)%list_elem_of_fmap.
  assert (r ∈ filter (λ r0, u_id r0 = u_id r) (Users d)) as Hin
    by (by apply list_elem_of_filter).
  destruct (filter _ _); [by apply elem_of_nil in Hin|done].
Qed.

Lemma not_owned_filter d u ws :
  ¬ ownsWorkspace d u ws →
  filter (λ r, w_id r = ws ∧ w_ownerId r = u) (Workspaces d) = [].
Proof.
  intros Hn. destruct (filter _ _) as [|r l] eqn:Hf; [done|].
  assert (r ∈ filter (λ r, w_id r = ws ∧ w_ownerId r = u) (Workspaces d)) as Hr
    by (rewrite Hf; by left).
  apply list_elem_of_filter in Hr as [[? ?] ?]. destruct Hn. by exists r.
Qed.

(** A workspace that exists and is not the caller's is refused. *)
Lemma chatWorkspace_foreign u ws w :
  JS.nonEmpty ws = true →
  (∃ r, r ∈ Workspaces (db w) ∧ w_id r = ws) →
  ¬ ownsWorkspace (db w) (userId u) ws →
  chatWorkspace E u (Some ws) w =
  (Ret (mkResponse 403
          (JObj [("error", JStr "Access denied");
                 ("message", JStr "You do not have access to this workspace.")])), w).
Proof.
  intros Hne (r & Hr & Hid) Hn.
  unfold chatWorkspace, mbind, M_bind, query, respond. simpl. rewrite Hne. simpl.
  rewrite (not_owned_filter _ _ _ Hn). simpl.
  assert (r ∈ filter (λ r, w_id r = ws) (Workspaces (db w))) as Hin
    by (by apply list_elem_of_filter).
  destruct (filter _ _); [by apply elem_of_nil in Hin|done].
Qed.

Lemma createDefaultWorkspace_chats u w :
  Chats (db (ChatRoutes.createDefaultWorkspace E u w).2) = Chats (db w).
Proof.
  unfold ChatRoutes.createDefaultWorkspace, mbind, M_bind, newUuid, exec, mret, M_ret.
  simpl. destruct (Sql.run _ _ _) as [d1|] eqn:Hrun; simpl; [|done].
  unfold Sql.run in Hrun. destruct (_ && _); [|done]. by injection Hrun as <-.
Qed.

(** The workspace found for a new chat is owned by the caller; the only
    response sent on the way is the 403, before anything is written. *)
Lemma chatWorkspace_owned u workspaceId w :
  match chatWorkspace E u workspaceId w with
  | (Val id, w1) =>
      ownsWorkspace (db w1) (userId u) id ∧ Chats (db w1) = Chats (db w)
  | (Ret r, w1) => status r = 403 ∧ w1 = w
  | (Exc _, w1) => db w1 = db w
  end.
Proof.
  unfold chatWorkspace, mbind at 1 2 3, M_bind at 1 2 3, query. simpl.
  assert (match ChatRoutes.createDefaultWorkspace E u w with
          | (Val id, w1) =>
              ownsWorkspace (db w1) (userId u) id ∧ Chats (db w1) = Chats (db w)
          | (Ret r, w1) => status r = 403 ∧ w1 = w
          | (Exc _, w1) => db w1 = db w
          end) as Hdef.
  { pose proof (createDefaultWorkspace_owned E u w) as Hnew.
    pose proof (createDefaultWorkspace_chats u w) as Hchats.
    destruct (ChatRoutes.createDefaultWorkspace E u w) as [[id|r|e] w1]; [|done..].
    by destruct Hnew. }
  destruct (negb _).
  - destruct (head _) as [r|] eqn:Hh; simpl; [|exact Hdef].
    apply head_Some_elem_of, list_elem_of_filter in Hh as [Ho Hr].
    split; [by exists r|done].
  - destruct (filter _ _) as [|r l] eqn:Hf; simpl.
    + destruct (0 <? _); [done|exact Hdef].
    + assert (r ∈ r :: l) as Hr by (by left). rewrite <-Hf in Hr.
      apply list_elem_of_filter in Hr as [[Hid Ho] Hr]. split; [by exists r|done].
Qed.

Lemma ownsWorkspace_ext d1 d u ws :
  Workspaces d1 = Workspaces d → ownsWorkspace d1 u ws ↔ ownsWorkspace d u ws.
Proof. unfold ownsWorkspace. by intros ->. Qed.

(** The first block of the handler: the repair in development mode. *)
Lemma firstRepair_tables u w :
  let m : M unit :=
    if devBypass E then
      userCheck ← query (λ d, filter (λ r, u_id r = userId u) (Users d));
      if Sql.isNil userCheck then repairUser E u else mret tt
    else mret tt in
  Workspaces (db (m w).2) = Workspaces (db w) ∧
  Chats (db (m w).2) = Chats (db w) ∧
  (∀ r, (m w).1 ≠ Ret r) ∧
  (devBypass E = false ∨ userId u ∈ Sql.userIds (db w) → m w = (Val tt, w)).
Proof.
  simpl. destruct (devBypass E); [|by split_and!].
  unfold mbind, M_bind, query. simpl.
  pose proof (guarded_repair_tables u
                (Sql.isNil (filter (λ r, u_id r = userId u) (Users (db w)))) w)
    as (Hw & Hc & Hr & Hv).
  simpl in *. split_and!; [done..|].
  intros [?|Hin]; [done|]. apply Hv. by apply row_with_id.
Qed.

End CreateChat.

(** X5. POST /chat never creates a chat in a workspace of somebody else:
    when the workspaceId of the request names a workspace that exists and
    is not owned by the caller, the request is not answered 201 and Chats
    and Workspaces stay as they are; when the caller has a row in Users, or
    outside development mode, the answer is the 403 'Access denied' and the
    database is untouched.  (POST /chat/message, given the same workspaceId,
    silently falls back to a workspace of the caller.) *)
Theorem foreign_workspace_refused (E : Env) (b : ChatRouter.ChatBody) (u : AuthUser)
    (w : World) (ws : string) :
  ChatRouter.cb_workspaceId b = Some ws →
  JS.nonEmpty ws = true →
  (∃ r, r ∈ Workspaces (db w) ∧ w_id r = ws) →
  ¬ ownsWorkspace (db w) (userId u) ws →
  let run := ChatRouter.postChat E b u w in
  (∃ r, run.1 = inl r) ∧
  Chats (db run.2) = Chats (db w) ∧
  Workspaces (db run.2) = Workspaces (db w) ∧
  (devBypass E = false ∨ userId u ∈ Sql.userIds (db w) →
   run.1 = inl (mkResponse 403
                  (JObj [("error", JStr "Access denied");
                         ("message", JStr "You do not have access to this workspace.")]))
   ∧ db run.2 = db w).
Proof.
  intros Hb Hne Hex Hn run. subst run.
  remember (ChatRouter.postChat E b u w) as run eqn:Hrun.
  unfold ChatRouter.postChat, handleTo, ChatRouter.createChat in Hrun.
  unfold mbind at 1 2, M_bind at 1 2, newUuid in Hrun. simpl in Hrun.
  match type of Hrun with
  | context [match ?m ?w0 with _ => _ end] =>
      pose proof (firstRepair_tables E u w0) as (Hw & Hc & Hr & Hv); simpl in *;
      destruct (m w0) as [[[]|r|e] w1] eqn:Hfirst
  end; simpl in *.
  - assert (∃ r, r ∈ Workspaces (db w1) ∧ w_id r = ws) as Hex1 by (by rewrite Hw).
    assert (¬ ownsWorkspace (db w1) (userId u) ws) as Hn1
      by (by rewrite (ownsWorkspace_ext _ _ _ _ Hw)).
    unfold mbind at 1, M_bind at 1 in Hrun. rewrite Hb in Hrun.
    rewrite (chatWorkspace_foreign E u ws w1 Hne Hex1 Hn1) in Hrun. subst run. simpl.
    split_and!; [by eexists|done..|].
    intros Hcase. specialize (Hv Hcase). by injection Hv as ->.
  - by destruct (Hr r).
  - subst run. simpl. split_and!; [by eexists|done..|].
    intros Hcase. by specialize (Hv Hcase).
Qed.

(** Alice asks for a new chat in Bob's workspace. *)
Lemma foreign_workspace_refused_witness :
  let run := ChatRouter.postChat Scenario.production Cases.inBobsWorkspace
               Scenario.alice Scenario.world in
  (∃ r, run.1 = inl r) ∧ Chats (db run.2) = Chats Scenario.database.
Proof.
  intros run.
  destruct (foreign_workspace_refused Scenario.production Cases.inBobsWorkspace
              Scenario.alice Scenario.world Scenario.wsBob eq_refl eq_refl)
    as (Hr & Hc & _).
  - eexists. split; [apply list_elem_of_further, list_elem_of_here|reflexivity].
  - intros (r & Hr & Hid & Ho). simpl in Hr.
    repeat (apply elem_of_cons in Hr as [->|Hr]; [discriminate|]).
    by apply elem_of_nil in Hr.
  - split; [exact Hr|exact Hc].
Defined.

(** X6. A chat created by POST /chat (status 201) is a chat of the caller
    in a workspace owned by the caller: the inserted row is in Chats, it
    carries the caller's userId, the title of the request, a messageCount of
    0 and a workspace that the caller owns, and the caller has a row in
    Users. *)
Theorem created_chat_in_owned_workspace (E : Env) (b : ChatRouter.ChatBody)
    (u : AuthUser) (w w' : World) (chat : ChatRow) :
  ChatRouter.postChat E b u w = (inr chat, w') →
  chat ∈ Chats (db w') ∧
  c_id chat = uuidv4 E (uuidCalls w) ∧
  c_userId chat = userId u ∧
  c_title chat = ChatRouter.cb_title b ∧
  c_messageCount chat = 0%Z ∧
  userId u ∈ Sql.userIds (db w') ∧
  ∃ ws, c_workspaceId chat = Some ws ∧ ownsWorkspace (db w') (userId u) ws.
Proof.
  intros Hrun.
  unfold ChatRouter.postChat, handleTo, ChatRouter.createChat in Hrun.
  unfold mbind at 1 2, M_bind at 1 2, newUuid in Hrun. simpl in Hrun.
  match type of Hrun with
  | context [match ?m ?w0 with _ => _ end] =>
      destruct (m w0) as [[[]|r|e] w1]
  end; simpl in Hrun; [|done..].
  unfold mbind at 1, M_bind at 1 in Hrun.
  pose proof (chatWorkspace_owned E u (ChatRouter.cb_workspaceId b) w1) as Hws.
  destruct (ChatRouter.chatWorkspace E u _ w1) as [[ws|r|e] w2]; [|done..].
  destruct Hws as [Hown _].
  unfold mbind at 1 2, M_bind at 1 2, query in Hrun. simpl in Hrun.
  match type of Hrun with
  | context [(if ?c then _ else _) w2] =>
      pose proof (guarded_repair_tables E u c w2) as (Hw & _ & _ & _); simpl in Hw;
      destruct ((if c then ChatRouter.repairUser E u else mret tt) w2)
        as [[[]|r|e] w3]
  end; simpl in Hrun; [|done..].
  unfold mbind, M_bind, getClock, exec, mret, M_ret in Hrun. simpl in Hrun.
  destruct (Sql.run _ _ _) as [d4|] eqn:Hins; simpl in Hrun; [|done].
  injection Hrun as <- <-. simpl.
  unfold Sql.run, Sql.isIn in Hins.
  repeat case_bool_decide; simpl in Hins; try done. injection Hins as <-. simpl.
  split_and!; try done.
  - apply elem_of_app. right. by left.
  - exists ws. split; [done|]. by apply (ownsWorkspace_ext _ (db w2)).
Qed.

(** Alice asks for a new chat without naming a workspace: 201, in her
    workspace. *)
Lemma created_chat_in_owned_workspace_witness :
  let run := ChatRouter.postChat Scenario.production Cases.plainChat
               Scenario.alice Scenario.world in
  ∃ chat, run.1 = inr chat ∧ c_userId chat = "alice" ∧ chat ∈ Chats (db run.2).
Proof.
  intros run.
  assert (∃ chat, run.1 = inr chat) as [chat Hc] by (eexists; vm_compute; reflexivity).
  exists chat. split; [exact Hc|].
  assert (run = (inr chat, run.2)) as Hrun
    by (rewrite <-Hc; apply surjective_pairing).
  destruct (created_chat_in_owned_workspace Scenario.production Cases.plainChat
              Scenario.alice Scenario.world run.2 chat Hrun)
    as (Hin & _ & Hu & _).
  split; [exact Hu|exact Hin].
Defined.

(** X7. Outside development mode a caller without a row in Users gets no
    chat from POST /chat and leaves no trace in the database: the request is
    answered 403 or 500 (not 404, as POST /chat/message does), every
    statement it issues is rejected, and the database is as before. *)
Theorem no_chat_without_user (E : Env) (b : ChatRouter.ChatBody) (u : AuthUser)
    (w : World) :
  devBypass E = false →
  userId u ∉ Sql.userIds (db w) →
  let run := ChatRouter.postChat E b u w in
  (∃ r, run.1 = inl r ∧ (status r = 403 ∨ status r = 500)) ∧
  db run.2 = db w.
Proof.
  intros Hdev Hu run. subst run.
  remember (ChatRouter.postChat E b u w) as run eqn:Hrun.
  unfold ChatRouter.postChat, handleTo, ChatRouter.createChat in Hrun.
  rewrite Hdev in Hrun.
  unfold mbind at 1 2, M_bind at 1 2, newUuid, mret at 1, M_ret at 1 in Hrun.
  simpl in Hrun.
  unfold mbind at 1, M_bind at 1 in Hrun.
  match type of Hrun with
  | context [ChatRouter.chatWorkspace E u ?i ?w0] =>
      assert (match ChatRouter.chatWorkspace E u i w0 with
              | (Val _, w1) => db w1 = db w
              | (Ret r, w1) => status r = 403 ∧ db w1 = db w
              | (Exc _, w1) => db w1 = db w
              end) as Hws;
      [|destruct (ChatRouter.chatWorkspace E u i w0) as [[ws|r|e] w1]]
  end.
  { unfold ChatRouter.chatWorkspace, ChatRoutes.createDefaultWorkspace,
      mbind, M_bind, query, newUuid, exec, respond, mret, M_ret. simpl.
    assert (∀ now id, Sql.run now
              (InsertWorkspace id "Default Workspace" "Auto-created default workspace"
                               "#3B82F6" (userId u)) (db w) = None) as Hrej.
    { intros now id. unfold Sql.run, Sql.isIn.
      rewrite (bool_decide_eq_false_2 _ Hu). by rewrite andb_false_r. }
    repeat match goal with
    | |- context [if ?c then _ else _] => destruct c
    | |- context [match head ?l with _ => _ end] => destruct (head l)
    end; simpl; rewrite ?Hrej; simpl; done. }
  - unfold mbind, M_bind, query, getClock, exec, mret, M_ret in Hrun. simpl in Hrun.
    rewrite andb_false_r in Hrun. simpl in Hrun.
    assert (∀ now id ws t dsc, Sql.run now (InsertChat id (userId u) ws t dsc) (db w1)
                               = None) as Hrej.
    { intros. unfold Sql.run, Sql.isIn. rewrite Hws.
      rewrite (bool_decide_eq_false_2 _ Hu). by rewrite andb_false_r. }
    rewrite Hrej in Hrun. subst run. simpl. split; [|done].
    eexists. split; [done|]. by right.
  - subst run. simpl. destruct Hws as [Hs Hd]. split; [|done].
    eexists. split; [done|]. by left.
  - subst run. simpl. split; [|done]. eexists. split; [done|]. by right.
Qed.

(** Carol, who has no row in Users, asks for a new chat in production. *)
Lemma no_chat_without_user_witness :
  let run := ChatRouter.postChat Scenario.production Cases.plainChat
               Scenario.carol Scenario.world in
  (∃ r, run.1 = inl r ∧ (status r = 403 ∨ status r = 500)) ∧
  db run.2 = Scenario.database.
Proof.
  apply (no_chat_without_user Scenario.production Cases.plainChat Scenario.carol
           Scenario.world eq_refl).
  intros Hin. simpl in Hin.
  repeat (apply elem_of_cons in Hin as [Hin|Hin]; [discriminate|]).
  by apply elem_of_nil in Hin.
Defined.
(* ===================================================================== *)
(** ** GET /chat/:chatId/messages and DELETE /chat/:chatId *)
(* ===================================================================== *)

Section ReadDelete.
Import ChatRouter.

Lemma chatCheck_owned d u chatId :
  Sql.isNil (filter (λ c, c_id c = chatId ∧ c_userId c = u) (Chats d)) = false
  ↔ ownsChat d u chatId.
Proof.
  split.
  - destruct (filter _ _) as [|c l] eqn:Hf; [done|]. intros _.
    assert (c ∈ filter (λ c, c_id c = chatId ∧ c_userId c = u) (Chats d)) as Hc
      by (rewrite Hf; by left).
    apply list_elem_of_filter in Hc as [[? ?] ?]. by exists c.
  - intros (c & Hc & Hid & Hu).
    assert (c ∈ filter (λ c, c_id c = chatId ∧ c_userId c = u) (Chats d)) as Hin
      by (by apply list_elem_of_filter).
    destruct (filter _ _); [by apply elem_of_nil in Hin|done].
Qed.

Lemma chatCheck_foreign d u chatId :
  ¬ ownsChat d u chatId →
  Sql.isNil (filter (λ c, c_id c = chatId ∧ c_userId c = u) (Chats d)) = true.
Proof.
  intros Hn. destruct (Sql.isNil _) eqn:Hc; [done|].
  by apply chatCheck_owned in Hc.
Qed.

(** The answer of the route in terms of the database. *)
Lemma getChatMessages_unfold chatId page limit u w :
  getChatMessages chatId page limit u w =
  (if Sql.isNil (filter (λ c, c_id c = chatId ∧ c_userId c = userId u) (Chats (db w)))
   then inl (mkResponse 404
               (JObj [("error", JStr "Chat not found");
                      ("message", JStr "Chat not found or access denied")]))
   else if negb (fitsInt limit) || negb (fitsInt ((page - 1) * limit))
           || ((page - 1) * limit <? 0)%Z || (limit <=? 0)%Z
   then inl (mkResponse 500 (JObj [("error", JStr "Failed to retrieve messages")]))
   else inr (mkMessagesPage
               (viewOf (db w) <$>
                  take (Z.to_nat limit)
                       (drop (Z.to_nat ((page - 1) * limit)) (messagesOf chatId (db w))))
               (mkPagination page limit (messagesIn (db w) chatId)
                             (JSLib.ceilDiv (messagesIn (db w) chatId) limit))),
   w).
Proof.
  unfold getChatMessages, handleTo, chatMessages, mbind, M_bind, query, respond, throw,
    mret, M_ret, getMessagesFailed. simpl.
  destruct (Sql.isNil _); [done|].
  destruct (negb (fitsInt limit) || negb (fitsInt ((page - 1) * limit))); [done|].
  simpl. destruct ((page - 1) * limit <? 0)%Z; [done|].
  simpl. by destruct (limit <=? 0)%Z.
Qed.

Lemma concat_chunks {A} (l : list A) (n k : nat) :
  length l ≤ k * n →
  concat ((λ i, take n (drop (i * n) l)) <$> seq 0 k) = l.
Proof.
  revert l. induction k as [|k IH]; intros l Hl.
  - simpl in *. by destruct l; [|simpl in Hl; lia].
  - simpl. transitivity (take n l ++ drop n l); [|apply take_drop]. f_equal.
    rewrite <-(IH (drop n l)) at 1 by (rewrite length_drop; lia).
    rewrite <-fmap_S_seq, <-list_fmap_compose. f_equal.
    apply list_fmap_ext. intros i j _. simpl. by rewrite drop_drop.
Qed.

Lemma ceilDiv_covers (total : nat) (limit : Z) :
  (0 < limit)%Z →
  total ≤ Z.to_nat (JSLib.ceilDiv total limit) * Z.to_nat limit ∧
  (0 < total → (Z.of_nat total > (JSLib.ceilDiv total limit - 1) * limit)%Z) ∧
  (0 ≤ JSLib.ceilDiv total limit)%Z.
Proof.
  intros Hl. unfold JSLib.ceilDiv.
  pose proof (Z.div_mod (Z.of_nat total + limit - 1) limit) as Hdm.
  pose proof (Z.mod_pos_bound (Z.of_nat total + limit - 1) limit Hl) as Hm.
  assert (0 ≤ (Z.of_nat total + limit - 1) / limit)%Z as Hq
    by (apply Z.div_pos; lia).
  split_and!; [|intros; nia|done].
  apply Nat2Z.inj_le. rewrite Nat2Z.inj_mul, !Z2Nat.id by lia. nia.
Qed.

Lemma same_false (a b : bool) : (a = false ↔ b = false) → a = b.
Proof.
  destruct a, b; intros [Ha Hb]; try done; [by apply Hb|symmetry; by apply Ha].
Qed.

Lemma ownsChat_archived d u chatId id now :
  ownsChat
    (Sql.withChats d
       ((λ c, if bool_decide (c_id c = id) then archived now c else c) <$> Chats d))
    u chatId
  ↔ ownsChat d u chatId.
Proof.
  unfold ownsChat. simpl. split.
  - intros (c' & (c & -> & Hin)%list_elem_of_fmap & Hid & Hu).
    exists c. by case_bool_decide.
  - intros (c & Hin & Hid & Hu). eexists. split.
    + apply list_elem_of_fmap. by exists c.
    + by case_bool_decide.
Qed.

(** What DELETE /chat/:chatId leaves of the tables the reading route looks
    at. *)
Lemma delete_is_soft_tables chatId u w :
  Messages (db (deleteChat chatId u w).2) = Messages (db w) ∧
  MessageActions (db (deleteChat chatId u w).2) = MessageActions (db w) ∧
  ∀ reader,
    Sql.isNil (filter (λ c, c_id c = chatId ∧ c_userId c = reader)
                      (Chats (db (deleteChat chatId u w).2)))
    = Sql.isNil (filter (λ c, c_id c = chatId ∧ c_userId c = reader) (Chats (db w))).
Proof.
  unfold deleteChat, handle, archive, mbind, M_bind, query, statement, respond, finish,
    mret, M_ret, archiveChat. simpl.
  destruct (Sql.isNil (filter _ (Chats (db w)))) eqn:Hc; simpl; [done|].
  split_and!; [done..|]. intros reader.
  pose proof (chatCheck_owned
                (Sql.withChats (db w)
                   ((λ c, if bool_decide (c_id c = chatId)
                          then archived (clock w) c else c) <$> Chats (db w)))
                reader chatId) as H1.
  pose proof (chatCheck_owned (db w) reader chatId) as H2.
  pose proof (ownsChat_archived (db w) reader chatId chatId (clock w)) as H3.
  simpl in *.
  apply same_false. tauto.
Qed.

End ReadDelete.

(** X8. GET /chat/:chatId/messages reads a chat of the caller only and never
    writes: the world is left as it was; for a chat that is not the caller's
    the answer is the 404; and a page that is sent (status 200) holds at most
    [limit] rows, each a message of that chat, for a page number of at least
    1 and a positive limit, with [total] the number of messages of the
    chat. *)
Theorem messages_only_for_owner (chatId : string) (page limit : Z) (u : AuthUser)
    (w : World) :
  let run := ChatRouter.getChatMessages chatId page limit u w in
  run.2 = w ∧
  (¬ ownsChat (db w) (userId u) chatId → ∃ r, run.1 = inl r ∧ status r = 404) ∧
  (∀ pg, run.1 = inr pg →
     ownsChat (db w) (userId u) chatId ∧ (1 ≤ page)%Z ∧ (0 < limit)%Z ∧
     length (ChatRouter.mp_messages pg) ≤ Z.to_nat limit ∧
     ChatRouter.pg_total (ChatRouter.mp_pagination pg) = messagesIn (db w) chatId ∧
     ∀ v, v ∈ ChatRouter.mp_messages pg →
          ChatRouter.mv_message v ∈ Messages (db w) ∧
          m_chatId (ChatRouter.mv_message v) = chatId).
Proof.
  intros run. subst run. rewrite getChatMessages_unfold. simpl. split_and!; [done| |].
  - intros Hn. rewrite (chatCheck_foreign _ _ _ Hn). by eexists.
  - intros pg. destruct (Sql.isNil _) eqn:Hc; [done|].
    destruct (_ || _) eqn:Hok; [done|]. intros [= <-]. simpl.
    apply chatCheck_owned in Hc.
    repeat (apply orb_false_iff in Hok as [Hok ?]).
    assert (0 < limit)%Z by lia. assert (0 ≤ (page - 1) * limit)%Z by lia.
    split_and!; [done|nia|done| | |].
    + rewrite length_fmap, length_take. lia.
    + done.
    + intros v (m & -> & Hm)%list_elem_of_fmap. simpl.
      apply subseteq_take, subseteq_drop in Hm. unfold ChatRouter.messagesOf in Hm.
      rewrite merge_sort_Permutation in Hm.
      by apply list_elem_of_filter in Hm as [? ?].
Qed.

(** The pages of a chat, one after the other, are the result of the query
    without OFFSET and FETCH. *)
Lemma pages_concat (chatId : string) (limit : Z) (u : AuthUser) (w : World) :
  ownsChat (db w) (userId u) chatId →
  (0 < limit)%Z →
  (Z.of_nat (messagesIn (db w) chatId) + limit ≤ Sql.int_max)%Z →
  let pages := Z.to_nat (JSLib.ceilDiv (messagesIn (db w) chatId) limit) in
  let rows p :=
    match (ChatRouter.getChatMessages chatId (Z.of_nat p) limit u w).1 with
    | inr pg => ChatRouter.mp_messages pg
    | inl _ => []
    end in
  (∀ p, 1 ≤ p ≤ pages →
        ∃ pg, (ChatRouter.getChatMessages chatId (Z.of_nat p) limit u w).1 = inr pg ∧
              ChatRouter.pg_pages (ChatRouter.mp_pagination pg) = Z.of_nat pages) ∧
  concat (rows <$> seq 1 pages)
  = ChatRouter.viewOf (db w) <$> ChatRouter.messagesOf chatId (db w).
Proof.
  intros Hown Hl Hmax pages rows.
  destruct (ceilDiv_covers (messagesIn (db w) chatId) limit Hl) as (Hcov & Hlast & Hq).
  apply chatCheck_owned in Hown.
  assert (∀ p, 1 ≤ p ≤ pages →
            (ChatRouter.getChatMessages chatId (Z.of_nat p) limit u w).1 =
            inr (ChatRouter.mkMessagesPage
                   (ChatRouter.viewOf (db w) <$>
                      take (Z.to_nat limit)
                           (drop ((p - 1) * Z.to_nat limit)
                                 (ChatRouter.messagesOf chatId (db w))))
                   (ChatRouter.mkPagination (Z.of_nat p) limit
                      (messagesIn (db w) chatId) (Z.of_nat pages)))) as Hpage.
  { intros p Hp. rewrite getChatMessages_unfold, Hown. simpl.
    assert (0 < messagesIn (db w) chatId) as Hpos.
    { destruct (messagesIn (db w) chatId); [|lia].
      subst pages. unfold JSLib.ceilDiv in Hp. simpl in Hp.
      rewrite Z.div_small in Hp by lia. simpl in Hp. lia. }
    specialize (Hlast Hpos).
    assert (0 ≤ (Z.of_nat p - 1) * limit ≤ Z.of_nat (messagesIn (db w) chatId))%Z
      as Hoff.
    { subst pages. split; [nia|].
      assert (Z.of_nat p ≤ JSLib.ceilDiv (messagesIn (db w) chatId) limit)%Z
        by lia.
      nia. }
    unfold ChatRouter.fitsInt, Sql.int_max in *.
    replace ((-2147483648 <=? limit)%Z) with true by (symmetry; apply Z.leb_le; lia).
    replace ((limit <=? 2147483647)%Z) with true by (symmetry; apply Z.leb_le; lia).
    replace ((-2147483648 <=? (Z.of_nat p - 1) * limit)%Z) with true
      by (symmetry; apply Z.leb_le; lia).
    replace (((Z.of_nat p - 1) * limit <=? 2147483647)%Z) with true
      by (symmetry; apply Z.leb_le; lia).
    replace (((Z.of_nat p - 1) * limit <? 0)%Z) with false
      by (symmetry; apply Z.ltb_ge; lia).
    replace ((limit <=? 0)%Z) with false by (symmetry; apply Z.leb_gt; lia).
    simpl. do 4 f_equal.
    - replace (Z.of_nat p - 1)%Z with (Z.of_nat (p - 1)) by lia.
      rewrite Z2Nat.inj_mul, Nat2Z.id by lia. done.
    - subst pages. f_equal. rewrite Z2Nat.id by lia. done. }
  split.
  - intros p Hp. eexists. split; [by apply Hpage|done].
  - erewrite list_fmap_ext with
      (g := λ p, ChatRouter.viewOf (db w) <$>
                   take (Z.to_nat limit)
                        (drop ((p - 1) * Z.to_nat limit)
                              (ChatRouter.messagesOf chatId (db w)))).
    2: { intros i p Hi. unfold rows.
         apply lookup_seq in Hi as [-> Hi]. by rewrite Hpage by lia. }
    rewrite <-(concat_chunks (ChatRouter.viewOf (db w) <$>
                                ChatRouter.messagesOf chatId (db w))
                             (Z.to_nat limit) pages) at 1.
    2: { rewrite length_fmap. unfold ChatRouter.messagesOf.
         rewrite merge_sort_Permutation. exact Hcov. }
    rewrite <-fmap_S_seq, <-list_fmap_compose. f_equal.
    apply list_fmap_ext. intros i j _. simpl.
    by rewrite fmap_take, fmap_drop, Nat.sub_0_r.
Qed.

(** X9. The pages of GET /chat/:chatId/messages partition the chat: for a
    chat of the caller, a positive limit, and a number of messages that
    together with the limit is within the range of INT, every page from 1 to
    the number of pages the route reports is sent, and the rows of these
    pages, one after the other, carry the rows of Messages of that chat,
    each exactly once, in the order of createdAt, each with the number of its
    'like' and of its 'bookmark' actions.  (Rows with the same createdAt come
    in the same order in every page query.) *)
Theorem pages_partition_messages (chatId : string) (limit : Z) (u : AuthUser)
    (w : World) :
  ownsChat (db w) (userId u) chatId →
  (0 < limit)%Z →
  (Z.of_nat (messagesIn (db w) chatId) + limit ≤ Sql.int_max)%Z →
  let pages := Z.to_nat (JSLib.ceilDiv (messagesIn (db w) chatId) limit) in
  let rows p :=
    match (ChatRouter.getChatMessages chatId (Z.of_nat p) limit u w).1 with
    | inr pg => ChatRouter.mp_messages pg
    | inl _ => []
    end in
  let count messageId actionType :=
    length (filter (λ a, a_messageId a = messageId ∧ a_actionType a = actionType)
                   (MessageActions (db w))) in
  (∀ p, 1 ≤ p ≤ pages →
        ∃ pg, (ChatRouter.getChatMessages chatId (Z.of_nat p) limit u w).1 = inr pg ∧
              ChatRouter.pg_pages (ChatRouter.mp_pagination pg) = Z.of_nat pages) ∧
  historyOf (Messages (db w)) chatId
            (ChatRouter.mv_message <$> concat (rows <$> seq 1 pages)) ∧
  (∀ v, v ∈ concat (rows <$> seq 1 pages) →
        ChatRouter.mv_likeCount v = count (m_id (ChatRouter.mv_message v)) "like" ∧
        ChatRouter.mv_bookmarkCount v
        = count (m_id (ChatRouter.mv_message v)) "bookmark").
Proof.
  intros Hown Hl Hmax pages rows count.
  destruct (pages_concat chatId limit u w Hown Hl Hmax) as [Hpages Hcat].
  split; [exact Hpages|].
  fold pages in Hcat. fold rows in Hcat. rewrite Hcat. split.
  - rewrite <-list_fmap_compose.
    erewrite list_fmap_ext with (g := id); [|by intros i m _].
    rewrite list_fmap_id. unfold ChatRouter.messagesOf. split.
    + apply merge_sort_Permutation.
    + apply (Sorted_merge_sort ChatRoutes.createdBefore).
  - intros v (m & -> & _)%list_elem_of_fmap. by split.
Qed.

(** The messages of Alice's chat in pages of one row: two pages, which
    together hold the messages of the chat in the order of createdAt. *)
Lemma pages_partition_messages_witness :
  let rows p :=
    match (ChatRouter.getChatMessages Scenario.chatAlice (Z.of_nat p) 1 Scenario.alice
             Scenario.world).1 with
    | inr pg => ChatRouter.mp_messages pg
    | inl _ => []
    end in
  historyOf (Messages Scenario.database) Scenario.chatAlice
            (ChatRouter.mv_message <$> concat (rows <$> seq 1 2)).
Proof.
  intros rows.
  destruct (pages_partition_messages Scenario.chatAlice 1 Scenario.alice Scenario.world)
    as (_ & Hh & _).
  - eexists. split; [apply list_elem_of_here|]. split; reflexivity.
  - lia.
  - vm_compute. discriminate.
  - exact Hh.
Defined.

(** X10. DELETE /chat/:chatId is a soft delete that only the owner can
    make: no row of any table is removed and nothing but the chats with that
    id changes; for a chat of the caller the answer is 200 and every chat
    with that id is archived afterwards; for any other chat the answer is the
    404 and the world is left as it was. *)
Theorem delete_archives_own_chat_only (chatId : string) (u : AuthUser) (w : World) :
  let run := ChatRouter.deleteChat chatId u w in
  Users (db run.2) = Users (db w) ∧
  Workspaces (db run.2) = Workspaces (db w) ∧
  Messages (db run.2) = Messages (db w) ∧
  MessageActions (db run.2) = MessageActions (db w) ∧
  c_id <$> Chats (db run.2) = c_id <$> Chats (db w) ∧
  c_userId <$> Chats (db run.2) = c_userId <$> Chats (db w) ∧
  (∀ c, c ∈ Chats (db run.2) → c_id c ≠ chatId → c ∈ Chats (db w)) ∧
  (ownsChat (db w) (userId u) chatId →
     status run.1 = 200 ∧
     ∀ c, c ∈ Chats (db run.2) → c_id c = chatId → c_isArchived c = true) ∧
  (¬ ownsChat (db w) (userId u) chatId → status run.1 = 404 ∧ run.2 = w).
Proof.
  intros run. subst run.
  unfold ChatRouter.deleteChat, handle, ChatRouter.archive, mbind, M_bind, query,
    statement, respond, finish, mret, M_ret, ChatRouter.archiveChat. simpl.
  destruct (Sql.isNil _) eqn:Hc; simpl.
  - split_and!; try done.
    intros Hown. apply chatCheck_owned in Hown. congruence.
  - apply chatCheck_owned in Hc. split_and!; try done.
    + rewrite <-list_fmap_compose. apply list_fmap_ext. intros i c _. simpl.
      by case_bool_decide.
    + rewrite <-list_fmap_compose. apply list_fmap_ext. intros i c _. simpl.
      by case_bool_decide.
    + intros c' (c & -> & Hin)%list_elem_of_fmap. by case_bool_decide.
    + intros _. split; [done|].
      intros c' (c & -> & Hin)%list_elem_of_fmap. by case_bool_decide.
Qed.

(** X11. Archiving a chat hides none of its history: GET
    /chat/:chatId/messages gives the same answer after DELETE /chat/:chatId
    as before it, whoever the two callers are and whatever page is asked
    for. *)
Theorem archived_chat_keeps_history (chatId : string) (page limit : Z)
    (u reader : AuthUser) (w : World) :
  (ChatRouter.getChatMessages chatId page limit reader
     (ChatRouter.deleteChat chatId u w).2).1
  = (ChatRouter.getChatMessages chatId page limit reader w).1.
Proof.
  destruct (delete_is_soft_tables chatId u w) as (Hm & Ha & Hcheck).
  rewrite !getChatMessages_unfold. simpl.
  unfold ChatRouter.viewOf, ChatRouter.actionCount, ChatRouter.messagesOf, messagesIn.
  by rewrite Hm, Ha, Hcheck.
Qed.
(* ===================================================================== *)
(** ** The helpers of the chat router and the file contents *)
(* ===================================================================== *)

Section Truncation.

Lemma truncated_prefix content maxTokens :
  String.length (truncateContentForTokens content maxTokens)
  = min (String.length content) (maxTokens * 4) ∧
  ∃ rest, content = truncateContentForTokens content maxTokens +:+ rest.
Proof.
  unfold truncateContentForTokens.
  destruct (String.length content <=? maxTokens * 4) eqn:Hle.
  - apply Nat.leb_le in Hle. split; [lia|].
    exists EmptyString. by rewrite append_empty_r.
  - apply Nat.leb_gt in Hle. split; [|apply substring0_prefix].
    rewrite length_substring0. lia.
Qed.

End Truncation.

(** X12. The keyword test of the chat router looks for substrings and
    ignores the case of the message: a message that contains, anywhere and
    in any mix of upper and lower case, one of the data keywords is
    recognised. *)
Theorem data_keywords_ignore_case (before word after : string) :
  JSLib.toLowerCase word ∈ ChatRouter.dataKeywords →
  ChatRouter.containsDataKeywords (before +:+ word +:+ after) = true.
Proof.
  intros Hk. unfold ChatRouter.containsDataKeywords.
  apply existsb_exists. exists (JSLib.toLowerCase word).
  split; [by apply list_elem_of_In|].
  rewrite !toLowerCase_append. apply includes_middle.
Qed.

(** 'REVENUE' inside a sentence. *)
Lemma data_keywords_ignore_case_witness :
  ChatRouter.containsDataKeywords ("Our " +:+ "REVENUE" +:+ " grew.") = true.
Proof.
  apply (data_keywords_ignore_case "Our " "REVENUE" " grew.").
  vm_compute. do 8 apply list_elem_of_further. apply list_elem_of_here.
Defined.

(** X13. The regular AI response is asked for with the system prompt and
    the last ten messages of the history, in their order, and with nothing
    else: one chat-completion call with maxTokens 1000 and temperature 0.7
    whose messages are the system prompt followed by a suffix of the history
    of length min(10, length of the history); the database is not touched. *)
Theorem regular_response_sends_last_ten (E : Env) (chatHistory : list ChatMessage)
    (w : World) :
  let run := ChatRouter.getRegularAIResponse E chatHistory w in
  ∃ dropped kept,
    chatHistory = dropped ++ kept ∧
    length kept = min 10 (length chatHistory) ∧
    trace run.2 =
      trace w ++
      [EvChatCompletion (mkChatMessage "system" (getSystemPrompt E) :: kept)
         (mkOptions 1000 (7 # 10))
         (getChatCompletion E (mkChatMessage "system" (getSystemPrompt E) :: kept)
                            (mkOptions 1000 (7 # 10)))] ∧
    db run.2 = db w.
Proof.
  intros run. subst run.
  exists (take (length chatHistory - 10) chatHistory),
         (drop (length chatHistory - 10) chatHistory).
  assert (ChatRouter.regularMessages E chatHistory =
          mkChatMessage "system" (getSystemPrompt E)
            :: drop (length chatHistory - 10) chatHistory) as Hm.
  { unfold ChatRouter.regularMessages, JSLib.sliceLast. simpl. f_equal.
    rewrite <-(list_fmap_id (drop _ _)) at 2. apply list_fmap_ext.
    by intros i [] _. }
  split_and!.
  - by rewrite take_drop.
  - rewrite length_drop. lia.
  - unfold ChatRouter.getRegularAIResponse, mbind, M_bind, chatCompletion.
    rewrite Hm. by destruct (getChatCompletion E _ _).
  - unfold ChatRouter.getRegularAIResponse, mbind, M_bind, chatCompletion.
    by destruct (getChatCompletion E _ _).
Qed.

(** X14. [truncateContentForTokens] returns a prefix of the content, of
    length min(length of the content, 4 * maxTokens); a content within the
    limit comes back as it is. *)
Theorem truncated_content_is_prefix (content : string) (maxTokens : nat) :
  let t := truncateContentForTokens content maxTokens in
  String.length t = min (String.length content) (maxTokens * 4) ∧
  (∃ rest, content = t +:+ rest) ∧
  (String.length content ≤ maxTokens * 4 ↔ t = content).
Proof.
  intros t. subst t.
  destruct (truncated_prefix content maxTokens) as [Hl Hr].
  split_and!; [done..|]. split.
  - intros Hle. unfold truncateContentForTokens.
    by rewrite (proj2 (Nat.leb_le _ _) Hle).
  - intros Heq. rewrite Heq in Hl. lia.
Qed.

(** X15. What an attached file puts into the prompt is bounded: the text
    that the loop over the files of POST /chat/message keeps for a file
    object is a prefix of a blob of the storage, of length
    min(length of the blob, 2000 * 4), or the placeholder '[Content not
    available for file: <name>]' with the name of the file when the blob
    cannot be read, or the placeholder '[Content not available: File
    originalName is missing]' for a file without originalName.  In every
    case the text has at most max(2000 * 4, 34 + length of the name)
    characters. *)
Theorem attached_file_content_is_bounded (E : Env) (file : File) :
  let entry := ChatRoutes.fileEntry E file in
  ((∃ blobName blob rest,
      getFileContent E blobName = Some blob ∧
      blob = entry.2 +:+ rest ∧
      String.length entry.2 = min (String.length blob) (2000 * 4)) ∨
   entry.2 = "[Content not available for file: " +:+ entry.1 +:+ "]" ∨
   entry.2 = "[Content not available: File originalName is missing]") ∧
  String.length entry.2 ≤ max (2000 * 4) (34 + String.length entry.1).
Proof.
  intros entry.
  assert ((∃ blobName blob rest,
             getFileContent E blobName = Some blob ∧
             blob = entry.2 +:+ rest ∧
             String.length entry.2 = min (String.length blob) (2000 * 4)) ∨
          entry.2 = "[Content not available for file: " +:+ entry.1 +:+ "]" ∨
          entry.2 = "[Content not available: File originalName is missing]") as Hcases.
  { subst entry. unfold ChatRoutes.fileEntry.
    destruct (negb (JS.truthy (f_originalName file))); [by right; right|].
    assert (∀ fileName originalName,
              let r := extractFileContent E fileName originalName in
              (∃ blobName blob rest,
                 getFileContent E blobName = Some blob ∧
                 blob = fcr_content r +:+ rest ∧
                 String.length (fcr_content r) = min (String.length blob) (2000 * 4)) ∨
              fcr_content r
              = "[Content not available for file: " +:+ originalName +:+ "]") as Hx.
    { intros fileName originalName. simpl. unfold extractFileContent.
      destruct (getFileContent E fileName) as [blob|] eqn:Hb; [|by right].
      left. exists fileName, blob.
      destruct (truncated_prefix blob 2000) as [Hl [rest Hr]].
      exists rest. by split_and!. }
    destruct (negb (JS.truthy (ChatRoutes.blobNameOf E file))); simpl;
      match goal with
      | |- context [extractFileContent E ?f ?o] => destruct (Hx f o) as [H|H]
      end; auto. }
  split; [exact Hcases|].
  destruct Hcases as [(blobName & blob & rest & _ & _ & Hl)|[->| ->]].
  - rewrite Hl. lia.
  - rewrite !length_append. simpl. lia.
  - simpl. lia.
Qed.
(* ===================================================================== *)
(** ** The front end against the chat router *)
(* ===================================================================== *)

Section ErrorTexts.

Lemma responseText_raw m :
  JS.nonEmpty m = true →
  Forall (λ k, JS.includes m k = false) (concat (fst <$> errorRules)) →
  Dashboard.responseText (Some m) = m.
Proof.
  intros Hne Hall. unfold Dashboard.responseText. simpl. rewrite Hne.
  simpl in Hall.
  repeat match goal with
  | H : Forall _ (_ :: _) |- _ => apply Forall_cons in H as [-> H]
  end.
  done.
Qed.

(** No text that POST /chat/message puts into [message] matches a rule of
    the dashboard. *)
Lemma backendMessage_raw m :
  backendMessage m →
  JS.nonEmpty m = true ∧
  Forall (λ k, JS.includes m k = false) (concat (fst <$> errorRules)).
Proof.
  intros [->|[->|[->|[->|(index & property & Hp & ->)]]]];
    [split; [done|]; simpl; repeat constructor..|].
  split; [done|].
  assert (property = "originalName" ∨ property = "url") as Hcases.
  { apply elem_of_cons in Hp as [->|Hp]; [by left|].
    apply list_elem_of_singleton in Hp as ->. by right. }
  change (concat (fst <$> errorRules))
    with ["timeout"; "timed out"; "overloaded"; "rate limit"; "authentication";
          "unauthorized"; "model"; "configuration"; "workspace"].
  repeat (apply Forall_cons; split); try (by constructor); cbv beta;
    (rewrite includes_around_numeral by done);
    by destruct Hcases as [-> | ->].
Qed.

Lemma checkFiles_message index l fields :
  ChatRoutes.checkFiles index l = Some fields →
  ∃ m, Api.field "message" (JObj fields) = Some (JStr m) ∧ backendMessage m.
Proof.
  revert index. induction l as [|file rest IH]; intros index; [done|]. simpl.
  destruct (negb (JS.truthy (f_originalName file))).
  { intros [= <-]. eexists. split; [reflexivity|].
    do 4 right. exists index, "originalName". split; [by left|done]. }
  destruct (negb (JS.truthy (f_url file))); [|apply IH].
  intros [= <-]. eexists. split; [reflexivity|].
  do 4 right. exists index, "url". split; [by right; left|done].
Qed.

End ErrorTexts.

Ltac plain_failure :=
  split; [auto|]; eexists; split; [reflexivity|]; unfold backendMessage; auto 10.

Section Failures.
Context (E : Env).
Import ChatRoutes.

Lemma validateRequest_failure P b :
  spec P (λ _, True) plainFailure (validateRequest b).
Proof.
  unfold validateRequest.
  destruct (noMessage (b_message b) && noFiles (b_files b));
    [apply spec_respond; plain_failure|].
  destruct (b_files b) as [[l|[]]|];
    try (by apply spec_ret); try (by apply spec_throw).
  destruct (checkFiles 0 l) as [fields|] eqn:Hc; [|by apply spec_ret].
  apply spec_respond. split; [auto|]. by eapply checkFiles_message.
Qed.

Lemma postMessage_failure req :
  spec (λ _, True) (λ r, status r = 200) plainFailure
       (validateRequest (body req);; ensureUser E (user req);; afterUser E req).
Proof.
  eapply spec_bind with (QV1 := λ _, True); [apply validateRequest_failure|].
  intros _ _.
  unfold afterUser, ensureUser, resolveWorkspace, createDefaultWorkspace, resolveChat,
    requireArray, requireContent, persistAndRespond.
  repeat (spec_step; simpl; try done; auto; try plain_failure).
Qed.

End Failures.

(** X16. Whatever goes wrong in the handler of POST /chat/message, the
    dashboard shows the [message] text of the response as it is: for every
    response of the handler with a status other than 200, [apiRequest]
    throws an error with that text, the text is one of the five fixed texts
    of the handler ('Please provide a message or attach files to send',
    'File at index <i> missing originalName property' or '.. url property',
    'User account not found. Please log in again.', 'Files must be an array
    of file objects', 'Sorry, there was an error processing your message.
    Please try again.'), and none of the substring rules of the dashboard
    matches it.  The cause, which the handler puts into [details], is never
    looked at.  (The answers of the middleware in front of the handler are
    not covered.) *)
Theorem failed_send_shows_backend_message (E : Env) (statusText : nat → string)
    (req : Request) (w : World) :
  let r := (ChatRoutes.postMessage E req w).1 in
  status r ≠ 200 →
  ∃ m, Api.sendMessage (Api.served statusText r) = inl m ∧
       backendMessage m ∧
       DashboardState.shownFor (Api.served statusText r) = Some m.
Proof.
  intros r Hs. subst r. revert Hs. rewrite postMessage_unfold. unfold handle.
  destruct (postMessage_failure E req w) as (_ & _ & _ & _ & Ho).
  assert (∀ r, plainFailure r →
            ∃ m, Api.sendMessage (Api.served statusText r) = inl m ∧
                 backendMessage m ∧
                 DashboardState.shownFor (Api.served statusText r) = Some m) as Hshow.
  { intros r [Hst (m & Hf & Hm)]. exists m.
    destruct (backendMessage_raw m Hm) as [Hne Hall].
    assert (Api.sendMessage (Api.served statusText r) = inl m) as Hsend.
    { unfold Api.sendMessage, Api.apiRequest, Api.served, Api.ok.
      cbn [Api.fr_status Api.fr_json].
      destruct Hst as [Hst | [Hst | Hst]]; rewrite Hst; simpl; rewrite Hf; simpl;
        by rewrite Hne. }
    split_and!; [done..|].
    unfold DashboardState.shownFor. rewrite Hsend. f_equal.
    by apply responseText_raw. }
  destruct ((ChatRoutes.validateRequest (body req);;
             ChatRoutes.ensureUser E (user req);; afterUser E req) w)
    as [[r|r|e] w1]; simpl in *; intros Hs.
  - done.
  - by apply Hshow.
  - apply Hshow. unfold ChatRoutes.sendMessageFailed. plain_failure.
Qed.

(** The model is down: the handler answers 500 with the cause 'Request timed
    out' in [details]; the dashboard shows the general text of [message], not
    its text for timeouts. *)
Lemma failed_send_shows_backend_message_witness :
  let r := (ChatRoutes.postMessage Scenario.modelDown Scenario.newChat Scenario.world).1 in
  status r = 500 ∧
  DashboardState.shownFor (Api.served Cases.statusText r)
  = Some "Sorry, there was an error processing your message. Please try again.".
Proof.
  intros r.
  assert (status r = 500) as Hs by (vm_compute; reflexivity).
  split; [exact Hs|].
  destruct (failed_send_shows_backend_message Scenario.modelDown Cases.statusText
              Scenario.newChat Scenario.world)
    as (m & Hsend & _ & Hshown).
  - fold r. rewrite Hs. discriminate.
  - fold r in Hsend, Hshown. rewrite Hshown. f_equal.
    assert (Api.sendMessage (Api.served Cases.statusText r)
            = inl "Sorry, there was an error processing your message. Please try again.")
      as Hm by (vm_compute; reflexivity).
    rewrite Hm in Hsend. by injection Hsend as <-.
Defined.

Section Request.
Import DashboardState.

Lemma hexRun_length n s r : JS.hexRun n s = Some r → String.length s = n + String.length r.
Proof.
  revert s. induction n as [|n IH]; intros s; simpl; [by intros [= ->]|].
  destruct s as [|c s]; [done|]. destruct (JS.isHexDigit c); [|done].
  intros Hr. simpl. by rewrite (IH _ Hr).
Qed.

Lemma hexDash_length n s r :
  JS.hexDash n s = Some r → String.length s = n + 1 + String.length r.
Proof.
  unfold JS.hexDash. destruct (JS.hexRun n s) as [t|] eqn:Ht; [|done].
  destruct t as [|c t]; [done|].
  destruct (Ascii.ascii_dec c "-") as [->|Hc].
  - intros [= <-]. rewrite (hexRun_length _ _ _ Ht). simpl. lia.
  - intros H. exfalso. revert H.
    destruct c as [[] [] [] [] [] [] [] []]; done.
Qed.

Lemma uuid_length s : JS.uuidRegex_test s = true → String.length s = 36.
Proof.
  unfold JS.uuidRegex_test.
  destruct (JS.hexDash 8 s) as [r1|] eqn:H1; [|done].
  destruct (JS.hexDash 4 r1) as [r2|] eqn:H2; [|done].
  destruct (JS.hexDash 4 r2) as [r3|] eqn:H3; [|done].
  destruct (JS.hexDash 4 r3) as [r4|] eqn:H4; [|done].
  destruct (JS.hexRun 12 r4) as [r5|] eqn:H5; [|done].
  destruct r5; [|done]. intros _.
  apply hexDash_length in H1, H2, H3, H4. apply hexRun_length in H5.
  simpl in *. lia.
Qed.

Lemma trim_nonEmpty s : JS.nonEmpty (JS.trim s) = true → JS.nonEmpty s = true.
Proof. by destruct s. Qed.

End Request.

(** X17. The dashboard never sends a request that POST /chat/message
    rejects for want of content: when [sendMessage] does not return at its
    first line (the text is not blank or files are pending, and every pending
    file was uploaded), the body it sends passes the handler's check that a
    message or files are present. *)
Theorem dashboard_request_has_content (messageText : string) (pendingFiles : nat)
    (currentChatId currentWorkspaceId : option string) (uploadedFiles : list File) :
  DashboardState.nothingToSend messageText pendingFiles = false →
  length uploadedFiles = pendingFiles →
  let b := DashboardState.requestData messageText currentChatId currentWorkspaceId
             uploadedFiles in
  ChatRoutes.noMessage (b_message b) && ChatRoutes.noFiles (b_files b) = false.
Proof.
  unfold DashboardState.nothingToSend. intros Hsend Hlen. simpl.
  apply andb_false_iff in Hsend as [Htext|Hfiles].
  - apply negb_false_iff in Htext. rewrite (trim_nonEmpty _ Htext). simpl.
    by destruct (JS.trim messageText).
  - apply Nat.eqb_neq in Hfiles. apply andb_false_iff. right.
    destruct uploadedFiles; simpl in *; [lia|done].
Qed.

(** A text with no files pending. *)
Lemma dashboard_request_has_content_witness :
  let b := DashboardState.requestData "hi" None None [] in
  ChatRoutes.noMessage (b_message b) && ChatRoutes.noFiles (b_files b) = false.
Proof.
  exact (dashboard_request_has_content "hi" 0 None None [] eq_refl eq_refl).
Defined.

(** X18. The dashboard's test of the workspace id (36 characters) lets
    through every id that the handler's UUID pattern accepts: such an id has
    36 characters and is put into the request as it is. *)
Theorem valid_workspace_id_is_forwarded (ws messageText : string)
    (currentChatId : option string) (uploadedFiles : list File) :
  JS.uuidRegex_test ws = true →
  String.length ws = 36 ∧
  b_workspaceId (DashboardState.requestData messageText currentChatId (Some ws)
                   uploadedFiles) = Some ws.
Proof.
  intros Hu. pose proof (uuid_length ws Hu) as Hl. split; [done|].
  unfold DashboardState.requestData. simpl. rewrite Hl. simpl.
  by destruct ws.
Qed.

(** The id of Alice's workspace. *)
Lemma valid_workspace_id_is_forwarded_witness :
  b_workspaceId (DashboardState.requestData "hi" None (Some Scenario.wsAlice) [])
  = Some Scenario.wsAlice.
Proof.
  exact (proj2 (valid_workspace_id_is_forwarded Scenario.wsAlice "hi" None [] eq_refl)).
Defined.

(** X19. The action flags of the dashboard never show a message as liked
    and disliked at once: the update at the end of [handleMessageAction]
    keeps that for every message, whatever the action and whatever it took
    the current state to be; it touches the flags of the one message only;
    and when the current state is read from the flags themselves, it flips
    the flag of the action. *)
Theorem like_and_dislike_exclude (messageId : string) (action : Dashboard.Action)
    (isCurrentlyActive : bool) (prev : gmap string Dashboard.Flags) :
  let next := DashboardState.updateFlags messageId action isCurrentlyActive prev in
  (exclusive prev → exclusive next) ∧
  (∀ other, other ≠ messageId → next !! other = prev !! other) ∧
  (isCurrentlyActive = DashboardState.isActive prev messageId action →
   DashboardState.isActive next messageId action = negb isCurrentlyActive).
Proof.
  intros next. subst next. unfold DashboardState.updateFlags. split_and!.
  - intros Hex id f. destruct (decide (id = messageId)) as [->|Hne].
    + rewrite lookup_insert_eq. intros [= <-].
      assert (¬ (Dashboard.is_liked (default DashboardState.noFlags (prev !! messageId))
                 = true ∧
                 Dashboard.is_disliked (default DashboardState.noFlags (prev !! messageId))
                 = true)) as Hold.
      { destruct (prev !! messageId) as [f|] eqn:Hf; simpl; [by eapply Hex|].
        by intros [? ?]. }
      revert Hold.
      destruct (default DashboardState.noFlags (prev !! messageId)) as [[] [] ? ?];
        destruct action, isCurrentlyActive; simpl; intros Hold [? ?]; try done;
        by apply Hold.
    + rewrite lookup_insert_ne by done. apply Hex.
  - intros other Hne. by rewrite lookup_insert_ne.
  - intros _. unfold DashboardState.isActive. rewrite lookup_insert_eq.
    destruct (default DashboardState.noFlags (prev !! messageId)) as [[] [] ? ?];
      by destruct action.
Qed.
(* ===================================================================== *)
(** ** The database helper, the toggle and the orchestrator *)
(* ===================================================================== *)

(** X20. [createMessage] stores the message and sets the counter of the chat
    from Messages itself: when it returns, the row it returns is in Messages
    and is listed by [getMessagesByChatId], the chat has one message more
    than before, and every chat with that id has a messageCount equal to the
    number of its messages, whatever the counter was before, and has
    lastMessageAt set to the time of the update; no other chat changes. *)
Theorem createMessage_recounts (E : Env) (id chatId userId content role : string)
    (w w' : World) (row : MessageRow) :
  DatabaseOps.createMessage E id chatId userId content role w = (Val row, w') →
  row = mkMessage id chatId userId content role (clock w) ∧
  row ∈ Messages (db w') ∧
  (∃ l, DatabaseOps.getMessagesByChatId chatId w' = (Val l, w') ∧ row ∈ l ∧
        length l = messagesIn (db w') chatId) ∧
  messagesIn (db w') chatId = S (messagesIn (db w) chatId) ∧
  (∀ c, c ∈ Chats (db w') → c_id c = chatId →
        c_messageCount c = Z.of_nat (messagesIn (db w') chatId) ∧
        c_lastMessageAt c = Some (S (clock w))) ∧
  (∀ c, c ∈ Chats (db w') → c_id c ≠ chatId → c ∈ Chats (db w)).
Proof.
  unfold DatabaseOps.createMessage, mbind, M_bind, getClock, exec, statement, mret,
    M_ret. simpl.
  destruct (Sql.run _ _ _) as [d1|] eqn:Hins; simpl; [|done].
  apply run_insert_message in Hins as (-> & _ & _).
  unfold DatabaseOps.recountChat. simpl.
  destruct (forallb _ _); simpl; [|done].
  intros [= <- <-]. simpl.
  assert (mkMessage id chatId userId content role (clock w)
          ∈ Messages (db w) ++ [mkMessage id chatId userId content role (clock w)])
    as Hin by (apply elem_of_app; right; by left).
  assert (messagesIn
            (Sql.withChats
               (Sql.withMessages (db w)
                  (Messages (db w) ++ [mkMessage id chatId userId content role (clock w)]))
               ((λ c, if bool_decide (c_id c = chatId)
                      then DatabaseOps.recounted (S (clock w))
                             (length (filter (λ m, m_chatId m = chatId)
                                (Messages (db w)
                                 ++ [mkMessage id chatId userId content role (clock w)])))
                             c
                      else c) <$> Chats (db w))) chatId
          = S (messagesIn (db w) chatId)) as Hcount.
  { unfold messagesIn. simpl.
    rewrite filter_app, filter_cons_True, filter_nil, length_app by done. simpl. lia. }
  split_and!; [done|done| |done| |].
  - eexists. split; [reflexivity|]. unfold ChatRouter.messagesOf. simpl. split.
    + rewrite merge_sort_Permutation. by apply list_elem_of_filter.
    + by rewrite merge_sort_Permutation.
  - intros c' (c & -> & Hc)%list_elem_of_fmap.
    case_bool_decide; [|by intros ?].
    intros _. by split.
  - intros c' (c & -> & Hc)%list_elem_of_fmap.
    case_bool_decide; [by intros ?|done].
Qed.

(** A third message for Alice's chat. *)
Lemma createMessage_recounts_witness :
  let run := DatabaseOps.createMessage Scenario.production "m3" Scenario.chatAlice
               "alice" "again" "user" Scenario.world in
  messagesIn (db run.2) Scenario.chatAlice = 3.
Proof.
  intros run.
  assert (∃ row, run.1 = Val row) as [row Hrow] by (eexists; vm_compute; reflexivity).
  assert (run = (Val row, run.2)) as Hrun
    by (rewrite <-Hrow; apply surjective_pairing).
  destruct (createMessage_recounts Scenario.production "m3" Scenario.chatAlice
              "alice" "again" "user" Scenario.world run.2 row Hrun)
    as (_ & _ & _ & Hcount & _).
  rewrite Hcount. reflexivity.
Defined.

(** Alice starts a new chat, and the chat of her message is in a workspace
    that she owns. *)
Lemma new_chat_in_owned_workspace_witness :
  let run := ChatRoutes.postMessage Scenario.production Scenario.newChat Scenario.world in
  ∃ id chat now ws,
    mkMessage id chat "alice" "hi" "user" now ∈ Messages (db run.2) ∧
    chatInWorkspace (db run.2) chat ws ∧
    ownsWorkspace (db run.2) "alice" ws.
Proof.
  intros run.
  exact (new_chat_in_owned_workspace Scenario.production Scenario.newChat
           Scenario.world run.2 run.1 (surjective_pairing run)
           ltac:(vm_compute; reflexivity) eq_refl).
Defined.

Section Orchestrator.
Context (env : gmap string string) (sdk : Azure.Sdk).
Import Azure.

Lemma sql_keeps_clients c :
  blobServiceClient (initializeSQLDatabase env sdk c).2 = blobServiceClient c ∧
  appConfigClient (initializeSQLDatabase env sdk c).2 = appConfigClient c ∧
  openAIClient (initializeSQLDatabase env sdk c).2 = openAIClient c.
Proof.
  unfold initializeSQLDatabase.
  repeat match goal with
  | |- context [if ?b then _ else _] => destruct b
  | |- context [match ?x with Some _ => _ | None => _ end] => destruct x
  end; done.
Qed.

Lemma blob_installs c :
  ∃ b, (initializeBlobStorage env sdk c).2 = withBlob c b.
Proof.
  unfold initializeBlobStorage.
  repeat match goal with
  | |- context [if ?b then _ else _] => destruct b
  | |- context [match ?x with Some _ => _ | None => _ end] => destruct x
  end; by eexists.
Qed.

Lemma appConfig_installs c :
  ∃ a, (initializeAppConfiguration env sdk c).2 = withAppConfig c a.
Proof.
  unfold initializeAppConfiguration.
  repeat match goal with
  | |- context [if ?b then _ else _] => destruct b
  | |- context [match ?x with Some _ => _ | None => _ end] => destruct x
  end; by eexists.
Qed.

Lemma openAI_keeps_clients c :
  blobServiceClient (initializeOpenAI env sdk c).2 = blobServiceClient c ∧
  appConfigClient (initializeOpenAI env sdk c).2 = appConfigClient c.
Proof.
  unfold initializeOpenAI.
  repeat match goal with
  | |- context [if ?b then _ else _] => destruct b
  | |- context [match ?x with Some _ => _ | None => _ end] => destruct x
  end; done.
Qed.

End Orchestrator.

(** X22. [initializeAzureServices] never throws, and the SQL adapter decides
    what the later adapters get to do: when the SQL adapter throws, for
    whatever reason, no Blob Storage, App Configuration or OpenAI client is
    installed; when it returns, a Blob Storage client and an App
    Configuration client (real or mock) are installed in every case. *)
Theorem orchestrator_follows_sql_adapter (env : gmap string string) (sdk : Azure.Sdk)
    (c : Azure.Clients) :
  let result := Azure.initializeAzureServices env sdk c in
  result.1 = Azure.Returned ∧
  match (Azure.initializeSQLDatabase env sdk c).1 with
  | Azure.Thrown _ =>
      Azure.blobServiceClient result.2 = Azure.blobServiceClient c ∧
      Azure.appConfigClient result.2 = Azure.appConfigClient c ∧
      Azure.openAIClient result.2 = Azure.openAIClient c
  | Azure.Returned =>
      is_Some (Azure.blobServiceClient result.2) ∧
      is_Some (Azure.appConfigClient result.2)
  end.
Proof.
  intros result. subst result. unfold Azure.initializeAzureServices.
  pose proof (sql_keeps_clients env sdk c) as Hsql.
  destruct (Azure.initializeSQLDatabase env sdk c) as [[|e] c1]; simpl in *;
    [|by split].
  pose proof (blob_never_throws env sdk c1) as Hb.
  destruct (blob_installs env sdk c1) as [b Hb2].
  destruct (Azure.initializeBlobStorage env sdk c1) as [[|e] c2]; simpl in *;
    [|done]. subst c2.
  pose proof (appConfig_never_throws env sdk (Azure.withBlob c1 b)) as Ha.
  destruct (appConfig_installs env sdk (Azure.withBlob c1 b)) as [a Ha2].
  destruct (Azure.initializeAppConfiguration env sdk _) as [[|e] c3]; simpl in *;
    [|done]. subst c3.
  pose proof (openAI_keeps_clients env sdk
                (Azure.withAppConfig (Azure.withBlob c1 b) a)) as [Ho1 Ho2].
  destruct (Azure.initializeOpenAI env sdk _) as [[|e] c4]; simpl in *;
    (split; [done|]); rewrite Ho1, Ho2; by split.
Qed.

Section ToggleFrame.
Context (E : Env).
Import MessageActionRoute.

Lemma run_insert_action now id m u a d d1 :
  Sql.run now (InsertAction id m u a) d = Some d1 →
  d1 = Sql.withActions d (MessageActions d ++ [mkAction id m u a now]).
Proof.
  unfold Sql.run. destruct (_ && _); [|done]. by intros [= <-].
Qed.

End ToggleFrame.

(** X23. A call of the message-action route touches nothing but the rows
    of MessageActions with the key (messageId, userId of the caller,
    actionType) of the call: the other tables are as before, every row with
    another key (the reactions of other users, and the caller's other
    reactions) is in the table afterwards exactly when it was before, and a
    call answered 400 or 404 leaves the database as it was. *)
Theorem toggle_touches_one_key (E : Env) (chatId messageId : string)
    (actionType : option string) (u : AuthUser) (w : World) :
  let run := MessageActionRoute.postMessageAction E chatId messageId actionType u w in
  Users (db run.2) = Users (db w) ∧
  Workspaces (db run.2) = Workspaces (db w) ∧
  Chats (db run.2) = Chats (db w) ∧
  Messages (db run.2) = Messages (db w) ∧
  (∀ r, ¬ Sql.actionKeyIs messageId (userId u) (interp actionType) r →
        r ∈ MessageActions (db run.2) ↔ r ∈ MessageActions (db w)) ∧
  (status run.1 = 400 ∨ status run.1 = 404 → db run.2 = db w).
Proof.
  intros run. subst run.
  unfold MessageActionRoute.postMessageAction, MessageActionRoute.toggle, handle,
    mbind, M_bind, query, exec, newUuid, respond, finish, mret, M_ret. simpl.
  destruct (negb _); simpl; [by split_and!|].
  destruct (Sql.isNil _); simpl; [by split_and!|].
  destruct (0 <? _); simpl.
  - split_and!; try done; try (by intros [?|?]).
    intros r Hk. rewrite list_elem_of_filter. tauto.
  - destruct (Sql.run _ _ _) as [d1|] eqn:Hrun; simpl.
    + apply run_insert_action in Hrun as ->. simpl.
      split_and!; try done; try (by intros [?|?]).
      intros r Hk. rewrite elem_of_app, list_elem_of_singleton. split; [|tauto].
      intros [?| ->]; [done|]. by destruct Hk.
    + split_and!; try done; try (by intros [?|?]).
Qed.
(* ===================================================================== *)
(** ** POST /chat/message with the id of a chat that does not exist *)
(* ===================================================================== *)

Section UnknownChat.
Context (E : Env).
Import ChatRoutes.

(** The first statement of the persisting stage is rejected for a chat
    that does not exist. *)
Lemma persistAndRespond_unknown u chat content w :
  chat ∉ Sql.chatIds (db w) →
  ∃ e w1, persistAndRespond E u chat content w = (Exc e, w1) ∧ db w1 = db w.
Proof.
  intros Hc. unfold persistAndRespond, mbind at 1 2, M_bind at 1 2, newUuid, exec.
  simpl.
  assert (∀ now id, Sql.run now (InsertMessage id chat (userId u) content "user") (db w)
                    = None) as Hrej.
  { intros now id. unfold Sql.run, Sql.isIn.
    rewrite (bool_decide_eq_false_2 _ Hc). by rewrite andb_false_r. }
  rewrite Hrej. simpl. eexists _, _. by split.
Qed.

End UnknownChat.

(** X24. POST /chat/message never creates a chat under an id that the
    client chose: when the request carries a chatId that is not the id of a
    chat, the request is not answered 200, and Chats and Messages are as
    before (the insert of the user message is rejected by the foreign key on
    Messages.chatId, so the model is not called either).  The dashboard
    starts with such an id of its own making. *)
Theorem unknown_chat_is_never_written (E : Env) (req : Request) (w : World) :
  JS.truthy (b_chatId (body req)) = true →
  interp (b_chatId (body req)) ∉ Sql.chatIds (db w) →
  let run := ChatRoutes.postMessage E req w in
  status run.1 ≠ 200 ∧
  Chats (db run.2) = Chats (db w) ∧
  Messages (db run.2) = Messages (db w).
Proof.
  intros Ht Hc run. subst run.
  remember (ChatRoutes.postMessage E req w) as run eqn:Hrun.
  rewrite postMessage_unfold in Hrun.
  unfold handle, afterUser, mbind at 1 2 3 4 5 6, M_bind at 1 2 3 4 5 6 in Hrun.
  pose proof (validateRequest_world (body req) w) as Hw0.
  pose proof (validateRequest_spec (λ _, True) (body req) w) as (_ & _ & _ & _ & Hv).
  destruct (ChatRoutes.validateRequest (body req) w) as [[[]|r|e] w1];
    simpl in *; subst w1; [|subst run; simpl; by rewrite Hv|by subst run].
  destruct (ensureUser_workspace E (user req) w) as (evs1 & _ & Hd1 & HP1 & Ho1).
  destruct (replay_workspace_tables evs1 (db w) HP1) as [Hc1 Hm1]. rewrite Hd1 in *.
  destruct (ChatRoutes.ensureUser E (user req) w) as [[[]|r|e] w2];
    simpl in *; [|subst run; simpl; by rewrite Ho1|by subst run].
  destruct (resolveWorkspace_workspace E (user req) (b_workspaceId (body req)) w2)
    as (evs2 & _ & Hd2 & HP2 & Ho2).
  destruct (replay_workspace_tables evs2 (db w2) HP2) as [Hc2 Hm2]. rewrite Hd2 in *.
  destruct (ChatRoutes.resolveWorkspace E (user req) _ w2) as [[ws|r|e] w3];
    simpl in *; [|done|subst run; simpl; by rewrite Hc2, Hm2].
  destruct (resolveChat_given E (user req) (body req) ws w3 Ht) as [title Hchat].
  rewrite Hchat in Hrun. simpl in Hrun.
  destruct (requireArray_cases (body req) w3) as [[_ Ha]|[_ Ha]];
    rewrite Ha in Hrun; simpl in Hrun; [|subst run; simpl; by rewrite Hc2, Hm2].
  unfold ChatRoutes.requireContent in Hrun.
  destruct (negb _); simpl in Hrun; [subst run; simpl; by rewrite Hc2, Hm2|].
  destruct (persistAndRespond_unknown E (user req) (interp (b_chatId (body req)))
              (ChatRoutes.userMessageContent E (body req)) w3)
    as (e & w4 & Hp & Hd).
  { unfold Sql.chatIds. by rewrite Hc2, Hc1. }
  rewrite Hp in Hrun. subst run. simpl. by rewrite Hd, Hc2, Hm2.
Qed.

(** Alice's dashboard sends its first message with the chat id it made up. *)
Lemma unknown_chat_is_never_written_witness :
  let req := mkRequest (DashboardState.requestData "hi"
                          (Some "0f8fad5b-d9cb-469f-a165-70867728950e") None [])
                       Scenario.alice in
  let run := ChatRoutes.postMessage Scenario.production req Scenario.world in
  status run.1 ≠ 200 ∧ Messages (db run.2) = Messages Scenario.database.
Proof.
  intros req run.
  destruct (unknown_chat_is_never_written Scenario.production req Scenario.world eq_refl)
    as (Hs & _ & Hm).
  - intros Hin. simpl in Hin.
    repeat (apply elem_of_cons in Hin as [Hin|Hin]; [discriminate|]).
    by apply elem_of_nil in Hin.
  - split; [exact Hs|exact Hm].
Defined.
(* ===================================================================== *)
(** ** POST /chat/message with a workspace id that is not the caller's *)
(* ===================================================================== *)

Section DefaultWorkspace.
Context (E : Env).
Import ChatRoutes.

Lemma run_chat_stage s now ok d d1 :
  chatStageEvent (EvSql s now ok) → Sql.run now s d = Some d1 →
  Workspaces d1 = Workspaces d.
Proof.
  intros Hs Hrun. unfold Sql.run in Hrun.
  destruct s; simpl in Hs; try done;
    match type of Hrun with (if ?c then _ else _) = _ => destruct c end;
    try discriminate; by injection Hrun as <-.
Qed.

Lemma replay_chat_stage evs d :
  Forall chatStageEvent evs → Workspaces (replay evs d) = Workspaces d.
Proof.
  intros Hall. revert d. induction Hall as [|e evs He Hall IH]; intros d; [done|].
  simpl. destruct e as [s now [|]|]; [|apply IH..].
  destruct (Sql.run now s d) as [d1|] eqn:Hrun; [|apply IH].
  rewrite IH. by eapply run_chat_stage.
Qed.

Lemma chatStage_spec req ws :
  spec chatStageEvent (λ _, True) (λ _, True)
       (chat ← resolveChat E (user req) (body req) ws;
        requireArray (body req);;
        content ← requireContent E (body req);
        persistAndRespond E (user req) chat.1 content).
Proof.
  unfold resolveChat, requireArray, requireContent, persistAndRespond. spec_auto.
Qed.

Lemma ensureUser_present u w :
  userId u ∈ Sql.userIds (db w) → ensureUser E u w = (Val tt, w).
Proof.
  intros Hu. unfold ensureUser, mbind, M_bind, query. simpl.
  by rewrite (row_with_id _ _ Hu).
Qed.

(** A well-formed workspace id that is not a workspace of the caller is
    answered with a new default workspace. *)
Lemma resolveWorkspace_stale u ws w :
  JS.uuidRegex_test ws = true →
  ¬ ownsWorkspace (db w) (userId u) ws →
  resolveWorkspace E u (Some ws) w = createDefaultWorkspace E u w.
Proof.
  intros Hre Hn.
  assert (JS.nonEmpty ws = true) as Hne by (by destruct ws).
  unfold resolveWorkspace. simpl. rewrite Hre. simpl. rewrite ?Hne. simpl.
  rewrite ?Hne. simpl.
  unfold mbind at 1, M_bind at 1, query. simpl.
  by rewrite (not_owned_filter _ _ _ Hn).
Qed.

Lemma createDefaultWorkspace_accepted u w :
  userId u ∈ Sql.userIds (db w) →
  uuidv4 E (uuidCalls w) ∉ Sql.workspaceIds (db w) →
  ∃ w1, createDefaultWorkspace E u w = (Val (uuidv4 E (uuidCalls w)), w1) ∧
        Workspaces (db w1) =
        Workspaces (db w)
          ++ [defaultWorkspace (uuidv4 E (uuidCalls w)) (userId u) (clock w)].
Proof.
  intros Hu Hfresh.
  unfold createDefaultWorkspace, mbind, M_bind, newUuid, exec, mret, M_ret. simpl.
  unfold Sql.run, Sql.isIn.
  rewrite (bool_decide_eq_false_2 _ Hfresh), (bool_decide_eq_true_2 _ Hu). simpl.
  by eexists.
Qed.

End DefaultWorkspace.

(** X25. A well-formed workspaceId that does not name a workspace of the
    caller makes POST /chat/message add a workspace: for a validated request
    of a user with a row in Users, whose workspaceId matches the UUID pattern
    and is not the id of a workspace the caller owns, and with a new id drawn
    for the workspace, Workspaces has grown by one 'Default Workspace' of the
    caller when the handler is done, whether or not the caller already owns
    workspaces and however the request is answered in the end. *)
Theorem stale_workspace_id_adds_workspace (E : Env) (req : Request) (w : World)
    (ws : string) :
  validated (body req) →
  userId (user req) ∈ Sql.userIds (db w) →
  b_workspaceId (body req) = Some ws →
  JS.uuidRegex_test ws = true →
  ¬ ownsWorkspace (db w) (userId (user req)) ws →
  uuidv4 E (uuidCalls w) ∉ Sql.workspaceIds (db w) →
  Workspaces (db (ChatRoutes.postMessage E req w).2) =
  Workspaces (db w)
    ++ [defaultWorkspace (uuidv4 E (uuidCalls w)) (userId (user req)) (clock w)].
Proof.
  intros Hv Hu Hws Hre Hn Hfresh.
  rewrite postMessage_unfold, handle_world.
  unfold mbind at 1 2, M_bind at 1 2.
  rewrite (validateRequest_ok _ _ Hv), (ensureUser_present E _ _ Hu).
  unfold afterUser, mbind at 1, M_bind at 1.
  rewrite Hws, (resolveWorkspace_stale E _ _ _ Hre Hn).
  destruct (createDefaultWorkspace_accepted E (user req) w Hu Hfresh)
    as (w1 & -> & Hw1).
  destruct (chatStage_spec E req (uuidv4 E (uuidCalls w)) w1)
    as (evs & _ & Hd & HP & _).
  rewrite <-Hd, replay_chat_stage by done. exact Hw1.
Qed.

(** Alice owns a workspace and names Bob's: a third workspace appears. *)
Lemma stale_workspace_id_adds_workspace_witness :
  length (Workspaces
            (db (ChatRoutes.postMessage Scenario.production Cases.staleWorkspace
                   Scenario.world).2)) = 3.
Proof.
  rewrite (stale_workspace_id_adds_workspace Scenario.production Cases.staleWorkspace
             Scenario.world Scenario.wsBob).
  - reflexivity.
  - split_and!; [reflexivity|intros l; discriminate|discriminate].
  - apply list_elem_of_here.
  - reflexivity.
  - reflexivity.
  - intros (r & Hr & Hid & Ho). simpl in Hr.
    repeat (apply elem_of_cons in Hr as [->|Hr]; [discriminate|]).
    by apply elem_of_nil in Hr.
  - intros Hin. simpl in Hin.
    repeat (apply elem_of_cons in Hin as [Hin|Hin]; [discriminate|]).
    by apply elem_of_nil in Hin.
Defined.
(* ===================================================================== *)
(** ** POST /chat/message and archived chats *)
(* ===================================================================== *)

Section Archived.
Context (E : Env).
Import ChatRoutes.

Lemma archivedIds_fmap (f : ChatRow → ChatRow) (l : list ChatRow) :
  (∀ c, c_id (f c) = c_id c ∧ c_isArchived (f c) = c_isArchived c) →
  c_id <$> filter (λ c, c_isArchived c = true) (f <$> l)
  = c_id <$> filter (λ c, c_isArchived c = true) l.
Proof.
  intros Hf. induction l as [|c l IH]; [done|].
  rewrite fmap_cons. destruct (Hf c) as [Hid Ha].
  destruct (c_isArchived c) eqn:Hc.
  - rewrite !filter_cons_True by congruence. rewrite !fmap_cons. by rewrite Hid, IH.
  - rewrite !filter_cons_False by congruence. done.
Qed.

Lemma run_archivedIds s now d d1 :
  Sql.run now s d = Some d1 → archivedIds d1 = archivedIds d.
Proof.
  unfold Sql.run, archivedIds. intros Hrun.
  destruct s;
    try (match type of Hrun with (if ?c then _ else _) = _ => destruct c end;
         try discriminate);
    injection Hrun as <-; simpl; try done.
  - rewrite filter_app, filter_cons_False, filter_nil by done. by rewrite app_nil_r.
  - apply archivedIds_fmap. intros c. by case_bool_decide.
Qed.

Lemma replay_archivedIds evs d : archivedIds (replay evs d) = archivedIds d.
Proof.
  revert d. induction evs as [|e evs IH]; intros d; [done|].
  simpl. destruct e as [s now [|]|]; [|apply IH..].
  destruct (Sql.run now s d) as [d1|] eqn:Hrun; [|apply IH].
  rewrite IH. by eapply run_archivedIds.
Qed.

End Archived.

(** X26. POST /chat/message never changes which chats are archived: the
    archived chats are the same after any request as before it, however the
    request is answered.  And being archived does not keep a chat from
    growing: a request that names an archived chat and is answered 200 has
    stored the user message in that chat, which is archived still.  So a
    chat deleted with DELETE /chat/:chatId can take messages as before. *)
Theorem archived_chat_takes_messages (E : Env) (req : Request) (w : World) :
  let chat := interp (b_chatId (body req)) in
  let run := ChatRoutes.postMessage E req w in
  archivedIds (db run.2) = archivedIds (db w) ∧
  (JS.truthy (b_chatId (body req)) = true →
   chat ∈ archivedIds (db w) →
   status run.1 = 200 →
   chat ∈ archivedIds (db run.2) ∧
   ∃ id now,
     mkMessage id chat (userId (user req)) (ChatRoutes.userMessageContent E (body req))
               "user" now
     ∈ Messages (db run.2)).
Proof.
  intros chat run.
  assert (archivedIds (db run.2) = archivedIds (db w)) as Hsame.
  { subst run. unfold ChatRoutes.postMessage. rewrite handle_world.
    destruct (postMessage_statements E req w) as (evs & _ & <- & _).
    apply replay_archivedIds. }
  split; [done|]. intros Ht Hin Hs.
  split; [by rewrite Hsame|].
  subst run chat. revert Hs.
  unfold ChatRoutes.postMessage.
  pose proof (prepare_val E req w) as Hval.
  unfold handle, mbind, M_bind.
  destruct (prepare_spec E req w) as (_ & _ & _ & _ & Ho).
  destruct (ChatRoutes.prepare E req w) as [[[chat content]|r|e] w1]; simpl in *;
    [|intros Hs; rewrite Hs in Ho; by destruct Ho|done].
  destruct (Hval chat content w1 eq_refl) as (-> & _ & _ & _ & Hchat).
  rewrite Ht in Hchat. destruct Hchat as [-> _].
  intros Hs.
  destruct (persistAndRespond_chat E (user req) (interp (b_chatId (body req)))
              (ChatRoutes.userMessageContent E (body req)) w1) as (id & now & Hm).
  { unfold handle.
    by destruct (ChatRoutes.persistAndRespond E _ _ _ w1) as [[?|?|?] ?]. }
  exists id, now.
  by destruct (ChatRoutes.persistAndRespond E _ _ _ w1) as [[?|?|?] ?].
Qed.

(** Alice deletes her chat and writes into it: the request is answered 200,
    the chat is archived still, and the message is stored. *)
Lemma archived_chat_takes_messages_witness :
  let run := ChatRoutes.postMessage Scenario.production Cases.intoOwnChat
               Cases.afterDelete in
  status run.1 = 200 ∧
  Scenario.chatAlice ∈ archivedIds (db run.2) ∧
  ∃ id now,
    mkMessage id Scenario.chatAlice "alice" "hi again" "user" now ∈ Messages (db run.2).
Proof.
  intros run.
  assert (status run.1 = 200) as Hs by (vm_compute; reflexivity).
  split; [exact Hs|].
  destruct (archived_chat_takes_messages Scenario.production Cases.intoOwnChat
              Cases.afterDelete) as [_ H].
  apply (H eq_refl); [|exact Hs].
  vm_compute. apply list_elem_of_here.
Defined.
(* ===================================================================== *)
(** ** The endpoint of the OpenAI client *)
(* ===================================================================== *)

Section Endpoint.

Lemma nonEmpty_append_slash u : JS.nonEmpty (u +:+ "/") = true.
Proof. by destruct u. Qed.

Lemma endsWithChar_append u c : JS.endsWithChar (u +:+ String c EmptyString) c = true.
Proof.
  induction u as [|a u IH]; [by apply bool_decide_eq_true|].
  rewrite append_cons. cbn [JS.endsWithChar].
  destruct (u +:+ String c EmptyString) eqn:Hu; [by destruct u|done].
Qed.

Lemma dropLast_append u c : JS.dropLast (u +:+ String c EmptyString) = u.
Proof.
  induction u as [|a u IH]; [done|].
  rewrite append_cons. cbn [JS.dropLast].
  destruct (u +:+ String c EmptyString) eqn:Hu; [by destruct u|by rewrite IH].
Qed.

End Endpoint.

(** X27. One slash at the end of AZURE_OPENAI_ENDPOINT makes no difference:
    for an endpoint that is not empty and does not end in a slash,
    [initializeOpenAI] does the same with the endpoint and with the endpoint
    followed by a slash (the same client, or the same error), whatever the
    rest of the environment is. *)
Theorem openai_endpoint_trailing_slash (env : gmap string string) (sdk : Azure.Sdk)
    (c : Azure.Clients) (endpoint : string) :
  JS.nonEmpty endpoint = true →
  JS.endsWithChar endpoint "/" = false →
  Azure.initializeOpenAI (<["AZURE_OPENAI_ENDPOINT" := endpoint +:+ "/"]> env) sdk c
  = Azure.initializeOpenAI (<["AZURE_OPENAI_ENDPOINT" := endpoint]> env) sdk c.
Proof.
  intros Hne Hslash. unfold Azure.initializeOpenAI, Azure.envOr.
  rewrite !lookup_insert_eq, !lookup_insert_ne by done.
  assert (JS.orElse (Some (endpoint +:+ "/")) "" = endpoint +:+ "/") as ->
    by (unfold JS.orElse; by rewrite nonEmpty_append_slash).
  assert (JS.orElse (Some endpoint) "" = endpoint) as ->
    by (unfold JS.orElse; by rewrite Hne).
  by rewrite nonEmpty_append_slash, Hne, endsWithChar_append, Hslash, dropLast_append.
Qed.

(** An endpoint written with and without the slash. *)
Lemma openai_endpoint_trailing_slash_witness :
  Azure.initializeOpenAI (Cases.openAIEnv "https://aiva.openai.azure.com/")
    Scenario.sdk Scenario.emptyClients
  = Azure.initializeOpenAI (Cases.openAIEnv "https://aiva.openai.azure.com")
      Scenario.sdk Scenario.emptyClients.
Proof.
  exact (openai_endpoint_trailing_slash (<["AZURE_OPENAI_API_KEY" := "key"]> ∅)
           Scenario.sdk Scenario.emptyClients "https://aiva.openai.azure.com"
           eq_refl eq_refl).
Defined.
(* ===================================================================== *)
(** ** POST /chat/message: what a rejected request leaves behind *)
(* ===================================================================== *)

(** X1. A request that POST /chat/message answers with status 400 leaves the
    world as it found it (no statement is issued, no id is drawn, the model
    is not called), with one exception: the 400 'Files must be an array of
    file objects'.  That answer is given only to a [files] that is truthy
    and not an array, and it is sent after the user, the workspace and the
    chat have been seen to: Messages is as before, but for a request without
    a chatId a new chat of the caller, without messages, stays behind.  (The
    400 of the check for an empty assembled content is never sent.) *)
Theorem rejected_request_writes (E : Env) (req : Request) (w w' : World)
    (resp : Response) :
  ChatRoutes.postMessage E req w = (resp, w') →
  status resp = 400 →
  (resp ≠ filesNotArray → w' = w) ∧
  (arrayOrAbsent (body req) → resp ≠ filesNotArray) ∧
  (resp = filesNotArray →
   Messages (db w') = Messages (db w) ∧
   (JS.truthy (b_chatId (body req)) = false →
    ∃ id title ws now,
      (id ∉ Sql.chatIds (db w)) ∧
      Chats (db w') = Chats (db w) ++ [autoChat id title (userId (user req)) ws now])).
Proof.
  rewrite postMessage_stages. unfold handle, mbind at 1, M_bind at 1.
  pose proof (upToChat_val E req w) as Hval.
  pose proof (upToChat_ret E req w) as Hret.
  destruct (upToChat E req w) as [[chat|r|e] w1]; simpl.
  - destruct (Hval chat w1 eq_refl) as (Hv & Hm & Hchat).
    unfold mbind, M_bind.
    destruct (requireArray_cases (body req) w1) as [[Ha ->]|[[len Hlen] ->]].
    + unfold ChatRoutes.requireContent.
      rewrite (content_nonEmpty E _ Hv Ha). simpl.
      destruct (persistAndRespond_status E (user req) chat.1
                  (ChatRoutes.userMessageContent E (body req)) w1)
        as (_ & _ & _ & _ & Ho).
      destruct (ChatRoutes.persistAndRespond E _ _ _ w1) as [[r|r|e] w2];
        simpl in *; intros [= <- <-] Hs; try done; lia.
    + intros [= <- <-] _. split_and!; [done| |].
      * intros Ha. by destruct (Ha len).
      * intros _. split; [done|]. intros Ht. rewrite Ht in Hchat.
        destruct Hchat as (Hnew & ws & now & Hc). by eexists _, _, _, _.
  - destruct (Hret r w1 eq_refl) as (-> & _ & Hne).
    intros [= <- <-] _. by split_and!.
  - by intros [= <- <-].
Qed.

(** Alice sends two files, the second without a URL: 400, and the world is
    the same.  Alice sends [files: true] with her message: 400, and a chat
    has been added. *)
Lemma rejected_request_writes_witness :
  let bad := ChatRoutes.postMessage Scenario.production Cases.badFile Scenario.world in
  let other :=
    ChatRoutes.postMessage Scenario.production Cases.notAnArray Scenario.world in
  (status bad.1 = 400 ∧ bad.2 = Scenario.world) ∧
  (status other.1 = 400 ∧
   length (Chats (db other.2)) = S (length (Chats Scenario.database))).
Proof.
  intros bad other. split.
  - assert (status bad.1 = 400) as Hs by (vm_compute; reflexivity).
    split; [exact Hs|].
    destruct (rejected_request_writes Scenario.production Cases.badFile
                Scenario.world bad.2 bad.1 (surjective_pairing bad) Hs)
      as (Hsame & _ & _).
    apply Hsame. vm_compute. discriminate.
  - assert (status other.1 = 400) as Hs by (vm_compute; reflexivity).
    split; [exact Hs|].
    destruct (rejected_request_writes Scenario.production Cases.notAnArray
                Scenario.world other.2 other.1 (surjective_pairing other) Hs)
      as (_ & _ & Hchat).
    destruct Hchat as (_ & id & title & ws & now & _ & Hc);
      [vm_compute; reflexivity|reflexivity|].
    rewrite Hc, length_app. simpl. lia.
Defined.
